(** * MarketPulse: [market_state.py]

    A shallow embedding of [src/market-state/market_state.py] and the
    properties of its fetch, summarization and dispatch layers.

    Conventions of the embedding.
    - Python values that travel through reports and table cells are the
      inductive [pyval]; a [float] is an IEEE-754 datum of the Standard
      Library's [spec_float] (with its NaN, its infinities and both zeros),
      compared with [SFltb], [SFleb] and [SFeqb].
    - A [str] is the string of the bytes of its UTF-8 encoding, as the
      literals of this file are; [str.strip] removes the white space of
      Unicode, one to three bytes a character.
    - A [pandas.DataFrame] is its list of column labels and its list of rows.
      The frames of the data provider carry pairwise distinct string labels;
      a cell is addressed by the position of its label.
    - A Python [dict] is an association list in insertion order.
    - What the Python runtime and pandas compute from text or by floating
      point arithmetic (parsing a number, [repr], [quantile]) is gathered in
      the class [PyRuntime]; every theorem holds for each of its instances.
    - An exception is observed through [type(e).__name__] and [str(e)], and
      through its class where a handler tests it: [except Exception] catches
      the subclasses of [Exception] and lets [KeyboardInterrupt],
      [SystemExit] and the like through.
    - [params] is [None] or a [dict], as the signature of [get_market_state]
      types it; [get_market_state_any] is the same function on any value. *)

From Stdlib Require Import ZArith List String Ascii Bool Lia.
From Stdlib Require Import Sorted Permutation QArith.
From Stdlib Require Import Floats.SpecFloat.
Import ListNotations.

#[local] Set Warnings "-register-all".

Local Open Scope string_scope.
Local Open Scope list_scope.
Local Open Scope Z_scope.

(** ** Python values *)

Inductive pyval : Type :=
| VNone
| VBool (b : bool)
| VInt (z : Z)
| VFloat (f : spec_float)
| VStr (s : string)
| VList (l : list pyval)
| VDict (d : list (string * pyval)).

(** A [dict] with string keys, in insertion order. *)
Definition pydict := list (string * pyval).

Fixpoint dict_get (d : pydict) (k : string) : option pyval :=
  match d with
  | [] => None
  | (k', v) :: rest => if String.eqb k' k then Some v else dict_get rest k
  end.

(** [d[k] = v]: replaces the value of an existing key in place, appends a new
    key at the end. *)
Fixpoint dict_set (d : pydict) (k : string) (v : pyval) : pydict :=
  match d with
  | [] => [(k, v)]
  | (k', v') :: rest =>
      if String.eqb k' k then (k', v) :: rest else (k', v') :: dict_set rest k v
  end.

(** [d.get(k, default)] *)
Definition dict_get_default (d : pydict) (k : string) (default : pyval) : pyval :=
  match dict_get d k with
  | Some v => v
  | None => default
  end.

(** An exception, as the source observes it: [type(e).__name__], [str(e)],
    and [isinstance(e, Exception)], which is what [except Exception] tests:
    it holds of [RuntimeError], [TypeError], [ConnectionError] and the like,
    and fails for [KeyboardInterrupt], [SystemExit] and [GeneratorExit]. *)
Record exn : Type := mk_exn {
  ename : string;
  emsg : string;
  is_exception : bool
}.

(** What a call returns: the raised exception or the value. *)
Definition result (A : Type) : Type := (exn + A)%type.

(** ** Floats *)

Definition is_nan (f : spec_float) : bool :=
  match f with
  | S754_nan => true
  | _ => false
  end.

Definition float_zero : spec_float := S754_zero false.

(** The literal [9.5] as a binary64 datum: [19 * 2^48 * 2^-49]. *)
Definition float_9_5 : spec_float := S754_finite false 5348024557502464 (-49).
Definition float_neg_9_5 : spec_float := S754_finite true 5348024557502464 (-49).

(** [a > b], [a >= b] on floats: false as soon as one side is NaN. *)
Definition float_gt (a b : spec_float) : bool := SFltb b a.
Definition float_lt (a b : spec_float) : bool := SFltb a b.
Definition float_ge (a b : spec_float) : bool := SFleb b a.
Definition float_le (a b : spec_float) : bool := SFleb a b.
Definition float_eq (a b : spec_float) : bool := SFeqb a b.

(** [float(z)] for an [int]: round to nearest, ties to even, in binary64. *)
Definition float_of_Z (z : Z) : spec_float := binary_normalize 53 1024 z 0 false.

(** ** The Python runtime and pandas, where the source only calls them *)

Class PyRuntime : Type := {
  (** pandas' parser behind [pd.to_numeric(..., errors="coerce")] on a
      string cell: the number read, NaN when the text is not a number *)
  pd_parse_numeric : string -> spec_float;
  (** [float(s)] on a [str]: [None] stands for the [ValueError] *)
  py_float_of_str : string -> option spec_float;
  (** [int(s)] on a [str]: the integer read, or the [ValueError] *)
  py_int_of_str : string -> exn + Z;
  (** [str(v)] on a value that is neither a [str], [None] nor a [bool] *)
  py_str_other : pyval -> string;
  (** [Series.quantile(p)] on a non-empty numeric series without NaN; the
      literal [p] is given as the decimal fraction written in the source *)
  pd_quantile : list spec_float -> Q -> spec_float;
  (** the message of the [OverflowError] that [pd.to_numeric] raises on an
      [int] beyond the range of the floats *)
  pd_overflow_message : string
}.

(** ** Data frames *)

Record DataFrame : Type := mk_df {
  columns : list string;
  rows : list (list pyval)
}.

(** What a call of the data provider may return. *)
Inductive pyobj : Type :=
| OFrame (df : DataFrame)
| OVal (v : pyval).

(** [len(df)], [df.shape] *)
Definition df_len (df : DataFrame) : nat := List.length (rows df).
Definition df_ncols (df : DataFrame) : nat := List.length (columns df).

(** [c in df.columns] *)
Definition has_col (df : DataFrame) (c : string) : bool :=
  existsb (String.eqb c) (columns df).

(** ** utils *)

Fixpoint _pick_col (df : DataFrame) (candidates : list string) : option string :=
  match candidates with
  | [] => None
  | c :: rest => if has_col df c then Some c else _pick_col df rest
  end.


(** [_safe_float]: [None] for a missing value and for whatever [float(x)]
    refuses, the float otherwise.  [float] of an [int] beyond the binary64
    range raises [OverflowError], which the handler turns into [None]; on a
    list or a dict either [pd.isna] or [float] raises. *)
Definition _safe_float `{PyRuntime} (x : pyval) : pyval :=
  match x with
  | VNone => VNone
  | VFloat f => if is_nan f then VNone else VFloat f
  | VBool b => VFloat (float_of_Z (if b then 1 else 0))
  | VInt z =>
      match float_of_Z z with
      | S754_infinity _ => VNone
      | f => VFloat f
      end
  | VStr s =>
      match py_float_of_str s with
      | Some f => VFloat f
      | None => VNone
      end
  | VList _ | VDict _ => VNone
  end.

(** ** Frame operations used by the summaries *)

Fixpoint index_of (c : string) (l : list string) : option nat :=
  match l with
  | [] => None
  | c' :: rest =>
      if String.eqb c' c then Some O
      else match index_of c rest with
           | Some i => Some (S i)
           | None => None
           end
  end.

Fixpoint update_nth (i : nat) (f : pyval -> pyval) (row : list pyval) {struct row}
    : list pyval :=
  match row, i with
  | [], _ => []
  | v :: rest, O => f v :: rest
  | v :: rest, S j => v :: update_nth j f rest
  end.

(** The cell of [row] under the label [c] of [df]; Python's [None] where the
    frame has no such cell. *)
Definition cell (df : DataFrame) (row : list pyval) (c : string) : pyval :=
  match index_of c (columns df) with
  | Some i => nth i row VNone
  | None => VNone
  end.

(** [df[c] = df[c].map(f)] for a label [c] of the frame. *)
Definition map_col (df : DataFrame) (c : string) (f : pyval -> pyval) : DataFrame :=
  match index_of c (columns df) with
  | Some i => {| columns := columns df; rows := map (update_nth i f) (rows df) |}
  | None => df
  end.

(** The [OverflowError] of [pd.to_numeric] on an [int] that no float
    holds; [errors="coerce"] turns what cannot be read into NaN and leaves
    this error alone. *)
Definition int_too_large `{PyRuntime} : exn :=
  mk_exn "OverflowError" pd_overflow_message true.

(** One cell under [pd.to_numeric(..., errors="coerce")]: its float, NaN
    for what is not a number, and the error for an [int] beyond the
    binary64 range. *)
Definition to_numeric_cell `{PyRuntime} (v : pyval) : result spec_float :=
  match v with
  | VFloat f => inr f
  | VInt z =>
      match float_of_Z z with
      | S754_infinity _ => inl int_too_large
      | f => inr f
      end
  | VBool b => inr (float_of_Z (if b then 1 else 0))
  | VStr s => inr (pd_parse_numeric s)
  | VNone | VList _ | VDict _ => inr S754_nan
  end.

(** [pd.to_numeric(s, errors="coerce")] on the cells of a column: their
    floats, unless a cell raises. *)
Fixpoint to_numeric `{PyRuntime} (s : list pyval) : result (list spec_float) :=
  match s with
  | [] => inr []
  | v :: rest =>
      match to_numeric_cell v with
      | inl e => inl e
      | inr f =>
          match to_numeric rest with
          | inl e => inl e
          | inr fs => inr (f :: fs)
          end
      end
  end.

(** [x[c]]: the cells of the column, row by row. *)
Definition column (x : DataFrame) (c : string) : list pyval :=
  map (fun row => cell x row c) (rows x).

(** [x[c] = values], one value for each row. *)
Fixpoint set_cells (i : nat) (rows : list (list pyval)) (values : list pyval)
    : list (list pyval) :=
  match rows, values with
  | row :: rows', v :: values' => update_nth i (fun _ => v) row :: set_cells i rows' values'
  | _, _ => rows
  end.

Definition set_col (x : DataFrame) (c : string) (values : list pyval) : DataFrame :=
  match index_of c (columns x) with
  | Some i => {| columns := columns x; rows := set_cells i (rows x) values |}
  | None => x
  end.

(** [x[c] = pd.to_numeric(x[c], errors="coerce")] *)
Definition coerce_col `{PyRuntime} (x : DataFrame) (c : string) : result DataFrame :=
  match to_numeric (column x c) with
  | inl e => inl e
  | inr floats => inr (set_col x c (map VFloat floats))
  end.

(** The float in a cell of a coerced column. *)
Definition float_of_cell (v : pyval) : spec_float :=
  match v with
  | VFloat f => f
  | _ => S754_nan
  end.

(** [x[c]] of a coerced column, as the series of its floats. *)
Definition series (x : DataFrame) (c : string) : list spec_float :=
  map (fun row => float_of_cell (cell x row c)) (rows x).

(** [(s <cond>).sum()] *)
Definition count_if (p : spec_float -> bool) (s : list spec_float) : Z :=
  Z.of_nat (List.length (filter p s)).

(** [s.dropna()] *)
Definition dropna (s : list spec_float) : list spec_float :=
  filter (fun f => negb (is_nan f)) s.

Section Sorting.
Context {A : Type}.
Variable before : A -> A -> bool.

Fixpoint insert_sorted (a : A) (l : list A) : list A :=
  match l with
  | [] => [a]
  | b :: rest => if before a b then a :: l else b :: insert_sorted a rest
  end.

Definition insertion_sort (l : list A) : list A :=
  fold_right insert_sorted [] l.
End Sorting.

(** [x.sort_values(c, ascending=...)] on a coerced column: the rows with a
    number, in order, and then the rows with NaN ([na_position="last"]) as
    they stood.  Rows with equal keys keep their order here; pandas' default
    sort does not promise that, and nothing below depends on it. *)
Definition sort_values (x : DataFrame) (c : string) (ascending : bool) : DataFrame :=
  let key row := float_of_cell (cell x row c) in
  let before r1 r2 :=
    if ascending then float_le (key r1) (key r2) else float_ge (key r1) (key r2) in
  let numbered := filter (fun row => negb (is_nan (key row))) (rows x) in
  let missing := filter (fun row => is_nan (key row)) (rows x) in
  {| columns := columns x;
     rows := insertion_sort before numbered ++ missing |}.

(** [l[:n]] of Python: the first [n] items, and for a negative [n] all but
    the last [-n] items. *)
Definition py_take {A : Type} (n : Z) (l : list A) : list A :=
  if 0 <=? n then firstn (Z.to_nat n) l
  else firstn (List.length l - Z.to_nat (- n)) l.

(** [df.head(n)] *)
Definition head (n : Z) (df : DataFrame) : DataFrame :=
  {| columns := columns df; rows := py_take n (rows df) |}.

(** [df[cols]] for labels of the frame. *)
Definition select (df : DataFrame) (cols : list string) : DataFrame :=
  {| columns := cols;
     rows := map (fun row => map (cell df row) cols) (rows df) |}.

Fixpoint rename_lookup (m : list (string * string)) (c : string) : string :=
  match m with
  | [] => c
  | (old, new) :: rest => if String.eqb old c then new else rename_lookup rest c
  end.

(** [df.rename(columns=m)] *)
Definition rename (df : DataFrame) (m : list (string * string)) : DataFrame :=
  {| columns := map (rename_lookup m) (columns df); rows := rows df |}.

(** [df.to_dict(orient="records")] *)
Definition to_records (df : DataFrame) : list pydict :=
  map (fun row => map (fun c => (c, cell df row c)) (columns df)) (rows df).

Definition records_value (rs : list pydict) : pyval := VList (map VDict rs).

(** [for c in names: if c in df.columns: df[c] = df[c].map(_safe_float)].
    When pandas stores the mapped column as floats, the [None]s of
    [_safe_float] are NaN again in the records; [record_float] below reads
    both as a missing number, so that the statements hold either way. *)
Definition safe_float_cols `{PyRuntime} (names : list string) (df : DataFrame) : DataFrame :=
  fold_left (fun d c => if has_col d c then map_col d c _safe_float else d) names df.

(** Truth value of an [Optional[str]]: [not col] holds for [None] and for
    the empty string. *)
Definition col_missing (col : option string) : bool :=
  match col with
  | None => true
  | Some c => String.eqb c EmptyString
  end.

Definition col_label (col : option string) : string :=
  match col with
  | Some c => c
  | None => EmptyString
  end.

Definition str_list_value (l : list string) : pyval := VList (map VStr l).

(** ** summaries *)

Definition spot_code_candidates : list string := ["代码"; "股票代码"; "symbol"; "code"].
Definition spot_name_candidates : list string := ["名称"; "股票简称"; "name"].
Definition spot_pct_candidates : list string :=
  ["涨跌幅"; "涨跌幅%"; "涨跌幅(%)"; "changepercent"; "pct_chg"; "涨跌幅(%)"].
Definition spot_price_candidates : list string := ["最新价"; "现价"; "price"; "trade"; "最新"].
Definition spot_amount_candidates : list string :=
  ["成交额"; "amount"; "成交额(元)"; "turnover"; "成交额（元）"; "成交额(万)"].

Definition board_name_candidates : list string := ["板块名称"; "行业名称"; "名称"; "board"].
Definition board_pct_candidates : list string := ["涨跌幅"; "涨跌幅%"; "涨跌幅(%)"; "pct_chg"].
Definition board_extra_candidates : list string :=
  ["上涨家数"; "下跌家数"; "领涨股票"; "领涨股票-涨跌幅"].

(** The inner [q(v, p)] of [_summarize_spot]. *)
Definition q `{PyRuntime} (v : list spec_float) (p : Q) : pyval :=
  match v with
  | [] => VNone
  | _ => _safe_float (VFloat (pd_quantile v p))
  end.

(** The [breadth] dict of [_summarize_spot], from the coerced series. *)
Definition breadth_of (pct : list spec_float) : pyval :=
  VDict [("advance", VInt (count_if (fun f => float_gt f float_zero) pct));
         ("decline", VInt (count_if (fun f => float_lt f float_zero) pct));
         ("flat", VInt (count_if (fun f => float_eq f float_zero) pct));
         ("total", VInt (Z.of_nat (List.length pct)))].

(** The [top_turnover] records of [_summarize_spot], lines 129 to 154, for
    the frame [x] whose percent-change and turnover columns are coerced. *)
Definition spot_top_turnover `{PyRuntime} (x : DataFrame) (top_n : Z)
    (code_col name_col pct_col amount_col : string) (price_col : option string)
    : list pydict :=
  let cols :=
    [code_col; name_col]
      ++ (if col_missing price_col then [] else [col_label price_col])
      ++ [pct_col; amount_col] in
  let top_df := select (head top_n (sort_values x amount_col false)) cols in
  let rename_map :=
    [(code_col, "code"); (name_col, "name"); (pct_col, "pct_chg"); (amount_col, "amount")]
      ++ (if col_missing price_col then [] else [(col_label price_col, "last")]) in
  let top_df := rename top_df rename_map in
  let top_df := safe_float_cols ["pct_chg"; "amount"; "last"] top_df in
  to_records top_df.

Definition _summarize_spot `{PyRuntime} (df : DataFrame) (top_n : Z) : result pyval :=
  let code_col := _pick_col df spot_code_candidates in
  let name_col := _pick_col df spot_name_candidates in
  let pct_col := _pick_col df spot_pct_candidates in
  let price_col := _pick_col df spot_price_candidates in
  let amount_col := _pick_col df spot_amount_candidates in
  if col_missing code_col || col_missing name_col || col_missing pct_col then
    inr (VDict [("error", VStr "spot missing key columns");
                ("available_cols", str_list_value (columns df))])
  else
    match coerce_col df (col_label pct_col) with
    | inl e => inl e
    | inr x =>
        let breadth := breadth_of (series x (col_label pct_col)) in
        let pct := dropna (series x (col_label pct_col)) in
        let pct_quantiles :=
          VDict [("p10", q pct (10 # 100)); ("p50", q pct (50 # 100));
                 ("p90", q pct (90 # 100))] in
        let limit_up_like :=
          count_if (fun f => float_ge f float_9_5) (series x (col_label pct_col)) in
        let limit_down_like :=
          count_if (fun f => float_le f float_neg_9_5) (series x (col_label pct_col)) in
        let turnover :=
          if col_missing amount_col then inr (VNone, VNone)
          else
            match coerce_col x (col_label amount_col) with
            | inl e => inl e
            | inr x =>
                let amt := dropna (series x (col_label amount_col)) in
                match amt with
                | [] => inr (VNone, VNone)
                | _ =>
                    inr (VDict [("p50", q amt (50 # 100)); ("p90", q amt (90 # 100));
                                ("p99", q amt (99 # 100))],
                         records_value
                           (spot_top_turnover x top_n (col_label code_col)
                              (col_label name_col) (col_label pct_col)
                              (col_label amount_col) price_col))
                end
            end in
        match turnover with
        | inl e => inl e
        | inr (turnover_quantiles, top_turnover) =>
            inr (VDict [("breadth", breadth);
                        ("pct_chg_quantiles", pct_quantiles);
                        ("turnover_quantiles", turnover_quantiles);
                        ("limit_up_like", VInt limit_up_like);
                        ("limit_down_like", VInt limit_down_like);
                        ("top_turnover", top_turnover)])
        end
    end.

(** The inner [pack(df_part)] of [_summarize_industry_board]. *)
Definition pack `{PyRuntime} (board_col pct_col : string) (extra_cols : list string)
    (df_part : DataFrame) : list pydict :=
  let cols := [board_col; pct_col] ++ extra_cols in
  let out := select df_part cols in
  let rename_map :=
    [(board_col, "board"); (pct_col, "pct_chg")]
      ++ (if has_col out "上涨家数" then [("上涨家数", "adv")] else [])
      ++ (if has_col out "下跌家数" then [("下跌家数", "dec")] else [])
      ++ (if has_col out "领涨股票" then [("领涨股票", "leader")] else [])
      ++ (if has_col out "领涨股票-涨跌幅" then [("领涨股票-涨跌幅", "leader_pct_chg")] else []) in
  let out := rename out rename_map in
  let out := safe_float_cols ["pct_chg"; "adv"; "dec"; "leader_pct_chg"] out in
  to_records out.

Definition _summarize_industry_board `{PyRuntime} (df : DataFrame) (top_n : Z)
    : result pyval :=
  let board_col := _pick_col df board_name_candidates in
  let pct_col := _pick_col df board_pct_candidates in
  if col_missing board_col || col_missing pct_col then
    inr (VDict [("error", VStr "industry board missing key columns");
                ("available_cols", str_list_value (columns df))])
  else
    match coerce_col df (col_label pct_col) with
    | inl e => inl e
    | inr x =>
        let top_up := head top_n (sort_values x (col_label pct_col) false) in
        let top_dn := head top_n (sort_values x (col_label pct_col) true) in
        let extra_cols := filter (has_col x) board_extra_candidates in
        inr (VDict
               [("top_gainers",
                 records_value
                   (pack (col_label board_col) (col_label pct_col) extra_cols top_up));
                ("top_losers",
                 records_value
                   (pack (col_label board_col) (col_label pct_col) extra_cols top_dn))])
    end.

(** ** Builtins on values *)

(** [int(v)]: a float is cut towards zero, a string is read, and whatever is
    not a number raises [TypeError]. *)
Definition py_int `{PyRuntime} (v : pyval) : result Z :=
  match v with
  | VInt z => inr z
  | VBool b => inr (if b then 1 else 0)
  | VFloat f =>
      match f with
      | S754_zero _ => inr 0
      | S754_finite s m e =>
          let n := Z.shiftl (Z.pos m) e in
          inr (if s then - n else n)
      | S754_infinity _ =>
          inl (mk_exn "OverflowError" "cannot convert float infinity to integer" true)
      | S754_nan => inl (mk_exn "ValueError" "cannot convert float NaN to integer" true)
      end
  | VStr s => py_int_of_str s
  | VNone =>
      inl (mk_exn "TypeError"
             "int() argument must be a string, a bytes-like object or a real number, not 'NoneType'"
             true)
  | VList _ =>
      inl (mk_exn "TypeError"
             "int() argument must be a string, a bytes-like object or a real number, not 'list'"
             true)
  | VDict _ =>
      inl (mk_exn "TypeError"
             "int() argument must be a string, a bytes-like object or a real number, not 'dict'"
             true)
  end.

(** [bool(v)] *)
Definition py_bool (v : pyval) : bool :=
  match v with
  | VNone => false
  | VBool b => b
  | VInt z => negb (z =? 0)
  | VFloat f => negb (float_eq f float_zero)
  | VStr s => negb (String.eqb s EmptyString)
  | VList l => match l with [] => false | _ => true end
  | VDict d => match d with [] => false | _ => true end
  end.

(** [str(v)] *)
Definition py_str `{PyRuntime} (v : pyval) : string :=
  match v with
  | VStr s => s
  | VNone => "None"
  | VBool true => "True"
  | VBool false => "False"
  | _ => py_str_other v
  end.

(** The white space of [str.strip()] is the characters for which
    [str.isspace] holds, here in UTF-8.  One byte: U+0009 to U+000D and
    U+001C to U+0020. *)
Definition byte_is (n : nat) (a : ascii) : bool := Nat.eqb (nat_of_ascii a) n.

Definition byte_in (lo hi : nat) (a : ascii) : bool :=
  ((lo <=? nat_of_ascii a) && (nat_of_ascii a <=? hi))%nat.

Definition is_space (a : ascii) : bool := byte_in 9 13 a || byte_in 28 32 a.

(** Two bytes: U+0085 (C2 85) and U+00A0 (C2 A0). *)
Definition is_space2 (a b : ascii) : bool :=
  byte_is 194 a && (byte_is 133 b || byte_is 160 b).

(** Three bytes: U+1680 (E1 9A 80); U+2000 to U+200A, U+2028, U+2029 and
    U+202F (E2 80 and 80 to 8A, A8, A9, AF); U+205F (E2 81 9F); U+3000
    (E3 80 80). *)
Definition is_space3 (a b c : ascii) : bool :=
  byte_is 225 a && byte_is 154 b && byte_is 128 c
  || byte_is 226 a && byte_is 128 b
     && (byte_in 128 138 c || byte_is 168 c || byte_is 169 c || byte_is 175 c)
  || byte_is 226 a && byte_is 129 b && byte_is 159 c
  || byte_is 227 a && byte_is 128 b && byte_is 128 c.

(** The number of bytes of the white-space character that [l] starts with;
    0 when it starts with none. *)
Definition space_front (l : list ascii) : nat :=
  match l with
  | a :: b :: c :: _ =>
      if is_space a then 1 else if is_space2 a b then 2 else if is_space3 a b c then 3 else 0
  | [a; b] => if is_space a then 1 else if is_space2 a b then 2 else 0
  | [a] => if is_space a then 1 else 0
  | [] => 0
  end%nat.

(** The same for the character that a string ends with, read from its
    bytes in reverse order. *)
Definition space_back (l : list ascii) : nat :=
  match l with
  | c :: b :: a :: _ =>
      if is_space c then 1 else if is_space2 b c then 2 else if is_space3 a b c then 3 else 0
  | [c; b] => if is_space c then 1 else if is_space2 b c then 2 else 0
  | [c] => if is_space c then 1 else 0
  | [] => 0
  end%nat.

(** Drops leading characters as long as [width] finds one; each step takes
    a byte at least, so that the length of the list is fuel enough. *)
Fixpoint drop_chars (width : list ascii -> nat) (fuel : nat) (l : list ascii)
    : list ascii :=
  match fuel with
  | O => l
  | S fuel' =>
      match width l with
      | O => l
      | k => drop_chars width fuel' (skipn k l)
      end
  end.

Definition drop_space (l : list ascii) : list ascii :=
  drop_chars space_front (List.length l) l.

Definition drop_space_back (l : list ascii) : list ascii :=
  rev (drop_chars space_back (List.length l) (rev l)).

(** [s.strip()] *)
Definition strip (s : string) : string :=
  string_of_list_ascii (drop_space_back (drop_space (list_ascii_of_string s))).

Definition nl : string := String (ascii_of_nat 10) EmptyString.

(** ** Fetch layer *)

Definition empty_error (name : string) : string :=
  ("[" ++ name ++ "] Empty dataframe")%string.

Definition exn_error (name : string) (e : exn) : string :=
  ("[" ++ name ++ "] " ++ ename e ++ ": " ++ emsg e)%string.

Definition all_failed (errors : list string) : exn :=
  mk_exn "RuntimeError"
    ("All data sources failed:" ++ nl ++ String.concat nl errors)%string true.

(** [isinstance(df, pd.DataFrame) and len(df) > 0] *)
Definition nonempty_frame (o : pyobj) : option DataFrame :=
  match o with
  | OFrame df => if (0 <? df_len df)%nat then Some df else None
  | OVal _ => None
  end.

Section Fallback.
(** The world the fetchers act on. *)
Context {W : Type}.

(** A [Callable[[], pd.DataFrame]]: it may change the world, and raises or
    returns. *)
Definition Callable : Type := W -> result pyobj * W.

(** The world, and the names of the fetchers called so far. *)
Record fstate : Type := mk_fstate {
  world : W;
  invoked : list string
}.

(** The loop of [_fetch_with_fallback], from the [errors] collected so far.
    The handler is [except Exception]: another exception leaves the loop. *)
Fixpoint fetch_loop (fetchers : list (string * Callable)) (errors : list string)
    (s : fstate) : result (DataFrame * list string) * fstate :=
  match fetchers with
  | [] => (inl (all_failed errors), s)
  | (name, f) :: rest =>
      let '(r, w) := f (world s) in
      let s' := {| world := w; invoked := invoked s ++ [name] |} in
      match r with
      | inr df =>
          match nonempty_frame df with
          | Some df => (inr (df, errors), s')
          | None => fetch_loop rest (errors ++ [empty_error name]) s'
          end
      | inl e =>
          if is_exception e then fetch_loop rest (errors ++ [exn_error name e]) s'
          else (inl e, s')
      end
  end.

Definition _fetch_with_fallback (fetchers : list (string * Callable)) (w : W)
    : result (DataFrame * list string) * fstate :=
  fetch_loop fetchers [] {| world := w; invoked := [] |}.
End Fallback.

Arguments Callable : clear implicits.
Arguments fstate : clear implicits.

(** ** The data provider *)

(** The [akshare] module: its version, its functions by name, and the
    clock.  A function receives its keyword arguments and the state [X] of
    the outside world (servers, network), which it may change. *)
Record Provider (X : Type) : Type := {
  ak_version : option string;
  ak_attr : string -> option (pydict -> X -> result pyobj * X);
  clock : X -> string
}.

Arguments ak_version {X}.
Arguments ak_attr {X}.
Arguments clock {X}.

(** The outside world, and the calls made to the provider so far. *)
Record Net (X : Type) : Type := mk_net {
  ext : X;
  calls : list (string * pydict)
}.

Arguments mk_net {X}.
Arguments ext {X}.
Arguments calls {X}.

Section Provider.
Context {X : Type}.
Variable ak : Provider X.

Definition _now_str (w : Net X) : string := clock ak (ext w).

(** [getattr(ak, func_name)] raises [AttributeError] for a missing name;
    otherwise the function is called, which is one call to the provider. *)
Definition _call_if_exists (func_name : string) (kwargs : pydict) : Callable (Net X) :=
  fun w =>
    match ak_attr ak func_name with
    | None =>
        (inl (mk_exn "AttributeError"
                ("module 'akshare' has no attribute '" ++ func_name ++ "'")%string true),
         w)
    | Some func =>
        let '(r, x) := func kwargs (ext w) in
        (r, {| ext := x; calls := calls w ++ [(func_name, kwargs)] |})
    end.

Definition hs_a_fetchers : list (string * Callable (Net X)) :=
  [("eastmoney_spot_em", _call_if_exists "stock_zh_a_spot_em" []);
   ("sina_spot", _call_if_exists "stock_zh_a_spot" []);
   ("tencent_spot", _call_if_exists "stock_zh_a_spot_tx" []);
   ("sina_spot_2", _call_if_exists "stock_zh_a_spot_sina" [])].

Definition industry_board_fetchers : list (string * Callable (Net X)) :=
  [("eastmoney_industry_board", _call_if_exists "stock_board_industry_name_em" [])].

Definition fetch_hs_a (params : pydict) (w : Net X)
    : result (DataFrame * string * list string) * Net X :=
  match _fetch_with_fallback hs_a_fetchers w with
  | (inr (df, errors), s) => (inr (df, "auto_fallback", errors), world s)
  | (inl e, s) => (inl e, world s)
  end.

Definition fetch_industry_board (params : pydict) (w : Net X)
    : result (DataFrame * string * list string) * Net X :=
  match _fetch_with_fallback industry_board_fetchers w with
  | (inr (df, errors), s) => (inr (df, "eastmoney", errors), world s)
  | (inl e, s) => (inl e, world s)
  end.
End Provider.

(** ** main API *)

(** The state of the [try] block of [get_market_state]: the world with the
    calls made, and the [meta] dict, which the branches update in place and
    the handler reads. *)
Record gstate (X : Type) : Type := mk_gstate {
  net : Net X;
  meta : pydict
}.

Arguments mk_gstate {X}.
Arguments net {X}.
Arguments meta {X}.

(** Computations of the [try] block: state passing with exceptions. *)
Definition M (X A : Type) : Type := gstate X -> result A * gstate X.

Definition ret {X A : Type} (a : A) : M X A := fun s => (inr a, s).

Definition bind {X A B : Type} (c : M X A) (k : A -> M X B) : M X B :=
  fun s =>
    match c s with
    | (inr a, s') => k a s'
    | (inl e, s') => (inl e, s')
    end.

Declare Scope monad_scope.
Delimit Scope monad_scope with monad.
Notation "x <- c1 ;; c2" := (bind c1 (fun x => c2))
  (at level 61, c1 at next level, right associativity) : monad_scope.
Notation "' pat <- c1 ;; c2" := (bind c1 (fun x => match x with pat => c2 end))
  (at level 61, pat pattern, c1 at next level, right associativity) : monad_scope.
Notation "c1 ;; c2" := (bind c1 (fun _ => c2))
  (at level 61, right associativity) : monad_scope.

(** A call that acts on the world only. *)
Definition lift_net {X A : Type} (c : Net X -> result A * Net X) : M X A :=
  fun s => let '(r, w) := c (net s) in (r, {| net := w; meta := meta s |}).

(** A computation that may raise and acts on nothing. *)
Definition lift_result {X A : Type} (r : result A) : M X A := fun s => (r, s).

(** [meta[k] = v] *)
Definition set_meta {X : Type} (k : string) (v : pyval) : M X unit :=
  fun s => (inr tt, {| net := net s; meta := dict_set (meta s) k v |}).

Definition get_meta {X : Type} : M X pydict := fun s => (inr (meta s), s).

Definition supported_scopes : list string :=
  ["hs_a"; "industry_board"; "sse_summary"; "szse_summary"].

Definition shape_value (df : DataFrame) : pyval :=
  VDict [("rows", VInt (Z.of_nat (df_len df))); ("cols", VInt (Z.of_nat (df_ncols df)))].

(** The report on a frame, which the four branches build alike:
    [{"meta": ..., "shape": ..., "columns": ..., key: payload}] and, under
    [raw], ["raw_head"]. *)
Definition frame_report (meta : pydict) (df : DataFrame) (key : string) (payload : pyval)
    (raw : bool) (raw_rows : Z) : pyval :=
  VDict ([("meta", VDict meta);
          ("shape", shape_value df);
          ("columns", str_list_value (columns df));
          (key, payload)]
         ++ (if raw then [("raw_head", records_value (to_records (head raw_rows df)))]
             else [])).

(** The report on what an exchange summary returned. *)
Definition exchange_report (meta : pydict) (o : pyobj) (raw : bool) (raw_rows : Z) : pyval :=
  match o with
  | OFrame df => frame_report meta df "data" (records_value (to_records df)) raw raw_rows
  | OVal v => VDict [("meta", VDict meta); ("data", v)]
  end.

(** [params or {}] *)
Definition params_or_empty (params : option pydict) : pydict :=
  match params with
  | Some d => d
  | None => []
  end.

Section MainAPI.
Context `{PyRuntime} {X : Type}.
Variable ak : Provider X.

Local Open Scope monad_scope.

(** [meta["data_source"] = src] and, if [errs], [meta["fallback_errors"] = errs] *)
Definition record_source (src : string) (errs : list string) : M X unit :=
  set_meta "data_source" (VStr src) ;;
  match errs with
  | [] => ret tt
  | _ => set_meta "fallback_errors" (str_list_value errs)
  end.

(** The body of the [try] block. *)
Definition dispatch (scope : string) (params : pydict) (top_n : Z) (raw : bool)
    (raw_rows : Z) : M X pyval :=
  if String.eqb scope "hs_a" then
    '(df, src, errs) <- lift_net (fetch_hs_a ak params) ;;
    record_source src errs ;;
    meta <- get_meta ;;
    summary <- lift_result (_summarize_spot df top_n) ;;
    ret (frame_report meta df "summary" summary raw raw_rows)
  else if String.eqb scope "industry_board" then
    '(df, src, errs) <- lift_net (fetch_industry_board ak params) ;;
    record_source src errs ;;
    meta <- get_meta ;;
    summary <- lift_result (_summarize_industry_board df top_n) ;;
    ret (frame_report meta df "summary" summary raw raw_rows)
  else if String.eqb scope "sse_summary" then
    df <- lift_net (_call_if_exists ak "stock_sse_summary" []) ;;
    meta <- get_meta ;;
    ret (exchange_report meta df raw raw_rows)
  else if String.eqb scope "szse_summary" then
    let date := strip (py_str (dict_get_default params "date" (VStr EmptyString))) in
    if String.eqb date EmptyString then
      meta <- get_meta ;;
      ret (VDict [("meta", VDict meta);
                  ("error", VStr "szse_summary requires params['date'], e.g. '20200619'")])
    else
      df <- lift_net (_call_if_exists ak "stock_szse_summary" [("date", VStr date)]) ;;
      meta <- get_meta ;;
      ret (exchange_report meta df raw raw_rows)
  else
    meta <- get_meta ;;
    ret (VDict [("meta", VDict meta);
                ("error", VStr ("unknown scope: " ++ scope)%string);
                ("supported_scopes", str_list_value supported_scopes)]).

(** The [meta] dict as [get_market_state] first builds it. *)
Definition initial_meta (scope : string) (params : pydict) (w : Net X) : pydict :=
  [("scope", VStr scope);
   ("asof", VStr (_now_str ak w));
   ("source", VStr "akshare");
   ("akshare_version",
    VStr (match ak_version ak with Some v => v | None => "unknown" end));
   ("params", VDict params)].

(** The report of the [except Exception as e] handler. *)
Definition failure_report (meta : pydict) (e : exn) : pyval :=
  VDict [("meta", VDict meta);
         ("error", VStr ("fetch failed: " ++ ename e ++ ": " ++ emsg e)%string)].

(** [get_market_state(scope, params)]: the conversions of [params] stand
    before the [try] and raise to the caller; what the [try] block raises
    becomes a report when it is an [Exception], and goes to the caller when
    it is not. *)
Definition get_market_state (scope : string) (params : option pydict) (w : Net X)
    : result pyval * Net X :=
  let params := params_or_empty params in
  match py_int (dict_get_default params "top_n" (VInt 20)) with
  | inl e => (inl e, w)
  | inr top_n =>
      let raw := py_bool (dict_get_default params "raw" (VBool false)) in
      match py_int (dict_get_default params "raw_rows" (VInt 5)) with
      | inl e => (inl e, w)
      | inr raw_rows =>
          let s0 := {| net := w; meta := initial_meta scope params w |} in
          match dispatch scope params top_n raw raw_rows s0 with
          | (inr out, s) => (inr out, net s)
          | (inl e, s) =>
              if is_exception e then (inr (failure_report (meta s) e), net s)
              else (inl e, net s)
          end
      end
  end.
End MainAPI.

(** [type(v).__name__] *)
Definition type_name (v : pyval) : string :=
  match v with
  | VNone => "NoneType"
  | VBool _ => "bool"
  | VInt _ => "int"
  | VFloat _ => "float"
  | VStr _ => "str"
  | VList _ => "list"
  | VDict _ => "dict"
  end.

(** [v.get] of a value that is no dict. *)
Definition no_get (v : pyval) : exn :=
  mk_exn "AttributeError"
    ("'" ++ type_name v ++ "' object has no attribute 'get'")%string true.

(** [get_market_state] on any value for [params].  Python checks no
    annotation, and the command line hands over whatever JSON value it is
    given: [params or {}] makes [{}] of a value that is false ([None],
    [False], [0], the empty string, list and dict) and keeps one that is true,
    and [params.get] of a value that is no dict raises [AttributeError], on
    line 243, ahead of the [try]. *)
Definition get_market_state_any `{PyRuntime} {X : Type} (ak : Provider X) (scope : string)
    (params : pyval) (w : Net X) : result pyval * Net X :=
  match (if py_bool params then params else VDict []) with
  | VDict d => get_market_state ak scope (Some d) w
  | v => (inl (no_get v), w)
  end.

(** ** Vocabulary of the statements *)

(** The result of [_pick_col], said without the loop: the first candidate
    that is a column label, [None] when no candidate is one. *)
Definition first_match (cols candidates : list string) (r : option string) : Prop :=
  match r with
  | Some c =>
      exists before after,
        candidates = before ++ c :: after
        /\ In c cols
        /\ (forall c', In c' before -> ~ In c' cols)
  | None => forall c, In c candidates -> ~ In c cols
  end.

(** Descending, respectively ascending, with the missing values last. *)
Definition desc_nan_last (a b : spec_float) : Prop :=
  is_nan b = true \/ float_ge a b = true.

Definition asc_nan_last (a b : spec_float) : Prop :=
  is_nan b = true \/ float_le a b = true.

(** The number a record holds under [k]; NaN for [None] and a missing key. *)
Definition record_float (k : string) (r : pydict) : spec_float :=
  match dict_get r k with
  | Some v => float_of_cell v
  | None => S754_nan
  end.

(** The value a report or summary holds under [k]. *)
Definition field (v : pyval) (k : string) : option pyval :=
  match v with
  | VDict d => dict_get d k
  | _ => None
  end.

(** The float that [pd.to_numeric] makes of a cell, where it makes one. *)
Definition numeric_of_cell `{PyRuntime} (v : pyval) : spec_float :=
  match to_numeric_cell v with
  | inr f => f
  | inl _ => S754_nan
  end.

(** [pd.to_numeric] goes through on the column [c] of [df]: no cell of it
    is an [int] beyond the binary64 range. *)
Definition coercible `{PyRuntime} (df : DataFrame) (c : string) : bool :=
  forallb (fun v => match to_numeric_cell v with inr _ => true | inl _ => false end)
    (column df c).

(** The frame whose column [c] holds the floats of its cells: what
    [coerce_col] returns when it returns. *)
Definition coerced_col `{PyRuntime} (x : DataFrame) (c : string) : DataFrame :=
  map_col x c (fun v => VFloat (numeric_of_cell v)).

(** The coercions of [_summarize_spot] go through on [df]: no cell of its
    percent-change column, nor of its turnover column if it has one, is an
    [int] beyond the binary64 range.  The same for the one coercion of
    [_summarize_industry_board]. *)
Definition spot_coercible `{PyRuntime} (df : DataFrame) : bool :=
  match _pick_col df spot_pct_candidates with
  | Some c => coercible df c
  | None => true
  end
  && match _pick_col df spot_amount_candidates with
     | Some c => coercible df c
     | None => true
     end.

Definition board_coercible `{PyRuntime} (df : DataFrame) : bool :=
  match _pick_col df board_pct_candidates with
  | Some c => coercible df c
  | None => true
  end.

(** The number of rows of [df] whose coerced cell under [c] satisfies [p]. *)
Definition rows_where `{PyRuntime} (df : DataFrame) (c : string) (p : spec_float -> bool) : Z :=
  Z.of_nat (List.length (filter (fun row => p (numeric_of_cell (cell df row c))) (rows df))).

(** No candidate is a column label of the frame. *)
Definition none_located (df : DataFrame) (candidates : list string) : Prop :=
  forall c, In c candidates -> ~ In c (columns df).

(** No label of [l1] is a label of [l2]. *)
Definition disjointb (l1 l2 : list string) : bool :=
  forallb (fun a => negb (existsb (String.eqb a) l2)) l1.

(** The record [_summarize_spot] makes of a row of the frame [x] it sorts. *)
Definition spot_record `{PyRuntime} (x : DataFrame)
    (code_col name_col pct_col amount_col : string) (price_col : option string)
    (row : list pyval) : pydict :=
  [("code", cell x row code_col); ("name", cell x row name_col)]
    ++ (if col_missing price_col then []
        else [("last", _safe_float (cell x row (col_label price_col)))])
    ++ [("pct_chg", _safe_float (cell x row pct_col));
        ("amount", _safe_float (cell x row amount_col))].

(** The record [pack] makes of a row: the board, its percent change and the
    companion columns the frame has. *)
Definition board_extra_field `{PyRuntime} (df : DataFrame) (row : list pyval) (c : string)
    : string * pyval :=
  if String.eqb c "上涨家数" then ("adv", _safe_float (cell df row c))
  else if String.eqb c "下跌家数" then ("dec", _safe_float (cell df row c))
  else if String.eqb c "领涨股票" then ("leader", cell df row c)
  else ("leader_pct_chg", _safe_float (cell df row c)).

Definition board_record `{PyRuntime} (df : DataFrame) (board_col pct_col : string)
    (extra_cols : list string) (row : list pyval) : pydict :=
  [("board", cell df row board_col); ("pct_chg", _safe_float (cell df row pct_col))]
    ++ map (board_extra_field df row) extra_cols.



(** Records in descending, respectively ascending, order of the number they
    hold under [k], those without a number last. *)
Definition records_descending (k : string) (records : list pydict) : Prop :=
  StronglySorted
    (fun r1 r2 => desc_nan_last (record_float k r1) (record_float k r2)) records.

Definition records_ascending (k : string) (records : list pydict) : Prop :=
  StronglySorted
    (fun r1 r2 => asc_nan_last (record_float k r1) (record_float k r2)) records.

(** What one attempt adds to [errors] before the loop goes on: nothing when
    the fetcher returns a frame with a row, which ends the loop, and nothing
    when it raises what [except Exception] does not catch, which ends it
    too. *)
Definition attempt_error (name : string) (r : result pyobj) : option string :=
  match r with
  | inl e => if is_exception e then Some (exn_error name e) else None
  | inr o =>
      match nonempty_frame o with
      | Some _ => None
      | None => Some (empty_error name)
      end
  end.

(** The fetchers called one after the other from the world [w], as long as
    each fails and the loop goes on: the error strings in the order of the
    attempts and the world left behind, or [None] if one of them ends the
    loop. *)
Fixpoint failures {W : Type} (fetchers : list (string * Callable W)) (w : W)
    : option (list string * W) :=
  match fetchers with
  | [] => Some ([], w)
  | (name, f) :: rest =>
      let '(r, w1) := f w in
      match attempt_error name r with
      | None => None
      | Some err =>
          match failures rest w1 with
          | Some (errs, w2) => Some (err :: errs, w2)
          | None => None
          end
      end
  end.

(** The conversions of [params] that stand before the [try] go through: as
    they do for parameters typed as the docstring says, [top_n] and
    [raw_rows] being [int]s. *)
Definition converts `{PyRuntime} (params : pydict) (top_n raw_rows : Z) : Prop :=
  py_int (dict_get_default params "top_n" (VInt 20)) = inr top_n
  /\ py_int (dict_get_default params "raw_rows" (VInt 5)) = inr raw_rows.

(** For the two scopes that fetch through a fallback chain, and when the
    chain succeeds: the label returned as the source and the errors of the
    sources that failed first. *)
Definition fallback_outcome {X : Type} (ak : Provider X) (scope : string) (params : pydict)
    (w : Net X) : option (string * list string) :=
  if String.eqb scope "hs_a" then
    match fst (fetch_hs_a ak params w) with
    | inr (_, src, errs) => Some (src, errs)
    | inl _ => None
    end
  else if String.eqb scope "industry_board" then
    match fst (fetch_industry_board ak params w) with
    | inr (_, src, errs) => Some (src, errs)
    | inl _ => None
    end
  else None.

(** The [meta] dict of a report, from the outcome of the fallback chain. *)
Definition expected_meta {X : Type} (ak : Provider X) (scope : string) (p : pydict)
    (w : Net X) : pydict :=
  match fallback_outcome ak scope p w with
  | Some (src, errs) =>
      initial_meta ak scope p w
        ++ [("data_source", VStr src)]
        ++ match errs with
           | [] => []
           | _ => [("fallback_errors", str_list_value errs)]
           end
  | None => initial_meta ak scope p w
  end.

(** The most calls a scope makes: one per source of its chain. *)
Definition call_bound (scope : string) : nat :=
  if String.eqb scope "hs_a" then 4%nat else 1%nat.

(** The functions of the provider raise nothing but [Exception]s: no
    [KeyboardInterrupt], no [SystemExit]. *)
Definition raises_exceptions_only {X : Type} (ak : Provider X) : Prop :=
  forall func_name func kwargs x e x',
    ak_attr ak func_name = Some func ->
    func kwargs x = (inl e, x') ->
    is_exception e = true.

(** The number of fetchers that a chain calls from the world [w]: those
    that fail one after the other, and the first one that does not, if
    any. *)
Fixpoint sources_tried {W : Type} (fetchers : list (string * Callable W)) (w : W) : nat :=
  match fetchers with
  | [] => O
  | (name, f) :: rest =>
      let '(r, w1) := f w in
      match attempt_error name r with
      | Some _ => S (sources_tried rest w1)
      | None => 1%nat
      end
  end.

(** [k] sources of a chain are tried from the world [w]: all of them when
    each one fails; otherwise those up to the first one that does not fail,
    which ends the loop as it returns a frame with a row, or raises what is
    no [Exception]. *)
Definition tried_up_to {W : Type} (fetchers : list (string * Callable W)) (w : W)
    (k : nat) : Prop :=
  (k = List.length fetchers /\ exists errs w1, failures fetchers w = Some (errs, w1))
  \/ exists before name f after errs w1,
       fetchers = before ++ (name, f) :: after
       /\ k = S (List.length before)
       /\ failures before w = Some (errs, w1)
       /\ attempt_error name (fst (f w1)) = None.

(** ** Sample data, to run the definitions *)

(** A runtime to run the samples, which hold no numeric text and whose
    parameters are [int]s, [bool]s and [str]s: no string reads as a number,
    [str] of another value is a placeholder, and a series is summarised by
    its first float. *)
Definition plain_runtime : PyRuntime := {|
  pd_parse_numeric := fun _ => S754_nan;
  py_float_of_str := fun _ => None;
  py_int_of_str :=
    fun _ => inl (mk_exn "ValueError" "invalid literal for int() with base 10" true);
  py_str_other := fun _ => "<repr>";
  pd_quantile := fun s _ => List.hd S754_nan s;
  pd_overflow_message := "int too large to convert to float"
|}.

Definition num (z : Z) : pyval := VFloat (float_of_Z z).

(** A snapshot of five instruments; the third has no percent change and
    the fifth the text of a suspended quote and no turnover. *)
Definition spot_sample : DataFrame := {|
  columns := ["代码"; "名称"; "最新价"; "涨跌幅"; "成交额"];
  rows := [[VStr "600000"; VStr "A"; num 10; num 2; num 300];
           [VStr "600001"; VStr "B"; num 11; num (-1); num 500];
           [VStr "600002"; VStr "C"; num 12; VNone; num 100];
           [VStr "600003"; VStr "D"; num 13; num 0; num 400];
           [VStr "600004"; VStr "E"; VNone; VStr "-"; VNone]]
|}.

Definition board_sample : DataFrame := {|
  columns := ["板块名称"; "涨跌幅"; "上涨家数"];
  rows := [[VStr "banks"; num 1; VInt 20];
           [VStr "steel"; num (-2); VInt 3];
           [VStr "media"; num 4; VInt 31]]
|}.

(** A frame none of whose labels is a candidate. *)
Definition unlabelled_sample : DataFrame := {|
  columns := ["a"; "b"];
  rows := [[VInt 1; VInt 2]]
|}.

Definition exchange_sample : DataFrame := {|
  columns := ["项目"; "股票"];
  rows := [[VStr "上市公司"; VStr "2000"]]
|}.

Definition refused : exn := mk_exn "ConnectionError" "Connection aborted." true.

(** Fetchers on a world that counts the calls it has served. *)
Definition failing_fetcher : Callable nat := fun w => (inl refused, S w).

Definition empty_fetcher : Callable nat :=
  fun w => (inr (OFrame {| columns := ["代码"]; rows := [] |}), S w).

Definition spot_fetcher : Callable nat := fun w => (inr (OFrame spot_sample), S w).

(** A provider whose first spot source refuses the connection, whose second
    one answers, which has the exchange summary of Shanghai and lacks every
    other function. *)
Definition sample_provider : Provider nat := {|
  ak_version := Some "1.12.0";
  ak_attr := fun func_name =>
    if String.eqb func_name "stock_zh_a_spot_em" then
      Some (fun _ x => (inl refused, S x))
    else if String.eqb func_name "stock_zh_a_spot" then
      Some (fun _ x => (inr (OFrame spot_sample), S x))
    else if String.eqb func_name "stock_sse_summary" then
      Some (fun _ x => (inr (OFrame exchange_sample), S x))
    else None;
  clock := fun _ => "2024-01-02 15:00:00"
|}.

(** A provider every function of which refuses the connection. *)
Definition down_provider : Provider nat := {|
  ak_version := None;
  ak_attr := fun _ => Some (fun _ x => (inl refused, S x));
  clock := fun _ => "2024-01-02 15:00:00"
|}.

Definition fresh_net : Net nat := {| ext := O; calls := [] |}.

(** What Ctrl-C raises: not an [Exception]. *)
Definition interrupt : exn := mk_exn "KeyboardInterrupt" EmptyString false.

Definition interrupted_fetcher : Callable nat := fun w => (inl interrupt, S w).

(** A provider whose first spot source is interrupted from the keyboard,
    whose second one would answer, and whose exchange summaries are
    interrupted too. *)
Definition interrupted_provider : Provider nat := {|
  ak_version := Some "1.12.0";
  ak_attr := fun func_name =>
    if String.eqb func_name "stock_zh_a_spot" then
      Some (fun _ x => (inr (OFrame spot_sample), S x))
    else Some (fun _ x => (inl interrupt, S x));
  clock := fun _ => "2024-01-02 15:00:00"
|}.

(** A snapshot whose one percent change is an [int] that no float holds. *)
Definition overflow_sample : DataFrame := {|
  columns := ["代码"; "名称"; "涨跌幅"];
  rows := [[VStr "600000"; VStr "A"; VInt (2 ^ 1024)]]
|}.

(** The ideographic space U+3000, E3 80 80 in UTF-8. *)
Definition ideographic_space : string :=
  String (ascii_of_nat 227) (String (ascii_of_nat 128) (String (ascii_of_nat 128) EmptyString)).

(** ** Vocabulary of the further statements *)

(** A value [_safe_float] may hand back: [None], or a float that is a
    number. *)
Definition none_or_number (v : pyval) : Prop :=
  v = VNone \/ exists f, v = VFloat f /\ is_nan f = false.

Definition is_str (v : pyval) : bool :=
  match v with
  | VStr _ => true
  | _ => false
  end.

(** Some candidate is a column label of the frame. *)
Definition located (df : DataFrame) (candidates : list string) : Prop :=
  exists c, In c candidates /\ In c (columns df).

(** The [turnover_quantiles] and the [top_turnover] of [_summarize_spot],
    from the frame [x] whose percent change is coerced: what the block under
    [if amount_col:] leaves when its coercion goes through. *)
Definition spot_turnover `{PyRuntime} (x : DataFrame) (top_n : Z)
    (code_col name_col pct_col : string) (amount_col price_col : option string)
    : pyval * pyval :=
  if col_missing amount_col then (VNone, VNone)
  else
    let x := coerced_col x (col_label amount_col) in
    let amt := dropna (series x (col_label amount_col)) in
    match amt with
    | [] => (VNone, VNone)
    | _ =>
        (VDict [("p50", q amt (50 # 100)); ("p90", q amt (90 # 100));
                ("p99", q amt (99 # 100))],
         records_value
           (spot_top_turnover x top_n code_col name_col pct_col (col_label amount_col)
              price_col))
    end.

(** The number of records [head(top_n)] leaves of [n] rows. *)
Definition head_count (top_n : Z) (n : nat) : Z :=
  if 0 <=? top_n then Z.min top_n (Z.of_nat n) else Z.max 0 (Z.of_nat n + top_n).

(** The keys of a record of [top_turnover], and of a record of [pack]. *)
Definition spot_record_keys (price_col : option string) : list string :=
  ["code"; "name"]
    ++ match price_col with Some _ => ["last"] | None => [] end
    ++ ["pct_chg"; "amount"].

Definition board_record_keys (df : DataFrame) : list string :=
  ["board"; "pct_chg"]
    ++ (if has_col df "上涨家数" then ["adv"] else [])
    ++ (if has_col df "下跌家数" then ["dec"] else [])
    ++ (if has_col df "领涨股票" then ["leader"] else [])
    ++ (if has_col df "领涨股票-涨跌幅" then ["leader_pct_chg"] else []).

(** A snapshot with a limit-up and two limit-down instruments. *)
Definition limit_sample : DataFrame := {|
  columns := ["code"; "name"; "pct_chg"];
  rows := [[VStr "1"; VStr "A"; num 10];
           [VStr "2"; VStr "B"; num 3];
           [VStr "3"; VStr "C"; VFloat float_neg_9_5];
           [VStr "4"; VStr "D"; num (-10)];
           [VStr "5"; VStr "E"; num 0]]
|}.

(** The provider has a function of this name. *)
Definition provided {X : Type} (ak : Provider X) (func_name : string) : bool :=
  match ak_attr ak func_name with
  | Some _ => true
  | None => false
  end.

(** The [date] that the branch of ["szse_summary"] reads from [params]. *)
Definition szse_date `{PyRuntime} (params : pydict) : string :=
  strip (py_str (dict_get_default params "date" (VStr EmptyString))).

(** The calls a scope may make, in the order of its sources. *)
Definition scope_calls `{PyRuntime} (scope : string) (params : pydict)
    : list (string * pydict) :=
  if String.eqb scope "hs_a" then
    [("stock_zh_a_spot_em", []); ("stock_zh_a_spot", []);
     ("stock_zh_a_spot_tx", []); ("stock_zh_a_spot_sina", [])]
  else if String.eqb scope "industry_board" then [("stock_board_industry_name_em", [])]
  else if String.eqb scope "sse_summary" then [("stock_sse_summary", [])]
  else if String.eqb scope "szse_summary" then
    if String.eqb (szse_date params) EmptyString then []
    else [("stock_szse_summary", [("date", VStr (szse_date params))])]
  else [].

(** The handler of [get_market_state] on what its [try] block raised, with
    the [meta] of that moment. *)
Definition handle (meta : pydict) (e : exn) : result pyval :=
  if is_exception e then inr (failure_report meta e) else inl e.

(** The run of a scope that fetches through a fallback chain, and the world
    after the chain. *)
Definition chain_report {X : Type} (fetchers : list (string * Callable (Net X)))
    (label : string) (summarize : DataFrame -> result pyval) (meta : pydict) (raw : bool)
    (raw_rows : Z) (w : Net X) : result pyval * Net X :=
  match _fetch_with_fallback fetchers w with
  | (inr (df, errs), s) =>
      let meta :=
        meta ++ [("data_source", VStr label)]
          ++ match errs with
             | [] => []
             | _ => [("fallback_errors", str_list_value errs)]
             end in
      (match summarize df with
       | inr summary => inr (frame_report meta df "summary" summary raw raw_rows)
       | inl e => handle meta e
       end,
       world s)
  | (inl e, s) => (handle meta e, world s)
  end.

(** The run of a scope that makes one call, and the world after it. *)
Definition call_report {X : Type} (ak : Provider X) (func_name : string) (kwargs : pydict)
    (meta : pydict) (raw : bool) (raw_rows : Z) (w : Net X) : result pyval * Net X :=
  match _call_if_exists ak func_name kwargs w with
  | (inr o, w') => (inr (exchange_report meta o raw raw_rows), w')
  | (inl e, w') => (handle meta e, w')
  end.

(** [get_market_state] past its conversions, branch by branch, in direct
    style: the report or the exception, and the world. *)
Definition report_of `{PyRuntime} {X : Type} (ak : Provider X) (scope : string)
    (params : pydict) (top_n : Z) (raw : bool) (raw_rows : Z) (w : Net X)
    : result pyval * Net X :=
  let meta := initial_meta ak scope params w in
  if String.eqb scope "hs_a" then
    chain_report (hs_a_fetchers ak) "auto_fallback" (fun df => _summarize_spot df top_n)
      meta raw raw_rows w
  else if String.eqb scope "industry_board" then
    chain_report (industry_board_fetchers ak) "eastmoney"
      (fun df => _summarize_industry_board df top_n) meta raw raw_rows w
  else if String.eqb scope "sse_summary" then
    call_report ak "stock_sse_summary" [] meta raw raw_rows w
  else if String.eqb scope "szse_summary" then
    if String.eqb (szse_date params) EmptyString then
      (inr (VDict [("meta", VDict meta);
                   ("error", VStr "szse_summary requires params['date'], e.g. '20200619'")]),
       w)
    else
      call_report ak "stock_szse_summary" [("date", VStr (szse_date params))]
        meta raw raw_rows w
  else
    (inr (VDict [("meta", VDict meta);
                 ("error", VStr ("unknown scope: " ++ scope)%string);
                 ("supported_scopes", str_list_value supported_scopes)]),
     w).

(** The sources of a scope, in the order in which it tries them. *)
Definition scope_fetchers `{PyRuntime} {X : Type} (ak : Provider X) (scope : string)
    (params : pydict) : list (string * Callable (Net X)) :=
  if String.eqb scope "hs_a" then hs_a_fetchers ak
  else if String.eqb scope "industry_board" then industry_board_fetchers ak
  else if String.eqb scope "sse_summary" then
    [("sse_summary", _call_if_exists ak "stock_sse_summary" [])]
  else if String.eqb scope "szse_summary" then
    if String.eqb (szse_date params) EmptyString then []
    else [("szse_summary",
           _call_if_exists ak "stock_szse_summary" [("date", VStr (szse_date params))])]
  else [].

(** The fetchers of a chain of provider functions called without
    arguments, from the (name, function) pairs. *)
Definition chain_of {X : Type} (ak : Provider X) (sources : list (string * string))
    : list (string * Callable (Net X)) :=
  map (fun nf => (fst nf, _call_if_exists ak (snd nf) [])) sources.

Definition hs_a_sources : list (string * string) :=
  [("eastmoney_spot_em", "stock_zh_a_spot_em");
   ("sina_spot", "stock_zh_a_spot");
   ("tencent_spot", "stock_zh_a_spot_tx");
   ("sina_spot_2", "stock_zh_a_spot_sina")].

(** The calls made among the first [k] of a list of calls: those to
    functions the provider has. *)
Definition calls_made {X : Type} (ak : Provider X) (k : nat)
    (planned : list (string * pydict)) : list (string * pydict) :=
  filter (fun c => provided ak (fst c)) (firstn k planned).

(** [l.strip()] on the bytes of a string. *)
Definition strip_chars (l : list ascii) : list ascii :=
  drop_space_back (drop_space l).

(** What a report says of its frame under ["raw_head"]. *)
Definition raw_head_of (report : pyval) (raw : bool) (raw_rows : Z) : Prop :=
  match field report "raw_head" with
  | None => True
  | Some v =>
      raw = true
      /\ exists df,
           field report "shape" = Some (shape_value df)
           /\ field report "columns" = Some (str_list_value (columns df))
           /\ v = records_value (to_records (head raw_rows df))
  end.

(** The summaries of the samples. *)
Definition spot_summary_sample (top_n : Z) : pyval :=
  match @_summarize_spot plain_runtime spot_sample top_n with
  | inr summary => summary
  | inl _ => VNone
  end.

Definition board_summary_sample (top_n : Z) : pyval :=
  match @_summarize_industry_board plain_runtime board_sample top_n with
  | inr summary => summary
  | inl _ => VNone
  end.

Definition limit_summary_sample : pyval :=
  match @_summarize_spot plain_runtime limit_sample 20 with
  | inr summary => summary
  | inl _ => VNone
  end.

(** A run for ["hs_a"] on the sample provider, and its report. *)
Definition sample_run : result pyval * Net nat :=
  @get_market_state plain_runtime nat sample_provider "hs_a" None fresh_net.

Definition sample_report : pyval :=
  match fst sample_run with
  | inr report => report
  | inl _ => VNone
  end.

(** * Properties *)

(** ** Floats: comparison is a total preorder away from NaN *)

Lemma SFcompare_antisym (a b : spec_float) (c : comparison) :
  SFcompare a b = Some c -> SFcompare b a = Some (CompOpp c).
Proof.
  destruct a as [sa | sa | | sa ma ea], b as [sb | sb | | sb mb eb];
    simpl; try discriminate;
    try (destruct sa; intros [= <-]; reflexivity);
    try (destruct sb; intros [= <-]; reflexivity);
    try (destruct sa, sb; intros [= <-]; reflexivity).
  intros [= <-]. f_equal.
  pose proof (Pos.compare_cont_antisym ma mb Eq) as Hm. simpl in Hm.
  rewrite (Z.compare_antisym ea eb), <- Hm.
  destruct sa, sb; simpl; try reflexivity;
    destruct (ea ?= eb); simpl; try reflexivity;
    destruct (Pos.compare_cont Eq ma mb); reflexivity.
Qed.

Lemma float_ge_total (a b : spec_float) :
  is_nan a = false -> is_nan b = false ->
  float_ge a b = false -> float_ge b a = true.
Proof.
  unfold float_ge, SFleb. intros Ha Hb.
  destruct (SFcompare b a) as [c |] eqn:E.
  - rewrite (SFcompare_antisym _ _ _ E). destruct c; simpl; congruence.
  - destruct a, b; simpl in *; try discriminate;
      repeat match goal with s : bool |- _ => destruct s end; discriminate.
Qed.

Lemma float_le_total (a b : spec_float) :
  is_nan a = false -> is_nan b = false ->
  float_le a b = false -> float_le b a = true.
Proof. intros Ha Hb. apply (float_ge_total b a Hb Ha). Qed.

Lemma float_le_trans (a b c : spec_float) :
  float_le a b = true -> float_le b c = true -> float_le a c = true.
Proof.
  unfold float_le, SFleb.
  destruct a as [sa | sa | | sa ma ea], b as [sb | sb | | sb mb eb],
    c as [sc | sc | | sc mc ec]; simpl; try discriminate; try reflexivity;
    repeat match goal with s : bool |- _ => destruct s end;
    simpl; try discriminate; try reflexivity;
    change (Pos.compare_cont Eq) with Pos.compare;
    destruct (Z.compare_spec ea eb), (Z.compare_spec eb ec), (Z.compare_spec ea ec);
    simpl; try discriminate; try reflexivity; try lia; subst;
    destruct (Pos.compare_spec ma mb), (Pos.compare_spec mb mc), (Pos.compare_spec ma mc);
    simpl; try discriminate; try reflexivity; lia.
Qed.

Lemma float_ge_trans (a b c : spec_float) :
  float_ge a b = true -> float_ge b c = true -> float_ge a c = true.
Proof. unfold float_ge. intros H1 H2. exact (float_le_trans c b a H2 H1). Qed.

(** Away from NaN a float is above, below or equal to zero, and only one of
    the three. *)
Lemma float_sign_cases (f : spec_float) :
  (if is_nan f then 0 else 1)
  = (if float_gt f float_zero then 1 else 0)
    + (if float_lt f float_zero then 1 else 0)
    + (if float_eq f float_zero then 1 else 0).
Proof.
  destruct f as [s | s | | s m e]; try destruct s; reflexivity.
Qed.

(** ** Sorting *)

Section SortingFacts.
Context {A : Type}.
Variable before : A -> A -> bool.
Variable P : A -> Prop.
Hypothesis before_total :
  forall a b, P a -> P b -> before a b = false -> before b a = true.
Hypothesis before_trans :
  forall a b c, before a b = true -> before b c = true -> before a c = true.

Let R (a b : A) : Prop := before a b = true.

Lemma insert_sorted_perm (a : A) (l : list A) :
  Permutation (a :: l) (insert_sorted before a l).
Proof.
  induction l as [| b rest IH]; simpl.
  - apply Permutation_refl.
  - destruct (before a b).
    + apply Permutation_refl.
    + eapply perm_trans; [apply perm_swap |]. now apply perm_skip.
Qed.

Lemma insertion_sort_perm (l : list A) : Permutation l (insertion_sort before l).
Proof.
  induction l as [| a rest IH]; simpl.
  - apply perm_nil.
  - eapply perm_trans; [apply perm_skip, IH | apply insert_sorted_perm].
Qed.

Lemma insert_sorted_strongly (a : A) (l : list A) :
  P a -> Forall P l -> StronglySorted R l ->
  StronglySorted R (insert_sorted before a l).
Proof.
  intros Ha Hl Hs. induction l as [| b rest IH]; simpl.
  - constructor; constructor.
  - inversion Hl as [| ? ? Hb Hrest]; subst.
    inversion Hs as [| ? ? Hs' Hall]; subst.
    destruct (before a b) eqn:E.
    + constructor; [assumption |]. constructor; [exact E |].
      eapply Forall_impl; [| exact Hall].
      intros c Hc. exact (before_trans a b c E Hc).
    + constructor; [now apply IH |].
      apply (Permutation_Forall (insert_sorted_perm a rest)).
      constructor; [| assumption].
      now apply before_total.
Qed.

Lemma insertion_sort_strongly (l : list A) :
  Forall P l -> StronglySorted R (insertion_sort before l).
Proof.
  induction l as [| a rest IH]; simpl; intros Hl.
  - constructor.
  - inversion Hl; subst. apply insert_sorted_strongly; auto.
    apply (Permutation_Forall (insertion_sort_perm rest)). assumption.
Qed.
End SortingFacts.

Lemma In_firstn {A : Type} (n : nat) (l : list A) (a : A) :
  In a (firstn n l) -> In a l.
Proof.
  revert l. induction n as [| n IH]; intros [| b rest]; simpl; try tauto.
  intros [-> | Hin]; [now left | right; now apply IH].
Qed.

Lemma StronglySorted_firstn {A : Type} (R : A -> A -> Prop) (n : nat) (l : list A) :
  StronglySorted R l -> StronglySorted R (firstn n l).
Proof.
  revert l. induction n as [| n IH]; intros l Hs; simpl.
  - constructor.
  - destruct l as [| a rest]; [constructor |].
    inversion Hs as [| ? ? Hs' Hall]; subst.
    constructor; [now apply IH |].
    rewrite Forall_forall in *. intros b Hb. apply Hall.
    revert Hb. apply In_firstn.
Qed.

Lemma StronglySorted_map {A B : Type} (R : B -> B -> Prop) (f : A -> B) (l : list A) :
  StronglySorted (fun a b => R (f a) (f b)) l -> StronglySorted R (map f l).
Proof.
  induction 1 as [| a rest Hs IH Hall]; simpl; constructor; [assumption |].
  rewrite Forall_forall in *. intros b Hb.
  apply in_map_iff in Hb. destruct Hb as [a' [<- Ha']]. now apply Hall.
Qed.

Lemma StronglySorted_app {A : Type} (R : A -> A -> Prop) (l1 l2 : list A) :
  StronglySorted R l1 -> StronglySorted R l2 ->
  (forall a b, In a l1 -> In b l2 -> R a b) ->
  StronglySorted R (l1 ++ l2).
Proof.
  intros H1 H2 H12. induction H1 as [| a rest Hs IH Hall]; simpl; [assumption |].
  constructor.
  - apply IH. intros x y Hx Hy. apply H12; [now right | assumption].
  - apply Forall_app. split; [assumption |].
    rewrite Forall_forall. intros b Hb. apply H12; [now left | assumption].
Qed.

Lemma py_take_firstn {A : Type} (n : Z) (l : list A) :
  exists k, py_take n l = firstn k l.
Proof. unfold py_take. destruct (0 <=? n); eauto. Qed.

Lemma py_take_length {A : Type} (n : Z) (l : list A) :
  0 <= n -> Z.of_nat (List.length (py_take n l)) = Z.min n (Z.of_nat (List.length l)).
Proof.
  intros Hn. unfold py_take. destruct (Z.leb_spec 0 n); [| lia].
  rewrite length_firstn. lia.
Qed.

Lemma py_take_length_neg {A : Type} (n : Z) (l : list A) :
  n < 0 -> Z.of_nat (List.length (py_take n l)) = Z.max 0 (Z.of_nat (List.length l) + n).
Proof.
  intros Hn. unfold py_take. destruct (Z.leb_spec 0 n); [lia |].
  rewrite length_firstn. lia.
Qed.

Lemma StronglySorted_weaken {A : Type} (R R' : A -> A -> Prop) (l : list A) :
  (forall a b, R a b -> R' a b) -> StronglySorted R l -> StronglySorted R' l.
Proof.
  intros Himp. induction 1 as [| a rest Hs IH Hall]; constructor; [assumption |].
  eapply Forall_impl; [| exact Hall]. intros b. apply Himp.
Qed.

Lemma StronglySorted_all_right {A : Type} (R : A -> A -> Prop) (l : list A) :
  (forall a b, In b l -> R a b) -> StronglySorted R l.
Proof.
  induction l as [| a rest IH]; intros Hr; constructor.
  - apply IH. intros x y Hy. apply Hr. now right.
  - rewrite Forall_forall. intros b Hb. apply Hr. now right.
Qed.

Lemma filter_split_perm {A : Type} (p : A -> bool) (l : list A) :
  Permutation l (filter (fun a => negb (p a)) l ++ filter p l).
Proof.
  induction l as [| a rest IH]; simpl; [apply perm_nil |].
  destruct (p a); simpl.
  - apply Permutation_cons_app. exact IH.
  - now apply perm_skip.
Qed.

(** ** Frames *)

Section SortValues.
Variable x : DataFrame.
Variable c : string.

Let key (row : list pyval) : spec_float := float_of_cell (cell x row c).

(** Sorting moves rows and neither adds nor drops one. *)
Lemma sort_values_perm (ascending : bool) :
  Permutation (rows x) (rows (sort_values x c ascending)).
Proof.
  unfold sort_values; simpl.
  eapply perm_trans; [apply (filter_split_perm (fun row => is_nan (key row))) |].
  apply Permutation_app_tail. apply insertion_sort_perm.
Qed.

Lemma sort_values_columns (ascending : bool) :
  columns (sort_values x c ascending) = columns x.
Proof. reflexivity. Qed.

Lemma sort_values_descending :
  StronglySorted (fun r1 r2 => desc_nan_last (key r1) (key r2))
    (rows (sort_values x c false)).
Proof.
  unfold sort_values; simpl. apply StronglySorted_app.
  - eapply StronglySorted_weaken;
      [| apply (insertion_sort_strongly _ (fun row => is_nan (key row) = false))].
    + intros a b Hab. right. exact Hab.
    + intros a b Ha Hb. now apply float_ge_total.
    + intros a b d. apply float_ge_trans.
    + rewrite Forall_forall. intros row Hrow.
      apply filter_In in Hrow. destruct Hrow as [_ Hn].
      now apply negb_true_iff in Hn.
  - apply StronglySorted_all_right. intros a b Hb.
    apply filter_In in Hb. left. apply Hb.
  - intros a b _ Hb. apply filter_In in Hb. left. apply Hb.
Qed.

Lemma sort_values_ascending :
  StronglySorted (fun r1 r2 => asc_nan_last (key r1) (key r2))
    (rows (sort_values x c true)).
Proof.
  unfold sort_values; simpl. apply StronglySorted_app.
  - eapply StronglySorted_weaken;
      [| apply (insertion_sort_strongly _ (fun row => is_nan (key row) = false))].
    + intros a b Hab. right. exact Hab.
    + intros a b Ha Hb. now apply float_le_total.
    + intros a b d. apply float_le_trans.
    + rewrite Forall_forall. intros row Hrow.
      apply filter_In in Hrow. destruct Hrow as [_ Hn].
      now apply negb_true_iff in Hn.
  - apply StronglySorted_all_right. intros a b Hb.
    apply filter_In in Hb. left. apply Hb.
  - intros a b _ Hb. apply filter_In in Hb. left. apply Hb.
Qed.
End SortValues.

Lemma nth_update_nth (i j : nat) (f : pyval -> pyval) (row : list pyval) :
  nth j (update_nth i f row) VNone
  = if Nat.eqb j i
    then (if Nat.ltb j (List.length row) then f (nth j row VNone) else VNone)
    else nth j row VNone.
Proof.
  revert i j. induction row as [| v rest IH]; intros i j; simpl.
  - destruct j; destruct (Nat.eqb _ i); reflexivity.
  - destruct i as [| i], j as [| j]; simpl; try reflexivity.
    rewrite IH. reflexivity.
Qed.

(** A coerced column holds, row by row, the coerced cell of the frame. *)
Lemma series_coerce `{PyRuntime} (x : DataFrame) (c : string) :
  series (coerced_col x c) c
  = map (fun row => numeric_of_cell (cell x row c)) (rows x).
Proof.
  unfold series, coerced_col, map_col, cell.
  destruct (index_of c (columns x)) as [i |] eqn:E; simpl.
  - rewrite E, map_map. apply map_ext. intros row.
    rewrite nth_update_nth, Nat.eqb_refl.
    destruct (Nat.ltb_spec i (List.length row)) as [Hlt | Hge]; [reflexivity |].
    rewrite (nth_overflow row VNone Hge). reflexivity.
  - rewrite E. apply map_ext. reflexivity.
Qed.

(** In a coerced column every cell is a float, or [None] where the row has
    no such cell. *)
Lemma coerced_cell `{PyRuntime} (x : DataFrame) (c : string) (row : list pyval) :
  In row (rows (coerced_col x c)) ->
  cell (coerced_col x c) row c = VNone
  \/ exists f, cell (coerced_col x c) row c = VFloat f.
Proof.
  unfold coerced_col, map_col, cell.
  destruct (index_of c (columns x)) as [i |] eqn:E; simpl; [| rewrite E; now left].
  rewrite E. intros Hin. apply in_map_iff in Hin. destruct Hin as [row0 [<- _]].
  rewrite nth_update_nth, Nat.eqb_refl.
  destruct (Nat.ltb i (List.length row0)); [right; eauto | now left].
Qed.

Lemma safe_float_key `{PyRuntime} (v : pyval) :
  v = VNone \/ (exists f, v = VFloat f) ->
  float_of_cell (_safe_float v) = float_of_cell v.
Proof.
  intros [-> | [f ->]]; simpl; [reflexivity |].
  destruct f; reflexivity.
Qed.

(** ** Column lookup *)

Lemma has_col_In (df : DataFrame) (c : string) :
  has_col df c = true <-> In c (columns df).
Proof.
  unfold has_col. rewrite existsb_exists. split.
  - intros [c' [Hin Heq]]. apply String.eqb_eq in Heq. now subst.
  - intros Hin. exists c. split; [assumption | apply String.eqb_refl].
Qed.

Lemma has_col_not_In (df : DataFrame) (c : string) :
  has_col df c = false <-> ~ In c (columns df).
Proof.
  rewrite <- has_col_In. destruct (has_col df c); split; congruence.
Qed.

Lemma pick_col_spec (df : DataFrame) (candidates : list string) :
  first_match (columns df) candidates (_pick_col df candidates).
Proof.
  induction candidates as [| c rest IH]; simpl.
  - intros c [].
  - destruct (has_col df c) eqn:E; simpl.
    + exists [], rest. repeat split.
      * now apply has_col_In.
      * intros c' [].
    + apply has_col_not_In in E.
      destruct (_pick_col df rest) as [c0 |]; simpl in *.
      * destruct IH as [before [after [-> [Hin Hnot]]]].
        exists (c :: before), after. repeat split; [assumption |].
        intros c' [<- | Hc']; [assumption | now apply Hnot].
      * intros c' [<- | Hc']; [assumption | now apply IH].
Qed.

Lemma pick_col_In (df : DataFrame) (candidates : list string) (c : string) :
  _pick_col df candidates = Some c -> In c candidates /\ In c (columns df).
Proof.
  intros E. pose proof (pick_col_spec df candidates) as Hs. rewrite E in Hs.
  destruct Hs as [before [after [-> [Hin _]]]].
  split; [apply in_elt | assumption].
Qed.

Lemma pick_col_None (df : DataFrame) (candidates : list string) :
  _pick_col df candidates = None
  <-> (forall c, In c candidates -> ~ In c (columns df)).
Proof.
  split.
  - intros E. pose proof (pick_col_spec df candidates) as Hs. now rewrite E in Hs.
  - intros Hnone. destruct (_pick_col df candidates) as [c |] eqn:E; [| reflexivity].
    apply pick_col_In in E. destruct E as [Hc Hin]. now elim (Hnone c Hc).
Qed.

(** A located column is never the empty label: no candidate is empty. *)
Lemma located_not_missing (df : DataFrame) (candidates : list string) (c : string) :
  forallb (fun c' => negb (String.eqb c' EmptyString)) candidates = true ->
  _pick_col df candidates = Some c ->
  col_missing (Some c) = false.
Proof.
  intros Hne E. apply pick_col_In in E. destruct E as [Hc _].
  rewrite forallb_forall in Hne. apply Hne in Hc.
  simpl. now apply negb_true_iff in Hc.
Qed.

(** ** Breadth *)

Lemma filter_map_length {A B : Type} (p : B -> bool) (g : A -> B) (l : list A) :
  List.length (filter p (map g l)) = List.length (filter (fun a => p (g a)) l).
Proof.
  induction l as [| a rest IH]; simpl; [reflexivity |].
  destruct (p (g a)); simpl; now rewrite IH.
Qed.

Lemma count_if_cons (p : spec_float -> bool) (f : spec_float) (s : list spec_float) :
  count_if p (f :: s) = (if p f then 1 else 0) + count_if p s.
Proof.
  unfold count_if. simpl. destruct (p f); simpl List.length; lia.
Qed.

(** Every float of a series is counted once: as a rise, a fall, a zero or a
    missing value. *)
Lemma sign_counts_partition (s : list spec_float) :
  count_if (fun f => float_gt f float_zero) s
  + count_if (fun f => float_lt f float_zero) s
  + count_if (fun f => float_eq f float_zero) s
  + count_if is_nan s
  = Z.of_nat (List.length s).
Proof.
  induction s as [| f rest IH].
  - reflexivity.
  - rewrite !count_if_cons. simpl List.length. rewrite Nat2Z.inj_succ.
    pose proof (float_sign_cases f) as Hf.
    destruct (is_nan f); lia.
Qed.

Lemma count_if_nonneg (p : spec_float -> bool) (s : list spec_float) :
  0 <= count_if p s.
Proof. unfold count_if. lia. Qed.

Lemma count_if_coerced `{PyRuntime} (df : DataFrame) (c : string) (p : spec_float -> bool) :
  count_if p (series (coerced_col df c) c) = rows_where df c p.
Proof.
  unfold count_if, rows_where. now rewrite series_coerce, filter_map_length.
Qed.

Lemma series_length (x : DataFrame) (c : string) :
  List.length (series x c) = df_len x.
Proof. unfold series, df_len. apply length_map. Qed.

Lemma coerced_col_len `{PyRuntime} (df : DataFrame) (c : string) :
  df_len (coerced_col df c) = df_len df.
Proof.
  unfold coerced_col, map_col, df_len.
  destruct (index_of c (columns df)); simpl; [apply length_map | reflexivity].
Qed.
(** ** Records of the top lists *)

Lemma disjointb_neq (l1 l2 : list string) (a b : string) :
  disjointb l1 l2 = true -> In a l1 -> In b l2 -> String.eqb a b = false.
Proof.
  unfold disjointb. rewrite forallb_forall. intros Hd Ha Hb.
  apply Hd in Ha. apply negb_true_iff in Ha.
  destruct (String.eqb a b) eqn:E; [| reflexivity].
  rewrite <- Ha. symmetry. apply existsb_exists. exists b. split; assumption.
Qed.

Lemma apart (l1 l2 : list string) (a b : string) :
  disjointb l1 l2 = true -> In a l1 -> In b l2 ->
  String.eqb a b = false /\ String.eqb b a = false.
Proof.
  intros Hd Ha Hb. pose proof (disjointb_neq l1 l2 a b Hd Ha Hb) as E.
  split; [exact E | now rewrite String.eqb_sym].
Qed.

(** Evaluates the frame operations on a frame whose labels are literals and
    leaves the records row by row. *)
Ltac records_by_row :=
  unfold safe_float_cols; cbn [fold_left]; unfold has_col, map_col, to_records;
  cbn [columns rows existsb index_of String.eqb Ascii.eqb Bool.eqb orb];
  rewrite !map_map; apply map_ext; intros ?; reflexivity.

Lemma spot_top_turnover_records `{PyRuntime} (x : DataFrame) (top_n : Z)
    (code_col name_col pct_col amount_col : string) (price_col : option string) :
  In code_col spot_code_candidates ->
  In name_col spot_name_candidates ->
  In pct_col spot_pct_candidates ->
  In amount_col spot_amount_candidates ->
  (forall c, price_col = Some c -> In c spot_price_candidates) ->
  spot_top_turnover x top_n code_col name_col pct_col amount_col price_col
  = map (spot_record x code_col name_col pct_col amount_col price_col)
      (py_take top_n (rows (sort_values x amount_col false))).
Proof.
  intros Hc Hn Hp Ha Hpr.
  pose proof (disjointb_neq spot_code_candidates spot_name_candidates _ _ eq_refl Hc Hn)
    as Ecn.
  pose proof (disjointb_neq spot_code_candidates spot_pct_candidates _ _ eq_refl Hc Hp)
    as Ecp.
  pose proof (disjointb_neq spot_code_candidates spot_amount_candidates _ _ eq_refl Hc Ha)
    as Eca.
  pose proof (disjointb_neq spot_name_candidates spot_pct_candidates _ _ eq_refl Hn Hp)
    as Enp.
  pose proof (disjointb_neq spot_name_candidates spot_amount_candidates _ _ eq_refl Hn Ha)
    as Ena.
  pose proof (disjointb_neq spot_pct_candidates spot_amount_candidates _ _ eq_refl Hp Ha)
    as Epa.
  unfold spot_top_turnover, spot_record.
  destruct price_col as [pc |]; [destruct (String.eqb pc EmptyString) eqn:Epc |];
    cbn [col_missing col_label]; rewrite ?Epc.
  - cbn [app]. unfold rename, select, head. cbn [columns rows map rename_lookup].
    rewrite ?String.eqb_refl, ?Ecn, ?Ecp, ?Eca, ?Enp, ?Ena, ?Epa.
    records_by_row.
  - specialize (Hpr pc eq_refl).
    pose proof (disjointb_neq spot_code_candidates spot_price_candidates _ _ eq_refl Hc Hpr)
      as E1.
    pose proof (disjointb_neq spot_name_candidates spot_price_candidates _ _ eq_refl Hn Hpr)
      as E2.
    pose proof (disjointb_neq spot_pct_candidates spot_price_candidates _ _ eq_refl Hp Hpr)
      as E3.
    pose proof (disjointb_neq spot_amount_candidates spot_price_candidates _ _ eq_refl Ha Hpr)
      as E4.
    cbn [app]. unfold rename, select, head. cbn [columns rows map rename_lookup].
    rewrite ?String.eqb_refl, ?Ecn, ?Ecp, ?Eca, ?Enp, ?Ena, ?Epa, ?E1, ?E2, ?E3, ?E4.
    records_by_row.
  - cbn [app]. unfold rename, select, head. cbn [columns rows map rename_lookup].
    rewrite ?String.eqb_refl, ?Ecn, ?Ecp, ?Eca, ?Enp, ?Ena, ?Epa.
    records_by_row.
Qed.

Lemma pack_records `{PyRuntime} (x df_part : DataFrame) (board_col pct_col : string) :
  In board_col board_name_candidates ->
  In pct_col board_pct_candidates ->
  pack board_col pct_col (filter (has_col x) board_extra_candidates) df_part
  = map (board_record df_part board_col pct_col
           (filter (has_col x) board_extra_candidates))
      (rows df_part).
Proof.
  intros Hb Hp.
  destruct (apart board_name_candidates board_pct_candidates _ _ eq_refl Hb Hp) as [E1 E2].
  assert (Hx : forall e, In e board_extra_candidates ->
             (String.eqb board_col e = false /\ String.eqb e board_col = false)
             /\ (String.eqb pct_col e = false /\ String.eqb e pct_col = false)).
  { intros e He. split.
    - exact (apart board_name_candidates board_extra_candidates _ _ eq_refl Hb He).
    - exact (apart board_pct_candidates board_extra_candidates _ _ eq_refl Hp He). }
  destruct (Hx "上涨家数") as [[A1 A2] [A3 A4]]; [simpl; tauto |].
  destruct (Hx "下跌家数") as [[B1 B2] [B3 B4]]; [simpl; tauto |].
  destruct (Hx "领涨股票") as [[C1 C2] [C3 C4]]; [simpl; tauto |].
  destruct (Hx "领涨股票-涨跌幅") as [[D1 D2] [D3 D4]]; [simpl; tauto |].
  clear Hx.
  unfold pack, board_record, board_extra_candidates. cbn [filter].
  destruct (has_col x "上涨家数"), (has_col x "下跌家数"), (has_col x "领涨股票"),
    (has_col x "领涨股票-涨跌幅");
    cbn [app]; unfold rename, select, board_extra_field;
    unfold has_col at 1 2 3 4;
    cbn [columns rows map rename_lookup existsb app];
    rewrite ?String.eqb_refl, ?E1, ?A1, ?A2, ?A3, ?A4, ?B1, ?B2, ?B3, ?B4,
      ?C1, ?C2, ?C3, ?C4, ?D1, ?D2, ?D3, ?D4;
    cbn [columns rows map rename_lookup existsb app orb String.eqb Ascii.eqb Bool.eqb];
    records_by_row.
Qed.

Lemma StronglySorted_weaken_in {A : Type} (R R' : A -> A -> Prop) (l : list A) :
  (forall a b, In a l -> In b l -> R a b -> R' a b) ->
  StronglySorted R l -> StronglySorted R' l.
Proof.
  intros Himp Hs. induction Hs as [| a rest Hs IH Hall]; constructor.
  - apply IH. intros x y Hx Hy. apply Himp; now right.
  - rewrite Forall_forall in *. intros b Hb.
    apply Himp; [now left | now right | now apply Hall].
Qed.

Lemma py_take_In {A : Type} (n : Z) (l : list A) (a : A) :
  In a (py_take n l) -> In a l.
Proof.
  destruct (py_take_firstn n l) as [k ->]. apply In_firstn.
Qed.

Lemma top_rows_In (x : DataFrame) (c : string) (ascending : bool) (n : Z)
    (row : list pyval) :
  In row (py_take n (rows (sort_values x c ascending))) -> In row (rows x).
Proof.
  intros Hin. apply py_take_In in Hin.
  apply (Permutation_in row (Permutation_sym (sort_values_perm x c ascending))).
  exact Hin.
Qed.

Lemma spot_record_amount `{PyRuntime} (x : DataFrame)
    (code_col name_col pct_col amount_col : string) (price_col : option string)
    (row : list pyval) :
  record_float "amount" (spot_record x code_col name_col pct_col amount_col price_col row)
  = float_of_cell (_safe_float (cell x row amount_col)).
Proof.
  unfold spot_record. destruct (col_missing price_col); reflexivity.
Qed.

Lemma board_record_pct `{PyRuntime} (df : DataFrame) (board_col pct_col : string)
    (extra_cols : list string) (row : list pyval) :
  record_float "pct_chg" (board_record df board_col pct_col extra_cols row)
  = float_of_cell (_safe_float (cell df row pct_col)).
Proof. reflexivity. Qed.

(** The records made, through [pack_row], of the first rows of the frame
    sorted on its coerced column [c] come in the order of the sort. *)
Lemma top_records_descending `{PyRuntime} (x : DataFrame) (c k : string) (n : Z)
    (pack_row : list pyval -> pydict) :
  (forall row, record_float k (pack_row row)
               = float_of_cell (_safe_float (cell (coerced_col x c) row c))) ->
  records_descending k
    (map pack_row (py_take n (rows (sort_values (coerced_col x c) c false)))).
Proof.
  intros Hkey. unfold records_descending. apply StronglySorted_map.
  destruct (py_take_firstn n (rows (sort_values (coerced_col x c) c false)))
    as [m Em].
  pose proof (top_rows_In (coerced_col x c) c false n) as Hin.
  rewrite Em in *.
  eapply StronglySorted_weaken_in;
    [| apply StronglySorted_firstn, sort_values_descending].
  intros r1 r2 H1 H2. cbv beta.
  rewrite !Hkey, !safe_float_key by (apply coerced_cell; auto).
  trivial.
Qed.

Lemma top_records_ascending `{PyRuntime} (x : DataFrame) (c k : string) (n : Z)
    (pack_row : list pyval -> pydict) :
  (forall row, record_float k (pack_row row)
               = float_of_cell (_safe_float (cell (coerced_col x c) row c))) ->
  records_ascending k
    (map pack_row (py_take n (rows (sort_values (coerced_col x c) c true)))).
Proof.
  intros Hkey. unfold records_ascending. apply StronglySorted_map.
  destruct (py_take_firstn n (rows (sort_values (coerced_col x c) c true)))
    as [m Em].
  pose proof (top_rows_In (coerced_col x c) c true n) as Hin.
  rewrite Em in *.
  eapply StronglySorted_weaken_in;
    [| apply StronglySorted_firstn, sort_values_ascending].
  intros r1 r2 H1 H2. cbv beta.
  rewrite !Hkey, !safe_float_key by (apply coerced_cell; auto).
  trivial.
Qed.

Lemma top_records_length {A B : Type} (f : A -> B) (n : Z) (l : list A) :
  0 <= n -> Z.of_nat (List.length (map f (py_take n l))) <= n.
Proof.
  intros Hn. rewrite length_map, py_take_length by assumption. lia.
Qed.

(** ** Cells of the other columns are left alone by a coercion *)

Lemma index_of_inj (c c' : string) (l : list string) (i : nat) :
  index_of c l = Some i -> index_of c' l = Some i -> c = c'.
Proof.
  revert i. induction l as [| a rest IH]; intros i; simpl; [discriminate |].
  destruct (String.eqb a c) eqn:E1, (String.eqb a c') eqn:E2.
  - apply String.eqb_eq in E1, E2. congruence.
  - destruct (index_of c' rest); [intros [= <-] [=] | intros _ [=]].
  - destruct (index_of c rest); [intros [= <-] [=] | intros [=]].
  - destruct (index_of c rest) as [j |] eqn:Ej; [| discriminate].
    destruct (index_of c' rest) as [j' |] eqn:Ej'; [| discriminate].
    intros [= <-] [= ->]. now apply (IH j).
Qed.

Lemma coerce_other_column `{PyRuntime} (df : DataFrame) (c c' : string) :
  String.eqb c c' = false ->
  map (fun row => numeric_of_cell (cell (coerced_col df c) row c')) (rows (coerced_col df c))
  = map (fun row => numeric_of_cell (cell df row c')) (rows df).
Proof.
  intros Hne. apply String.eqb_neq in Hne.
  unfold coerced_col, map_col, cell.
  destruct (index_of c (columns df)) as [i |] eqn:Ei; simpl; [| reflexivity].
  rewrite map_map. apply map_ext. intros row.
  destruct (index_of c' (columns df)) as [j |] eqn:Ej; [| reflexivity].
  rewrite nth_update_nth.
  destruct (Nat.eqb_spec j i) as [-> | Hji]; [| reflexivity].
  elim Hne. exact (index_of_inj _ _ _ _ Ei Ej).
Qed.

Lemma dropna_nonempty (s : list spec_float) :
  (exists f, In f s /\ is_nan f = false) -> dropna s <> [].
Proof.
  intros [f [Hin Hf]] E.
  assert (Hd : In f (dropna s)).
  { apply filter_In. split; [assumption | now rewrite Hf]. }
  rewrite E in Hd. exact Hd.
Qed.
(** ** [pd.to_numeric] *)

Lemma to_numeric_cell_raises `{PyRuntime} (v : pyval) (e : exn) :
  to_numeric_cell v = inl e -> e = int_too_large.
Proof.
  destruct v as [| b | z | f | s | l | d]; simpl; try discriminate.
  destruct (float_of_Z z); try discriminate. now intros [= <-].
Qed.

Lemma to_numeric_spec `{PyRuntime} (s : list pyval) :
  to_numeric s
  = if forallb (fun v => match to_numeric_cell v with inr _ => true | inl _ => false end) s
    then inr (map numeric_of_cell s)
    else inl int_too_large.
Proof.
  induction s as [| v rest IH]; simpl; [reflexivity |].
  unfold numeric_of_cell at 1.
  destruct (to_numeric_cell v) as [e | f] eqn:E; simpl.
  - now rewrite (to_numeric_cell_raises v e E).
  - rewrite IH. destruct (forallb _ rest); reflexivity.
Qed.

Lemma update_nth_const (i : nat) (g : pyval -> pyval) (row : list pyval) :
  update_nth i (fun _ => g (nth i row VNone)) row = update_nth i g row.
Proof.
  revert i. induction row as [| v rest IH]; intros [| i]; simpl; try reflexivity.
  f_equal. apply IH.
Qed.

Lemma set_cells_map (i : nat) (g : pyval -> pyval) (l : list (list pyval)) :
  set_cells i l (map (fun row => g (nth i row VNone)) l) = map (update_nth i g) l.
Proof.
  induction l as [| row rest IH]; simpl; [reflexivity |].
  f_equal; [apply update_nth_const | apply IH].
Qed.

(** [coerce_col] raises on a column that holds an [int] beyond the floats,
    and returns the frame with the floats of the column otherwise. *)
Lemma coerce_col_spec `{PyRuntime} (x : DataFrame) (c : string) :
  coerce_col x c = if coercible x c then inr (coerced_col x c) else inl int_too_large.
Proof.
  unfold coerce_col, coercible. rewrite to_numeric_spec.
  destruct (forallb _ _); [| reflexivity].
  f_equal. unfold set_col, coerced_col, map_col, column, cell.
  destruct (index_of c (columns x)) as [i |]; [| reflexivity].
  f_equal. rewrite !map_map.
  apply (set_cells_map i (fun v => VFloat (numeric_of_cell v))).
Qed.

Lemma column_coerced_other `{PyRuntime} (df : DataFrame) (c c' : string) :
  String.eqb c c' = false ->
  column (coerced_col df c) c' = column df c'.
Proof.
  intros Hne. apply String.eqb_neq in Hne.
  unfold column, coerced_col, map_col, cell.
  destruct (index_of c (columns df)) as [i |] eqn:Ei; simpl; [| reflexivity].
  rewrite map_map. apply map_ext. intros row.
  destruct (index_of c' (columns df)) as [j |] eqn:Ej; [| reflexivity].
  rewrite nth_update_nth.
  destruct (Nat.eqb_spec j i) as [-> | Hji]; [| reflexivity].
  elim Hne. exact (index_of_inj _ _ _ _ Ei Ej).
Qed.

Lemma coercible_coerced_other `{PyRuntime} (df : DataFrame) (c c' : string) :
  String.eqb c c' = false ->
  coercible (coerced_col df c) c' = coercible df c'.
Proof.
  intros Hne. unfold coercible. now rewrite column_coerced_other.
Qed.



(** ** The summaries, once their key columns are located *)

Lemma located_pick (df : DataFrame) (candidates : list string) :
  located df candidates <-> exists c, _pick_col df candidates = Some c.
Proof.
  split.
  - intros [c [Hc Hin]]. destruct (_pick_col df candidates) as [c0 |] eqn:E; [eauto |].
    exfalso. exact (proj1 (pick_col_None df candidates) E c Hc Hin).
  - intros [c E]. exists c. exact (pick_col_In _ _ _ E).
Qed.


Lemma coerced_col_columns `{PyRuntime} (df : DataFrame) (c : string) :
  columns (coerced_col df c) = columns df.
Proof.
  unfold coerced_col, map_col. destruct (index_of c (columns df)); reflexivity.
Qed.

(** [_summarize_spot] with its key columns located: it raises when a
    coercion does, and returns this dict otherwise. *)
Lemma summarize_spot_located `{PyRuntime} (df : DataFrame) (top_n : Z)
    (code_col name_col pct_col : string) :
  _pick_col df spot_code_candidates = Some code_col ->
  _pick_col df spot_name_candidates = Some name_col ->
  _pick_col df spot_pct_candidates = Some pct_col ->
  _summarize_spot df top_n
  = if spot_coercible df then
      let x := coerced_col df pct_col in
      let pct := series x pct_col in
      let turnover :=
        spot_turnover x top_n code_col name_col pct_col
          (_pick_col df spot_amount_candidates) (_pick_col df spot_price_candidates) in
      inr (VDict
             [("breadth", breadth_of pct);
              ("pct_chg_quantiles",
               VDict [("p10", q (dropna pct) (10 # 100)); ("p50", q (dropna pct) (50 # 100));
                      ("p90", q (dropna pct) (90 # 100))]);
              ("turnover_quantiles", fst turnover);
              ("limit_up_like", VInt (count_if (fun f => float_ge f float_9_5) pct));
              ("limit_down_like", VInt (count_if (fun f => float_le f float_neg_9_5) pct));
              ("top_turnover", snd turnover)])
    else inl int_too_large.
Proof.
  intros Hcode Hname Hpct. unfold _summarize_spot, spot_coercible.
  rewrite Hcode, Hname, Hpct.
  rewrite (located_not_missing df spot_code_candidates _ eq_refl Hcode),
    (located_not_missing df spot_name_candidates _ eq_refl Hname),
    (located_not_missing df spot_pct_candidates _ eq_refl Hpct).
  cbn [orb col_label]. rewrite coerce_col_spec.
  destruct (coercible df pct_col); [| reflexivity].
  cbn [andb]. cbv zeta. unfold spot_turnover.
  destruct (_pick_col df spot_amount_candidates) as [amount_col |] eqn:Hamt;
    [| reflexivity].
  rewrite (located_not_missing df spot_amount_candidates _ eq_refl Hamt).
  cbn [col_label]. rewrite coerce_col_spec.
  rewrite coercible_coerced_other
    by exact (disjointb_neq spot_pct_candidates spot_amount_candidates _ _ eq_refl
                (proj1 (pick_col_In _ _ _ Hpct)) (proj1 (pick_col_In _ _ _ Hamt))).
  destruct (coercible df amount_col); [| reflexivity].
  cbv zeta. destruct (dropna _); reflexivity.
Qed.

Lemma summarize_spot_error `{PyRuntime} (df : DataFrame) (top_n : Z) :
  _pick_col df spot_code_candidates = None
  \/ _pick_col df spot_name_candidates = None
  \/ _pick_col df spot_pct_candidates = None ->
  _summarize_spot df top_n
  = inr (VDict [("error", VStr "spot missing key columns");
                ("available_cols", str_list_value (columns df))]).
Proof.
  intros Hm. unfold _summarize_spot.
  destruct Hm as [Hm | [Hm | Hm]]; rewrite Hm; cbn [col_missing];
    rewrite ?orb_true_r; reflexivity.
Qed.

Lemma summarize_board_located `{PyRuntime} (df : DataFrame) (top_n : Z)
    (board_col pct_col : string) :
  _pick_col df board_name_candidates = Some board_col ->
  _pick_col df board_pct_candidates = Some pct_col ->
  _summarize_industry_board df top_n
  = if board_coercible df then
      let x := coerced_col df pct_col in
      let record :=
        board_record x board_col pct_col (filter (has_col df) board_extra_candidates) in
      inr (VDict
             [("top_gainers",
               records_value
                 (map record (py_take top_n (rows (sort_values x pct_col false)))));
              ("top_losers",
               records_value
                 (map record (py_take top_n (rows (sort_values x pct_col true)))))])
    else inl int_too_large.
Proof.
  intros Hboard Hpct.
  destruct (pick_col_In _ _ _ Hboard) as [Ib _].
  destruct (pick_col_In _ _ _ Hpct) as [Ip _].
  unfold _summarize_industry_board, board_coercible. rewrite Hboard, Hpct.
  rewrite (located_not_missing df board_name_candidates _ eq_refl Hboard),
    (located_not_missing df board_pct_candidates _ eq_refl Hpct).
  cbn [orb col_label]. rewrite coerce_col_spec.
  destruct (coercible df pct_col); [| reflexivity].
  cbv zeta. rewrite !pack_records by assumption.
  assert (E : filter (has_col (coerced_col df pct_col)) board_extra_candidates
              = filter (has_col df) board_extra_candidates).
  { apply filter_ext. intros c. unfold has_col. now rewrite coerced_col_columns. }
  rewrite E. reflexivity.
Qed.

Lemma summarize_board_error `{PyRuntime} (df : DataFrame) (top_n : Z) :
  _pick_col df board_name_candidates = None
  \/ _pick_col df board_pct_candidates = None ->
  _summarize_industry_board df top_n
  = inr (VDict [("error", VStr "industry board missing key columns");
                ("available_cols", str_list_value (columns df))]).
Proof.
  intros Hm. unfold _summarize_industry_board.
  destruct Hm as [Hm | Hm]; rewrite Hm; cbn [col_missing];
    rewrite ?orb_true_r; reflexivity.
Qed.

(** The summaries raise nothing but the [OverflowError] of a coercion, and
    only with their key columns located. *)
Lemma summarize_spot_raises `{PyRuntime} (df : DataFrame) (top_n : Z) (e : exn) :
  _summarize_spot df top_n = inl e ->
  e = int_too_large /\ spot_coercible df = false.
Proof.
  destruct (_pick_col df spot_code_candidates) as [c1 |] eqn:E1;
    [destruct (_pick_col df spot_name_candidates) as [c2 |] eqn:E2;
     [destruct (_pick_col df spot_pct_candidates) as [c3 |] eqn:E3 |] |].
  - rewrite (summarize_spot_located df top_n c1 c2 c3 E1 E2 E3).
    destruct (spot_coercible df); [discriminate | now intros [= <-]].
  - rewrite (summarize_spot_error df top_n) by tauto. discriminate.
  - rewrite (summarize_spot_error df top_n) by tauto. discriminate.
  - rewrite (summarize_spot_error df top_n) by tauto. discriminate.
Qed.

Lemma summarize_board_raises `{PyRuntime} (df : DataFrame) (top_n : Z) (e : exn) :
  _summarize_industry_board df top_n = inl e ->
  e = int_too_large /\ board_coercible df = false.
Proof.
  destruct (_pick_col df board_name_candidates) as [c1 |] eqn:E1;
    [destruct (_pick_col df board_pct_candidates) as [c2 |] eqn:E2 |].
  - rewrite (summarize_board_located df top_n c1 c2 E1 E2).
    destruct (board_coercible df); [discriminate | now intros [= <-]].
  - rewrite (summarize_board_error df top_n) by tauto. discriminate.
  - rewrite (summarize_board_error df top_n) by tauto. discriminate.
Qed.

(** They return as soon as the coercions go through. *)
Lemma summarize_spot_returns `{PyRuntime} (df : DataFrame) (top_n : Z) :
  spot_coercible df = true -> exists summary, _summarize_spot df top_n = inr summary.
Proof.
  intros Hc. destruct (_summarize_spot df top_n) as [e | summary] eqn:E; [| eauto].
  apply summarize_spot_raises in E. destruct E as [_ E]. congruence.
Qed.

Lemma summarize_board_returns `{PyRuntime} (df : DataFrame) (top_n : Z) :
  board_coercible df = true ->
  exists summary, _summarize_industry_board df top_n = inr summary.
Proof.
  intros Hc. destruct (_summarize_industry_board df top_n) as [e | summary] eqn:E;
    [| eauto].
  apply summarize_board_raises in E. destruct E as [_ E]. congruence.
Qed.

(** A summary that is returned with its key columns located is the dict of
    the coerced frame. *)
Lemma summarize_spot_returned `{PyRuntime} (df : DataFrame) (top_n : Z)
    (code_col name_col pct_col : string) (summary : pyval) :
  _pick_col df spot_code_candidates = Some code_col ->
  _pick_col df spot_name_candidates = Some name_col ->
  _pick_col df spot_pct_candidates = Some pct_col ->
  _summarize_spot df top_n = inr summary ->
  spot_coercible df = true
  /\ summary
     = let x := coerced_col df pct_col in
       let pct := series x pct_col in
       let turnover :=
         spot_turnover x top_n code_col name_col pct_col
           (_pick_col df spot_amount_candidates) (_pick_col df spot_price_candidates) in
       VDict
         [("breadth", breadth_of pct);
          ("pct_chg_quantiles",
           VDict [("p10", q (dropna pct) (10 # 100)); ("p50", q (dropna pct) (50 # 100));
                  ("p90", q (dropna pct) (90 # 100))]);
          ("turnover_quantiles", fst turnover);
          ("limit_up_like", VInt (count_if (fun f => float_ge f float_9_5) pct));
          ("limit_down_like", VInt (count_if (fun f => float_le f float_neg_9_5) pct));
          ("top_turnover", snd turnover)].
Proof.
  intros Hcode Hname Hpct.
  rewrite (summarize_spot_located df top_n _ _ _ Hcode Hname Hpct).
  destruct (spot_coercible df); [| discriminate].
  intros [= <-]. now split.
Qed.

Lemma summarize_board_returned `{PyRuntime} (df : DataFrame) (top_n : Z)
    (board_col pct_col : string) (summary : pyval) :
  _pick_col df board_name_candidates = Some board_col ->
  _pick_col df board_pct_candidates = Some pct_col ->
  _summarize_industry_board df top_n = inr summary ->
  board_coercible df = true
  /\ summary
     = let x := coerced_col df pct_col in
       let record :=
         board_record x board_col pct_col (filter (has_col df) board_extra_candidates) in
       VDict
         [("top_gainers",
           records_value (map record (py_take top_n (rows (sort_values x pct_col false)))));
          ("top_losers",
           records_value (map record (py_take top_n (rows (sort_values x pct_col true)))))].
Proof.
  intros Hboard Hpct.
  rewrite (summarize_board_located df top_n _ _ Hboard Hpct).
  destruct (board_coercible df); [| discriminate].
  intros [= <-]. now split.
Qed.

(** ** Breadth *)

(** C5: when the code, name and percent-change columns are located, the
    breadth counts that [_summarize_spot] returns are the numbers of rows
    whose coerced percent change is above, below and equal to zero, [total]
    is the number of rows of the frame, and a row whose percent change is
    missing or not a number counts in [total] only: the three counts and the
    number of such rows add up to [total], so the three counts are at most
    [total].  A summary is returned as soon as the coercions go through. *)
Theorem summarize_spot_breadth `{PyRuntime} (df : DataFrame) (top_n : Z)
    (code_col name_col pct_col : string) :
  _pick_col df spot_code_candidates = Some code_col ->
  _pick_col df spot_name_candidates = Some name_col ->
  _pick_col df spot_pct_candidates = Some pct_col ->
  let advance := rows_where df pct_col (fun f => float_gt f float_zero) in
  let decline := rows_where df pct_col (fun f => float_lt f float_zero) in
  let flat := rows_where df pct_col (fun f => float_eq f float_zero) in
  let missing := rows_where df pct_col is_nan in
  let total := Z.of_nat (df_len df) in
  (forall summary,
      _summarize_spot df top_n = inr summary ->
      field summary "breadth"
      = Some (VDict [("advance", VInt advance); ("decline", VInt decline);
                     ("flat", VInt flat); ("total", VInt total)])
      /\ advance + decline + flat + missing = total
      /\ advance + decline + flat <= total)
  /\ (spot_coercible df = true -> exists summary, _summarize_spot df top_n = inr summary).
Proof.
  intros Hcode Hname Hpct advance decline flat missing total.
  split; [| apply summarize_spot_returns].
  intros summary Hrun.
  assert (Hsum : advance + decline + flat + missing = total).
  { subst advance decline flat missing total.
    rewrite <- !count_if_coerced, sign_counts_partition, series_length.
    now rewrite coerced_col_len. }
  split; [| split; [exact Hsum |]].
  - destruct (summarize_spot_returned df top_n _ _ _ summary Hcode Hname Hpct Hrun)
      as [_ ->].
    cbv zeta. unfold field, breadth_of. cbn [dict_get].
    rewrite String.eqb_refl, !count_if_coerced, series_length, coerced_col_len.
    reflexivity.
  - assert (0 <= missing) by (subst missing; unfold rows_where; lia). lia.
Qed.

Lemma summarize_spot_breadth_witness :
  exists summary,
    @_summarize_spot plain_runtime spot_sample 20 = inr summary
    /\ field summary "breadth"
       = Some (VDict [("advance", VInt 1); ("decline", VInt 1); ("flat", VInt 1);
                      ("total", VInt 5)])
    /\ 1 + 1 + 1 + 2 = 5
    /\ 1 + 1 + 1 <= 5.
Proof.
  destruct (@summarize_spot_breadth plain_runtime spot_sample 20 "代码" "名称" "涨跌幅"
              eq_refl eq_refl eq_refl) as [Hbreadth Hreturns].
  destruct (Hreturns eq_refl) as [summary Hrun].
  exists summary. split; [exact Hrun |]. exact (Hbreadth summary Hrun).
Defined.

(** ** Missing key columns *)

(** C9: when no candidate label is found for the code, the name or the
    percent change ([_summarize_spot]), or for the board name or the percent
    change ([_summarize_industry_board]), the summary is returned, not
    raised, and is the dict whose ["error"] says that key columns are missing
    and whose ["available_cols"] lists the labels of the frame. *)
Theorem summaries_missing_key_columns `{PyRuntime} (df : DataFrame) (top_n : Z) :
  (none_located df spot_code_candidates
   \/ none_located df spot_name_candidates
   \/ none_located df spot_pct_candidates ->
   _summarize_spot df top_n
   = inr (VDict [("error", VStr "spot missing key columns");
                 ("available_cols", VList (map VStr (columns df)))]))
  /\ (none_located df board_name_candidates
      \/ none_located df board_pct_candidates ->
      _summarize_industry_board df top_n
      = inr (VDict [("error", VStr "industry board missing key columns");
                    ("available_cols", VList (map VStr (columns df)))])).
Proof.
  split.
  - intros Hmiss. unfold _summarize_spot.
    destruct Hmiss as [Hm | [Hm | Hm]]; apply pick_col_None in Hm; rewrite Hm;
      cbn [col_missing]; rewrite ?orb_true_r; reflexivity.
  - intros Hmiss. unfold _summarize_industry_board.
    destruct Hmiss as [Hm | Hm]; apply pick_col_None in Hm; rewrite Hm;
      cbn [col_missing]; rewrite ?orb_true_r; reflexivity.
Qed.

Lemma unlabelled_none_located (candidates : list string) :
  forallb (fun c => negb (has_col unlabelled_sample c)) candidates = true ->
  none_located unlabelled_sample candidates.
Proof.
  intros Hall c Hc. rewrite forallb_forall in Hall. apply Hall in Hc.
  apply negb_true_iff in Hc. now apply has_col_not_In.
Qed.

Lemma summaries_missing_key_columns_witness :
  @_summarize_spot plain_runtime unlabelled_sample 20
  = inr (VDict [("error", VStr "spot missing key columns");
                ("available_cols", VList [VStr "a"; VStr "b"])])
  /\ @_summarize_industry_board plain_runtime unlabelled_sample 20
     = inr (VDict [("error", VStr "industry board missing key columns");
                   ("available_cols", VList [VStr "a"; VStr "b"])]).
Proof.
  destruct (@summaries_missing_key_columns plain_runtime unlabelled_sample 20)
    as [Hspot Hboard].
  split.
  - apply Hspot. left. apply unlabelled_none_located. reflexivity.
  - apply Hboard. left. apply unlabelled_none_located. reflexivity.
Defined.

(** X6: a summary holds an ["error"] exactly when a key column is missing:
    one that [_summarize_spot] returns has none if and only if the code, the
    name and the percent change are located, one that
    [_summarize_industry_board] returns if and only if the board name and
    the percent change are; and a summary raises only past that test, with
    its key columns located. *)
Theorem summaries_error_iff_missing `{PyRuntime} (df : DataFrame) (top_n : Z) :
  match _summarize_spot df top_n with
  | inr summary =>
      field summary "error" = None
      <-> located df spot_code_candidates
          /\ located df spot_name_candidates
          /\ located df spot_pct_candidates
  | inl _ =>
      located df spot_code_candidates
      /\ located df spot_name_candidates
      /\ located df spot_pct_candidates
  end
  /\ match _summarize_industry_board df top_n with
     | inr summary =>
         field summary "error" = None
         <-> located df board_name_candidates /\ located df board_pct_candidates
     | inl _ => located df board_name_candidates /\ located df board_pct_candidates
     end.
Proof.
  split.
  - destruct (_summarize_spot df top_n) as [e | summary] eqn:Hrun; rewrite !located_pick;
      (destruct (_pick_col df spot_code_candidates) as [c1 |] eqn:E1;
       [destruct (_pick_col df spot_name_candidates) as [c2 |] eqn:E2;
        [destruct (_pick_col df spot_pct_candidates) as [c3 |] eqn:E3 |] |]);
      try (rewrite (summarize_spot_error df top_n) in Hrun by tauto;
           first [discriminate Hrun | injection Hrun as <-]).
    + repeat split; eexists; reflexivity.
    + destruct (summarize_spot_returned df top_n c1 c2 c3 summary E1 E2 E3 Hrun)
        as [_ ->].
      split; [intros _; repeat split; eexists; reflexivity | intros _; reflexivity].
    + split; [discriminate | intros [_ [_ [c [=]]]]].
    + split; [discriminate | intros [_ [[c [=]] _]]].
    + split; [discriminate | intros [[c [=]] _]].
  - destruct (_summarize_industry_board df top_n) as [e | summary] eqn:Hrun;
      rewrite !located_pick;
      (destruct (_pick_col df board_name_candidates) as [c1 |] eqn:E1;
       [destruct (_pick_col df board_pct_candidates) as [c2 |] eqn:E2 |]);
      try (rewrite (summarize_board_error df top_n) in Hrun by tauto;
           first [discriminate Hrun | injection Hrun as <-]).
    + repeat split; eexists; reflexivity.
    + destruct (summarize_board_returned df top_n c1 c2 summary E1 E2 Hrun) as [_ ->].
      split; [intros _; repeat split; eexists; reflexivity | intros _; reflexivity].
    + split; [discriminate | intros [_ [c [=]]]].
    + split; [discriminate | intros [[c [=]] _]].
Qed.

(** ** The columns the summaries read *)

Lemma spot_top_records `{PyRuntime} (df : DataFrame) (top_n : Z)
    (code_col name_col pct_col amount_col : string) :
  _pick_col df spot_code_candidates = Some code_col ->
  _pick_col df spot_name_candidates = Some name_col ->
  _pick_col df spot_pct_candidates = Some pct_col ->
  _pick_col df spot_amount_candidates = Some amount_col ->
  let x := coerced_col (coerced_col df pct_col) amount_col in
  spot_top_turnover x top_n code_col name_col pct_col amount_col
    (_pick_col df spot_price_candidates)
  = map (spot_record x code_col name_col pct_col amount_col
           (_pick_col df spot_price_candidates))
      (py_take top_n (rows (sort_values x amount_col false))).
Proof.
  intros Hcode Hname Hpct Hamt x.
  apply spot_top_turnover_records.
  - exact (proj1 (pick_col_In _ _ _ Hcode)).
  - exact (proj1 (pick_col_In _ _ _ Hname)).
  - exact (proj1 (pick_col_In _ _ _ Hpct)).
  - exact (proj1 (pick_col_In _ _ _ Hamt)).
  - intros c Hc. exact (proj1 (pick_col_In _ _ _ Hc)).
Qed.







(** ** Limit moves *)

Lemma limit_up_is_advance (f : spec_float) :
  float_ge f float_9_5 = true -> float_gt f float_zero = true.
Proof.
  destruct f as [s | s | | s m e]; try destruct s; intros Hf;
    try reflexivity; discriminate Hf.
Qed.

Lemma limit_down_is_decline (f : spec_float) :
  float_le f float_neg_9_5 = true -> float_lt f float_zero = true.
Proof.
  destruct f as [s | s | | s m e]; try destruct s; intros Hf;
    try reflexivity; discriminate Hf.
Qed.

Lemma rows_where_le `{PyRuntime} (df : DataFrame) (c : string) (p p' : spec_float -> bool) :
  (forall f, p f = true -> p' f = true) ->
  rows_where df c p <= rows_where df c p'.
Proof.
  intros Himp. unfold rows_where. apply inj_le.
  induction (rows df) as [| row rest IH]; simpl; [lia |].
  destruct (p (numeric_of_cell (cell df row c))) eqn:E.
  - rewrite (Himp _ E). simpl. lia.
  - destruct (p' _); simpl; lia.
Qed.

(** X7: the instruments counted as limit-up are among those counted as
    advancing, and those counted as limit-down among the declining ones: in
    the summary that [_summarize_spot] returns when its coercions go
    through, [limit_up_like], the rows whose coerced percent change is at
    least 9.5, is at most [advance], and [limit_down_like], the rows at -9.5
    or below, at most [decline]. *)
Theorem limit_counts_within_breadth `{PyRuntime} (df : DataFrame) (top_n : Z)
    (code_col name_col pct_col : string) :
  _pick_col df spot_code_candidates = Some code_col ->
  _pick_col df spot_name_candidates = Some name_col ->
  _pick_col df spot_pct_candidates = Some pct_col ->
  spot_coercible df = true ->
  let up := rows_where df pct_col (fun f => float_ge f float_9_5) in
  let down := rows_where df pct_col (fun f => float_le f float_neg_9_5) in
  exists summary,
    _summarize_spot df top_n = inr summary
    /\ field summary "limit_up_like" = Some (VInt up)
    /\ field summary "limit_down_like" = Some (VInt down)
    /\ up <= rows_where df pct_col (fun f => float_gt f float_zero)
    /\ down <= rows_where df pct_col (fun f => float_lt f float_zero).
Proof.
  intros Hcode Hname Hpct Hco up down.
  rewrite (summarize_spot_located df top_n _ _ _ Hcode Hname Hpct), Hco. cbv zeta.
  eexists. split; [reflexivity |].
  unfold field. cbn [dict_get String.eqb Ascii.eqb Bool.eqb].
  rewrite !count_if_coerced.
  repeat split.
  - apply rows_where_le, limit_up_is_advance.
  - apply rows_where_le, limit_down_is_decline.
Qed.

Lemma limit_counts_within_breadth_witness :
  exists summary,
    @_summarize_spot plain_runtime limit_sample 20 = inr summary
    /\ field summary "limit_up_like" = Some (VInt 1)
    /\ field summary "limit_down_like" = Some (VInt 2)
    /\ 1 <= 2
    /\ 2 <= 2.
Proof.
  apply (@limit_counts_within_breadth plain_runtime limit_sample 20 "code" "name" "pct_chg");
    reflexivity.
Defined.

(** ** Turnover *)

Lemma dropna_nil_iff (s : list spec_float) :
  dropna s = [] <-> forall f, In f s -> is_nan f = true.
Proof.
  unfold dropna. induction s as [| f rest IH]; simpl.
  - split; [intros _ f [] | reflexivity].
  - destruct (is_nan f) eqn:E; simpl.
    + rewrite IH. split.
      * intros Hall g [<- | Hg]; [exact E | now apply Hall].
      * intros Hall g Hg. apply Hall. now right.
    + split; [discriminate |]. intros Hall. specialize (Hall f (or_introl eq_refl)).
      congruence.
Qed.

(** The coerced turnover of the frame, after the percent change was
    coerced, is the coerced turnover of the frame as it came. *)
Lemma turnover_series `{PyRuntime} (df : DataFrame) (pct_col amount_col : string) :
  In pct_col spot_pct_candidates ->
  In amount_col spot_amount_candidates ->
  series (coerced_col (coerced_col df pct_col) amount_col) amount_col
  = map (fun row => numeric_of_cell (cell df row amount_col)) (rows df).
Proof.
  intros Ip Ia. rewrite series_coerce. apply coerce_other_column.
  exact (disjointb_neq spot_pct_candidates spot_amount_candidates _ _ eq_refl Ip Ia).
Qed.

Lemma spot_turnover_present `{PyRuntime} (df : DataFrame) (top_n : Z)
    (code_col name_col pct_col amount_col : string) :
  _pick_col df spot_code_candidates = Some code_col ->
  _pick_col df spot_name_candidates = Some name_col ->
  _pick_col df spot_pct_candidates = Some pct_col ->
  _pick_col df spot_amount_candidates = Some amount_col ->
  (exists row, In row (rows df)
               /\ is_nan (numeric_of_cell (cell df row amount_col)) = false) ->
  let x := coerced_col (coerced_col df pct_col) amount_col in
  exists quantiles,
    spot_turnover (coerced_col df pct_col) top_n code_col name_col pct_col
      (Some amount_col) (_pick_col df spot_price_candidates)
    = (VDict quantiles,
       records_value
         (map (spot_record x code_col name_col pct_col amount_col
                 (_pick_col df spot_price_candidates))
            (py_take top_n (rows (sort_values x amount_col false))))).
Proof.
  intros Hcode Hname Hpct Hamt [row [Hrow Hnum]] x.
  destruct (pick_col_In _ _ _ Hpct) as [Ip _].
  destruct (pick_col_In _ _ _ Hamt) as [Ia _].
  unfold spot_turnover.
  rewrite (located_not_missing df spot_amount_candidates _ eq_refl Hamt).
  cbn [col_label]. cbv zeta. fold x.
  destruct (dropna (series x amount_col)) as [| f amt] eqn:Eamt.
  { exfalso. apply dropna_nil_iff with (f := numeric_of_cell (cell df row amount_col))
      in Eamt; [congruence |].
    subst x. rewrite turnover_series by assumption.
    apply (in_map (fun r => numeric_of_cell (cell df r amount_col))). exact Hrow. }
  eexists. subst x.
  rewrite (spot_top_records df top_n _ _ _ _ Hcode Hname Hpct Hamt). reflexivity.
Qed.

(** X8: the summary that [_summarize_spot] returns when its coercions go
    through gives the turnover quantiles and the top list together or not
    at all: both are [None] when no turnover column is located or no row
    holds a number under it, and both are there as soon as one row does. *)
Theorem turnover_fields_together `{PyRuntime} (df : DataFrame) (top_n : Z)
    (code_col name_col pct_col : string) :
  _pick_col df spot_code_candidates = Some code_col ->
  _pick_col df spot_name_candidates = Some name_col ->
  _pick_col df spot_pct_candidates = Some pct_col ->
  spot_coercible df = true ->
  exists summary,
    _summarize_spot df top_n = inr summary
    /\ ((forall amount_col row,
            _pick_col df spot_amount_candidates = Some amount_col ->
            In row (rows df) ->
            is_nan (numeric_of_cell (cell df row amount_col)) = true) ->
        field summary "turnover_quantiles" = Some VNone
        /\ field summary "top_turnover" = Some VNone)
    /\ ((exists amount_col row,
            _pick_col df spot_amount_candidates = Some amount_col
            /\ In row (rows df)
            /\ is_nan (numeric_of_cell (cell df row amount_col)) = false) ->
        exists quantiles records,
          field summary "turnover_quantiles" = Some (VDict quantiles)
          /\ field summary "top_turnover" = Some (records_value records)).
Proof.
  intros Hcode Hname Hpct Hco.
  rewrite (summarize_spot_located df top_n _ _ _ Hcode Hname Hpct), Hco. cbv zeta.
  eexists. split; [reflexivity |].
  unfold field. cbn [dict_get String.eqb Ascii.eqb Bool.eqb].
  split.
  - intros Hall.
    assert (E : spot_turnover (coerced_col df pct_col) top_n code_col name_col pct_col
                  (_pick_col df spot_amount_candidates)
                  (_pick_col df spot_price_candidates) = (VNone, VNone)).
    { unfold spot_turnover.
      destruct (_pick_col df spot_amount_candidates) as [amount_col |] eqn:Hamt;
        [| reflexivity].
      rewrite (located_not_missing df spot_amount_candidates _ eq_refl Hamt).
      cbn [col_label]. cbv zeta.
      assert (Enil : dropna (series (coerced_col (coerced_col df pct_col) amount_col)
                               amount_col) = []).
      { apply dropna_nil_iff. intros f Hf.
        rewrite turnover_series in Hf
          by (exact (proj1 (pick_col_In _ _ _ Hpct))
              || exact (proj1 (pick_col_In _ _ _ Hamt))).
        apply in_map_iff in Hf. destruct Hf as [row [<- Hrow]].
        now apply (Hall amount_col row). }
      now rewrite Enil. }
    rewrite E. split; reflexivity.
  - intros [amount_col [row [Hamt [Hrow Hnum]]]].
    rewrite Hamt.
    destruct (spot_turnover_present df top_n _ _ _ _ Hcode Hname Hpct Hamt
                (ex_intro _ row (conj Hrow Hnum))) as [quantiles E].
    rewrite E. do 2 eexists. split; reflexivity.
Qed.

Lemma turnover_fields_together_witness :
  exists quantiles records,
    field (spot_summary_sample 2) "turnover_quantiles" = Some (VDict quantiles)
    /\ field (spot_summary_sample 2) "top_turnover" = Some (records_value records).
Proof.
  destruct (@turnover_fields_together plain_runtime spot_sample 2 "代码" "名称" "涨跌幅"
              eq_refl eq_refl eq_refl eq_refl) as [summary [Hrun [_ Hthere]]].
  assert (E : spot_summary_sample 2 = summary).
  { unfold spot_summary_sample. now rewrite Hrun. }
  rewrite E. apply Hthere.
  exists "成交额", [VStr "600000"; VStr "A"; num 10; num 2; num 300].
  split; [reflexivity |]. split; [simpl; tauto | reflexivity].
Defined.

Lemma sorted_rows_length (x : DataFrame) (c : string) (ascending : bool) :
  List.length (rows (sort_values x c ascending)) = df_len x.
Proof.
  symmetry. apply Permutation_length, sort_values_perm.
Qed.

Lemma py_take_count {A : Type} (n : Z) (l : list A) :
  Z.of_nat (List.length (py_take n l)) = head_count n (List.length l).
Proof.
  unfold head_count. destruct (Z.leb_spec 0 n).
  - now apply py_take_length.
  - now apply py_take_length_neg.
Qed.

(** The top list of a summary, when a turnover column is located and holds
    a number. *)
Lemma summarize_spot_top `{PyRuntime} (df : DataFrame) (top_n : Z)
    (code_col name_col pct_col amount_col : string) :
  _pick_col df spot_code_candidates = Some code_col ->
  _pick_col df spot_name_candidates = Some name_col ->
  _pick_col df spot_pct_candidates = Some pct_col ->
  _pick_col df spot_amount_candidates = Some amount_col ->
  (exists row, In row (rows df)
               /\ is_nan (numeric_of_cell (cell df row amount_col)) = false) ->
  forall summary,
    _summarize_spot df top_n = inr summary ->
    let x := coerced_col (coerced_col df pct_col) amount_col in
    field summary "top_turnover"
    = Some (records_value
              (map (spot_record x code_col name_col pct_col amount_col
                      (_pick_col df spot_price_candidates))
                 (py_take top_n (rows (sort_values x amount_col false))))).
Proof.
  intros Hcode Hname Hpct Hamt Hnum summary Hrun x.
  destruct (summarize_spot_returned df top_n _ _ _ summary Hcode Hname Hpct Hrun)
    as [_ ->].
  cbv zeta. rewrite Hamt.
  destruct (spot_turnover_present df top_n _ _ _ _ Hcode Hname Hpct Hamt Hnum)
    as [quantiles E].
  rewrite E. reflexivity.
Qed.

(** ** Top lists *)

(** C7, for a top_n that is not negative: when a turnover column is located
    and holds at least one number, the top-by-turnover list that
    [_summarize_spot] returns has at most [top_n] records, in descending
    order of turnover; the [top_gainers] and [top_losers] lists that
    [_summarize_industry_board] returns have at most [top_n] records each,
    in descending and in ascending order of percent change.  Records
    without a number come last in each list, and the order holds for every
    [top_n].  The summaries are returned as soon as their coercions go
    through. *)
Theorem top_lists_bounded_and_ordered `{PyRuntime} (df : DataFrame) (top_n : Z) :
  (forall (code_col name_col pct_col amount_col : string) (summary : pyval),
      _pick_col df spot_code_candidates = Some code_col ->
      _pick_col df spot_name_candidates = Some name_col ->
      _pick_col df spot_pct_candidates = Some pct_col ->
      _pick_col df spot_amount_candidates = Some amount_col ->
      (exists row, In row (rows df)
                   /\ is_nan (numeric_of_cell (cell df row amount_col)) = false) ->
      _summarize_spot df top_n = inr summary ->
      exists records,
        field summary "top_turnover" = Some (records_value records)
        /\ (0 <= top_n -> Z.of_nat (List.length records) <= top_n)
        /\ records_descending "amount" records)
  /\ (forall (board_col pct_col : string) (summary : pyval),
        _pick_col df board_name_candidates = Some board_col ->
        _pick_col df board_pct_candidates = Some pct_col ->
        _summarize_industry_board df top_n = inr summary ->
        exists gainers losers,
          field summary "top_gainers" = Some (records_value gainers)
          /\ field summary "top_losers" = Some (records_value losers)
          /\ (0 <= top_n ->
              Z.of_nat (List.length gainers) <= top_n
              /\ Z.of_nat (List.length losers) <= top_n)
          /\ records_descending "pct_chg" gainers
          /\ records_ascending "pct_chg" losers)
  /\ (spot_coercible df = true -> exists summary, _summarize_spot df top_n = inr summary)
  /\ (board_coercible df = true ->
      exists summary, _summarize_industry_board df top_n = inr summary).
Proof.
  split; [| split; [| split;
                      [apply summarize_spot_returns | apply summarize_board_returns]]].
  - intros code_col name_col pct_col amount_col summary Hcode Hname Hpct Hamt Hnum Hrun.
    eexists. split.
    + exact (summarize_spot_top df top_n _ _ _ _ Hcode Hname Hpct Hamt Hnum summary Hrun).
    + split.
      * apply top_records_length.
      * apply top_records_descending. intros r. apply spot_record_amount.
  - intros board_col pct_col summary Hboard Hpct Hrun.
    destruct (summarize_board_returned df top_n _ _ summary Hboard Hpct Hrun) as [_ ->].
    cbv zeta. do 2 eexists. split; [reflexivity |]. split; [reflexivity |].
    split; [| split].
    + intros Hn. split; apply top_records_length; assumption.
    + apply top_records_descending. intros r. reflexivity.
    + apply top_records_ascending. intros r. reflexivity.
Qed.

Lemma top_lists_bounded_and_ordered_witness :
  (exists records,
      field (spot_summary_sample 2) "top_turnover" = Some (records_value records)
      /\ (0 <= 2 -> Z.of_nat (List.length records) <= 2)
      /\ records_descending "amount" records)
  /\ (exists gainers losers,
        field (board_summary_sample 2) "top_gainers" = Some (records_value gainers)
        /\ field (board_summary_sample 2) "top_losers" = Some (records_value losers)
        /\ (0 <= 2 ->
            Z.of_nat (List.length gainers) <= 2 /\ Z.of_nat (List.length losers) <= 2)
        /\ records_descending "pct_chg" gainers
        /\ records_ascending "pct_chg" losers).
Proof.
  destruct (@top_lists_bounded_and_ordered plain_runtime spot_sample 2) as [Hspot _].
  destruct (@top_lists_bounded_and_ordered plain_runtime board_sample 2)
    as [_ [Hboard _]].
  split.
  - apply (Hspot "代码" "名称" "涨跌幅" "成交额"); try reflexivity.
    exists [VStr "600000"; VStr "A"; num 10; num 2; num 300].
    split; [simpl; tauto | reflexivity].
  - apply (Hboard "板块名称" "涨跌幅"); reflexivity.
Defined.

(** C7 as stated fails for a negative [top_n]: [head(-1)] keeps all the rows
    but the last, so the five instruments of the sample give four records,
    which is not at most -1. *)
Lemma top_n_negative_counterexample :
  exists summary records,
    @_summarize_spot plain_runtime spot_sample (-1) = inr summary
    /\ field summary "top_turnover" = Some (records_value records)
    /\ List.length records = 4%nat
    /\ ~ (Z.of_nat (List.length records) <= -1).
Proof.
  exists (spot_summary_sample (-1)).
  exists (@spot_top_turnover plain_runtime
            (@coerced_col plain_runtime
               (@coerced_col plain_runtime spot_sample "涨跌幅") "成交额")
            (-1) "代码" "名称" "涨跌幅" "成交额" (Some "最新价")).
  split; [reflexivity |].
  split; [vm_compute; reflexivity |].
  assert (E : List.length
                (@spot_top_turnover plain_runtime
                   (@coerced_col plain_runtime
                      (@coerced_col plain_runtime spot_sample "涨跌幅") "成交额")
                   (-1) "代码" "名称" "涨跌幅" "成交额" (Some "最新价")) = 4%nat)
    by (vm_compute; reflexivity).
  split; [exact E | rewrite E; lia].
Qed.

Example top_turnover_sample :
  field (spot_summary_sample 2) "top_turnover"
  = Some (VList
            [VDict [("code", VStr "600001"); ("name", VStr "B"); ("last", num 11);
                    ("pct_chg", num (-1)); ("amount", num 500)];
             VDict [("code", VStr "600003"); ("name", VStr "D"); ("last", num 13);
                    ("pct_chg", num 0); ("amount", num 400)]]).
Proof. vm_compute. reflexivity. Qed.

Example top_gainers_sample :
  field (board_summary_sample 2) "top_gainers"
  = Some (VList
            [VDict [("board", VStr "media"); ("pct_chg", num 4); ("adv", num 31)];
             VDict [("board", VStr "banks"); ("pct_chg", num 1); ("adv", num 20)]]).
Proof. vm_compute. reflexivity. Qed.

(** On a frame whose percent change holds an [int] that no float holds, the
    summary is not returned: [pd.to_numeric] raises. *)
Example overflow_raises :
  exists e,
    @_summarize_spot plain_runtime overflow_sample 20 = inl e
    /\ ename e = "OverflowError".
Proof. eexists. split; reflexivity. Qed.

(** X9: when a turnover column is located and holds a number, the top list
    of the summary that [_summarize_spot] returns when its coercions go
    through has as many records as [head(top_n)] leaves of the rows of the
    frame: the smaller of [top_n] and the number of rows, and for a negative
    [top_n] the number of rows less [-top_n], if any.  Rows without a
    turnover are not left out: they count like the others. *)
Theorem top_turnover_count `{PyRuntime} (df : DataFrame) (top_n : Z)
    (code_col name_col pct_col amount_col : string) :
  _pick_col df spot_code_candidates = Some code_col ->
  _pick_col df spot_name_candidates = Some name_col ->
  _pick_col df spot_pct_candidates = Some pct_col ->
  _pick_col df spot_amount_candidates = Some amount_col ->
  (exists row, In row (rows df)
               /\ is_nan (numeric_of_cell (cell df row amount_col)) = false) ->
  spot_coercible df = true ->
  exists summary records,
    _summarize_spot df top_n = inr summary
    /\ field summary "top_turnover" = Some (records_value records)
    /\ Z.of_nat (List.length records) = head_count top_n (df_len df).
Proof.
  intros Hcode Hname Hpct Hamt Hnum Hco.
  destruct (summarize_spot_returns df top_n Hco) as [summary Hrun].
  exists summary. eexists. split; [exact Hrun |]. split.
  - exact (summarize_spot_top df top_n _ _ _ _ Hcode Hname Hpct Hamt Hnum summary Hrun).
  - rewrite length_map, py_take_count, sorted_rows_length, !coerced_col_len. reflexivity.
Qed.

Lemma top_turnover_count_witness :
  exists summary records,
    @_summarize_spot plain_runtime spot_sample 7 = inr summary
    /\ field summary "top_turnover" = Some (records_value records)
    /\ Z.of_nat (List.length records) = 5.
Proof.
  apply (@top_turnover_count plain_runtime spot_sample 7 "代码" "名称" "涨跌幅" "成交额");
    try reflexivity.
  exists [VStr "600000"; VStr "A"; num 10; num 2; num 300].
  split; [simpl; tauto | reflexivity].
Defined.

Lemma spot_record_fst `{PyRuntime} (x : DataFrame)
    (code_col name_col pct_col amount_col : string) (price_col : option string)
    (row : list pyval) :
  col_missing price_col = match price_col with Some _ => false | None => true end ->
  map fst (spot_record x code_col name_col pct_col amount_col price_col row)
  = spot_record_keys price_col.
Proof.
  intros Hp. unfold spot_record, spot_record_keys. rewrite Hp.
  destruct price_col; reflexivity.
Qed.

(** X10: every record of the top list of the summary that [_summarize_spot]
    returns when its coercions go through has the same keys, in this order:
    ["code"], ["name"], then ["last"] if a price column is located, then
    ["pct_chg"] and ["amount"], whatever the columns are called in the
    frame. *)
Theorem top_turnover_record_keys `{PyRuntime} (df : DataFrame) (top_n : Z)
    (code_col name_col pct_col amount_col : string) :
  _pick_col df spot_code_candidates = Some code_col ->
  _pick_col df spot_name_candidates = Some name_col ->
  _pick_col df spot_pct_candidates = Some pct_col ->
  _pick_col df spot_amount_candidates = Some amount_col ->
  (exists row, In row (rows df)
               /\ is_nan (numeric_of_cell (cell df row amount_col)) = false) ->
  spot_coercible df = true ->
  exists summary records,
    _summarize_spot df top_n = inr summary
    /\ field summary "top_turnover" = Some (records_value records)
    /\ Forall
         (fun r => map fst r = spot_record_keys (_pick_col df spot_price_candidates))
         records.
Proof.
  intros Hcode Hname Hpct Hamt Hnum Hco.
  destruct (summarize_spot_returns df top_n Hco) as [summary Hrun].
  exists summary. eexists. split; [exact Hrun |]. split.
  - exact (summarize_spot_top df top_n _ _ _ _ Hcode Hname Hpct Hamt Hnum summary Hrun).
  - rewrite Forall_forall. intros r Hr. apply in_map_iff in Hr.
    destruct Hr as [row [<- _]]. apply spot_record_fst.
    destruct (_pick_col df spot_price_candidates) as [pc |] eqn:Hprice; [| reflexivity].
    exact (located_not_missing df spot_price_candidates _ eq_refl Hprice).
Qed.

Lemma top_turnover_record_keys_witness :
  exists summary records,
    @_summarize_spot plain_runtime spot_sample 2 = inr summary
    /\ field summary "top_turnover" = Some (records_value records)
    /\ Forall (fun r => map fst r = ["code"; "name"; "last"; "pct_chg"; "amount"]) records.
Proof.
  apply (@top_turnover_record_keys plain_runtime spot_sample 2
           "代码" "名称" "涨跌幅" "成交额");
    try reflexivity.
  exists [VStr "600000"; VStr "A"; num 10; num 2; num 300].
  split; [simpl; tauto | reflexivity].
Defined.

(** ** Board lists *)

Lemma board_record_fst `{PyRuntime} (x df : DataFrame) (board_col pct_col : string)
    (row : list pyval) :
  map fst (board_record x board_col pct_col
             (filter (has_col df) board_extra_candidates) row)
  = board_record_keys df.
Proof.
  unfold board_record, board_record_keys, board_extra_candidates. cbn [filter].
  destruct (has_col df "上涨家数"), (has_col df "下跌家数"), (has_col df "领涨股票"),
    (has_col df "领涨股票-涨跌幅"); reflexivity.
Qed.

(** X11: every record of [top_gainers] and of [top_losers], in the summary
    that [_summarize_industry_board] returns when its coercion goes
    through, has the same keys, in this order: ["board"], ["pct_chg"], and
    then ["adv"], ["dec"], ["leader"] and ["leader_pct_chg"], each only if
    the frame has the column it comes from. *)
Theorem board_record_keys_same `{PyRuntime} (df : DataFrame) (top_n : Z)
    (board_col pct_col : string) :
  _pick_col df board_name_candidates = Some board_col ->
  _pick_col df board_pct_candidates = Some pct_col ->
  board_coercible df = true ->
  exists summary gainers losers,
    _summarize_industry_board df top_n = inr summary
    /\ field summary "top_gainers" = Some (records_value gainers)
    /\ field summary "top_losers" = Some (records_value losers)
    /\ Forall (fun r => map fst r = board_record_keys df) (gainers ++ losers).
Proof.
  intros Hboard Hpct Hco.
  rewrite (summarize_board_located df top_n _ _ Hboard Hpct), Hco. cbv zeta.
  do 3 eexists. split; [reflexivity |]. split; [reflexivity |]. split; [reflexivity |].
  rewrite Forall_forall. intros r Hr. apply in_app_or in Hr.
  destruct Hr as [Hr | Hr]; apply in_map_iff in Hr; destruct Hr as [row [<- _]];
    apply board_record_fst.
Qed.

Lemma board_record_keys_same_witness :
  exists summary gainers losers,
    @_summarize_industry_board plain_runtime board_sample 2 = inr summary
    /\ field summary "top_gainers" = Some (records_value gainers)
    /\ field summary "top_losers" = Some (records_value losers)
    /\ Forall (fun r => map fst r = ["board"; "pct_chg"; "adv"]) (gainers ++ losers).
Proof.
  apply (@board_record_keys_same plain_runtime board_sample 2 "板块名称" "涨跌幅");
    reflexivity.
Defined.

Lemma py_take_all {A : Type} (n : Z) (l : list A) :
  Z.of_nat (List.length l) <= n -> py_take n l = l.
Proof.
  intros Hn. unfold py_take. destruct (Z.leb_spec 0 n); [| lia].
  apply firstn_all2. lia.
Qed.

(** X12: in the summary that [_summarize_industry_board] returns when its
    coercion goes through, [top_gainers] and [top_losers] have the same
    number of records, the one [head(top_n)] leaves of the rows of the
    frame; and once [top_n] reaches the number of rows, both lists hold
    every board: one is the other in another order. *)
Theorem gainers_and_losers `{PyRuntime} (df : DataFrame) (top_n : Z)
    (board_col pct_col : string) :
  _pick_col df board_name_candidates = Some board_col ->
  _pick_col df board_pct_candidates = Some pct_col ->
  board_coercible df = true ->
  exists summary gainers losers,
    _summarize_industry_board df top_n = inr summary
    /\ field summary "top_gainers" = Some (records_value gainers)
    /\ field summary "top_losers" = Some (records_value losers)
    /\ Z.of_nat (List.length gainers) = head_count top_n (df_len df)
    /\ List.length losers = List.length gainers
    /\ (Z.of_nat (df_len df) <= top_n -> Permutation gainers losers).
Proof.
  intros Hboard Hpct Hco.
  rewrite (summarize_board_located df top_n _ _ Hboard Hpct), Hco. cbv zeta.
  do 3 eexists. split; [reflexivity |]. split; [reflexivity |]. split; [reflexivity |].
  split; [| split].
  - rewrite length_map, py_take_count, sorted_rows_length, coerced_col_len. reflexivity.
  - apply Nat2Z.inj.
    rewrite !length_map, !py_take_count, !sorted_rows_length. reflexivity.
  - intros Hn. rewrite !py_take_all
      by (rewrite sorted_rows_length, coerced_col_len; exact Hn).
    apply Permutation_map.
    eapply perm_trans; [apply Permutation_sym, sort_values_perm | apply sort_values_perm].
Qed.

Lemma gainers_and_losers_witness :
  exists summary gainers losers,
    @_summarize_industry_board plain_runtime board_sample 3 = inr summary
    /\ field summary "top_gainers" = Some (records_value gainers)
    /\ field summary "top_losers" = Some (records_value losers)
    /\ Z.of_nat (List.length gainers) = 3
    /\ List.length losers = List.length gainers
    /\ (3 <= 3 -> Permutation gainers losers).
Proof.
  apply (@gainers_and_losers plain_runtime board_sample 3 "板块名称" "涨跌幅");
    reflexivity.
Defined.

(** ** What [top_n] changes *)

Lemma spot_turnover_quantiles_any_top_n `{PyRuntime} (x : DataFrame) (n1 n2 : Z)
    (code_col name_col pct_col : string) (amount_col price_col : option string) :
  fst (spot_turnover x n1 code_col name_col pct_col amount_col price_col)
  = fst (spot_turnover x n2 code_col name_col pct_col amount_col price_col).
Proof.
  unfold spot_turnover. destruct (col_missing amount_col); [reflexivity |].
  cbv zeta. destruct (dropna _); reflexivity.
Qed.

(** X13: in [_summarize_spot], [top_n] decides the top list and nothing
    else: for any two [top_n] it raises alike or returns alike, and the
    breadth, the quantiles, the limit counts and an error are the same in
    the two summaries. *)
Theorem top_n_only_top_turnover `{PyRuntime} (df : DataFrame) (n1 n2 : Z) (k : string) :
  k <> "top_turnover" ->
  match _summarize_spot df n1, _summarize_spot df n2 with
  | inr s1, inr s2 => field s1 k = field s2 k
  | inl e1, inl e2 => e1 = e2
  | _, _ => False
  end.
Proof.
  intros Hk.
  destruct (_pick_col df spot_code_candidates) as [c1 |] eqn:E1;
    [destruct (_pick_col df spot_name_candidates) as [c2 |] eqn:E2;
     [destruct (_pick_col df spot_pct_candidates) as [c3 |] eqn:E3 |] |].
  - rewrite !(summarize_spot_located df _ c1 c2 c3 E1 E2 E3).
    destruct (spot_coercible df); [| reflexivity].
    cbv zeta. unfold field. cbn [dict_get].
    rewrite (spot_turnover_quantiles_any_top_n _ n1 n2).
    assert (Ek : String.eqb "top_turnover" k = false).
    { apply String.eqb_neq. congruence. }
    rewrite Ek. reflexivity.
  - rewrite !(summarize_spot_error df) by tauto. reflexivity.
  - rewrite !(summarize_spot_error df) by tauto. reflexivity.
  - rewrite !(summarize_spot_error df) by tauto. reflexivity.
Qed.

Lemma top_n_only_top_turnover_witness :
  field (spot_summary_sample 1) "turnover_quantiles"
  = field (spot_summary_sample 50) "turnover_quantiles".
Proof.
  apply (@top_n_only_top_turnover plain_runtime spot_sample 1 50 "turnover_quantiles").
  discriminate.
Defined.

(** ** [float] of an [int] is never NaN *)

Lemma shr_1_nonneg (mrs : shr_record) : 0 <= shr_m mrs -> 0 <= shr_m (shr_1 mrs).
Proof.
  destruct mrs as [m r s]. simpl. destruct m as [| p | p]; simpl; try lia.
  - destruct p; simpl; lia.
Qed.

Lemma iter_shr_1_nonneg (p : positive) (mrs : shr_record) :
  0 <= shr_m mrs -> 0 <= shr_m (iter_pos shr_1 p mrs).
Proof.
  revert mrs. induction p as [p IH | p IH |]; intros mrs Hm; simpl.
  - apply IH, IH, shr_1_nonneg, Hm.
  - apply IH, IH, Hm.
  - apply shr_1_nonneg, Hm.
Qed.

Lemma shr_fexp_nonneg (prec emax m e : Z) (l : location) :
  0 <= m -> 0 <= shr_m (fst (shr_fexp prec emax m e l)).
Proof.
  intros Hm. unfold shr_fexp, shr.
  assert (Hrec : 0 <= shr_m (shr_record_of_loc m l)).
  { destruct l as [| c]; [| destruct c]; exact Hm. }
  destruct (fexp prec emax (Zdigits2 m + e) - e); simpl; try exact Hrec.
  apply iter_shr_1_nonneg, Hrec.
Qed.

Lemma round_nearest_even_nonneg (m : Z) (l : location) :
  0 <= m -> 0 <= round_nearest_even m l.
Proof.
  intros Hm. destruct l as [| c]; [| destruct c]; simpl; try lia.
  destruct (Z.even m); lia.
Qed.

Lemma binary_round_aux_not_nan (prec emax : Z) (sx : bool) (mx ex : Z) (lx : location) :
  0 <= mx -> is_nan (binary_round_aux prec emax sx mx ex lx) = false.
Proof.
  intros Hm. unfold binary_round_aux.
  pose proof (shr_fexp_nonneg prec emax mx ex lx Hm) as H1.
  destruct (shr_fexp prec emax mx ex lx) as [mrs' e']. simpl in H1.
  pose proof (shr_fexp_nonneg prec emax
                (round_nearest_even (shr_m mrs') (loc_of_shr_record mrs')) e' loc_Exact
                (round_nearest_even_nonneg _ _ H1)) as H2.
  destruct (shr_fexp prec emax _ e' loc_Exact) as [mrs'' e'']. simpl in H2.
  destruct (shr_m mrs'') as [| m | m]; try reflexivity; [| lia].
  destruct (e'' <=? emax - prec); reflexivity.
Qed.

Lemma float_of_Z_not_nan (z : Z) : is_nan (float_of_Z z) = false.
Proof.
  unfold float_of_Z, binary_normalize, binary_round.
  destruct z as [| p | p]; [reflexivity | |];
    destruct (shl_align _ _ _) as [mz ez]; apply binary_round_aux_not_nan; lia.
Qed.

(** ** [_safe_float] *)

Lemma safe_float_of_number `{PyRuntime} (v : pyval) :
  none_or_number v -> _safe_float v = v.
Proof.
  intros [-> | [f [-> Hf]]]; simpl; [reflexivity | now rewrite Hf].
Qed.

(** X1: on every value that is not a [str], [_safe_float] gives [None] or a
    float that is a number, never NaN, and applying it again changes
    nothing. *)
Theorem safe_float_none_or_number `{PyRuntime} (x : pyval) :
  is_str x = false ->
  none_or_number (_safe_float x)
  /\ _safe_float (_safe_float x) = _safe_float x.
Proof.
  intros Hx.
  assert (Hn : none_or_number (_safe_float x)).
  { destruct x as [| b | z | f | s | l | d]; simpl; try discriminate; try (now left).
    - right. eexists. split; [reflexivity | apply float_of_Z_not_nan].
    - pose proof (float_of_Z_not_nan z) as Hz.
      destruct (float_of_Z z) eqn:E; try (now left);
        right; eexists; (split; [reflexivity | exact Hz]).
    - destruct (is_nan f) eqn:E; [now left | right; eauto]. }
  split; [exact Hn | now apply safe_float_of_number].
Qed.

Lemma safe_float_none_or_number_witness :
  none_or_number (@_safe_float plain_runtime (VInt (2 ^ 1024)))
  /\ @_safe_float plain_runtime (@_safe_float plain_runtime (VInt (2 ^ 1024)))
     = @_safe_float plain_runtime (VInt (2 ^ 1024)).
Proof.
  apply (@safe_float_none_or_number plain_runtime (VInt (2 ^ 1024))). reflexivity.
Defined.

(** ** [_pick_col] *)

(** X2: [_pick_col] looks at which labels the frame has, not at where they
    stand: two frames with the same labels give the same column. *)
Theorem pick_col_same_labels (df df' : DataFrame) (candidates : list string) :
  (forall c, In c (columns df) <-> In c (columns df')) ->
  _pick_col df candidates = _pick_col df' candidates.
Proof.
  intros Hsame. induction candidates as [| c rest IH]; simpl; [reflexivity |].
  assert (E : has_col df c = has_col df' c).
  { destruct (has_col df c) eqn:E1, (has_col df' c) eqn:E2; try reflexivity.
    - apply has_col_In in E1. apply Hsame in E1. apply has_col_In in E1. congruence.
    - apply has_col_In in E2. apply Hsame in E2. apply has_col_In in E2. congruence. }
  rewrite E, IH. reflexivity.
Qed.

Lemma pick_col_same_labels_witness :
  _pick_col {| columns := ["name"; "code"]; rows := [] |} spot_code_candidates
  = _pick_col {| columns := ["code"; "name"]; rows := [[VInt 1; VInt 2]] |}
      spot_code_candidates.
Proof.
  apply pick_col_same_labels. intros c. simpl. tauto.
Defined.

(** X3: over two candidate lists put end to end, [_pick_col] is the choice
    in the first list and, only when that one finds nothing, the choice in
    the second. *)
Theorem pick_col_app (df : DataFrame) (first second : list string) :
  _pick_col df (first ++ second)
  = match _pick_col df first with
    | Some c => Some c
    | None => _pick_col df second
    end.
Proof.
  induction first as [| c rest IH]; simpl; [reflexivity |].
  destruct (has_col df c); [reflexivity | exact IH].
Qed.

(** ** Fetch layer *)

Section FallbackFacts.
Context {W : Type}.
Implicit Types (fetchers : list (string * Callable W)) (w : W) (s : fstate W).

(** One turn of the loop on a fetcher that fails. *)
Lemma fetch_loop_step (name : string) (f : Callable W)
    (rest : list (string * Callable W)) (errors : list string) s (r : result pyobj) w1
    (err : string) :
  f (world s) = (r, w1) ->
  attempt_error name r = Some err ->
  fetch_loop ((name, f) :: rest) errors s
  = fetch_loop rest (errors ++ [err]) {| world := w1; invoked := invoked s ++ [name] |}.
Proof.
  intros Hf Herr. simpl. rewrite Hf. destruct r as [e | o]; simpl in Herr.
  - destruct (is_exception e); [now injection Herr as <- | discriminate].
  - destruct (nonempty_frame o); [discriminate | now injection Herr as <-].
Qed.

(** The loop runs through the fetchers that fail, collecting their errors. *)
Lemma fetch_loop_failures fetchers (rest : list (string * Callable W))
    (errors errs : list string) s w1 :
  failures fetchers (world s) = Some (errs, w1) ->
  fetch_loop (fetchers ++ rest) errors s
  = fetch_loop rest (errors ++ errs)
      {| world := w1; invoked := invoked s ++ map fst fetchers |}.
Proof.
  revert errors errs s. induction fetchers as [| [name f] more IH];
    intros errors errs s.
  - simpl. intros [= <- <-]. rewrite !app_nil_r. now destruct s.
  - cbn [failures]. destruct (f (world s)) as [r w'] eqn:Ef.
    destruct (attempt_error name r) as [err |] eqn:Ea; [| discriminate].
    destruct (failures more w') as [[errs' w2] |] eqn:Em; [| discriminate].
    intros [= <- <-].
    change (((name, f) :: more) ++ rest) with ((name, f) :: (more ++ rest)).
    rewrite (fetch_loop_step name f (more ++ rest) errors s r w' err Ef Ea).
    rewrite (IH (errors ++ [err]) errs' {| world := w'; invoked := invoked s ++ [name] |})
      by exact Em.
    simpl. now rewrite <- !app_assoc.
Qed.

Lemma nonempty_frame_Some (o : pyobj) (df : DataFrame) :
  nonempty_frame o = Some df <-> o = OFrame df /\ (0 < df_len df)%nat.
Proof.
  destruct o as [df' | v]; simpl.
  - destruct (Nat.ltb_spec 0 (df_len df')); split.
    + intros [= ->]. now split.
    + intros [[= ->] _]. reflexivity.
    + discriminate.
    + intros [[= ->] Hlt]. lia.
  - split; [discriminate | intros [[=] _]].
Qed.

(** C1: the fetchers are called one after the other in the order of the
    list; as soon as one returns a frame with at least one row, that frame
    is returned with the error strings of all the fetchers before it, and
    no fetcher after it is called; a fetcher that returns an empty frame
    or something that is not a frame leaves the error
    ["[name] Empty dataframe"] and the loop goes on with the next one. *)
Theorem fetch_with_fallback_first_success :
  (forall (before after : list (string * Callable W)) (name : string)
          (f : Callable W) (w w1 w2 : W) (errs : list string) (df : DataFrame),
      failures before w = Some (errs, w1) ->
      f w1 = (inr (OFrame df), w2) ->
      (0 < df_len df)%nat ->
      _fetch_with_fallback (before ++ (name, f) :: after) w
      = (inr (df, errs),
         {| world := w2; invoked := map fst before ++ [name] |}))
  /\ (forall (name : string) (f : Callable W) (rest : list (string * Callable W))
             (errors : list string) s (o : pyobj) (w1 : W),
        f (world s) = (inr o, w1) ->
        (forall df, o = OFrame df -> df_len df = 0%nat) ->
        fetch_loop ((name, f) :: rest) errors s
        = fetch_loop rest (errors ++ [("[" ++ name ++ "] Empty dataframe")%string])
            {| world := w1; invoked := invoked s ++ [name] |}).
Proof.
  split.
  - intros before after name f w w1 w2 errs df Hfail Hf Hlen.
    unfold _fetch_with_fallback.
    rewrite (fetch_loop_failures before _ [] errs _ w1) by exact Hfail.
    simpl. rewrite Hf.
    assert (E : nonempty_frame (OFrame df) = Some df)
      by (apply nonempty_frame_Some; now split).
    now rewrite E.
  - intros name f rest errors s o w1 Hf Hempty. simpl. rewrite Hf.
    destruct (nonempty_frame o) as [df |] eqn:E; [| reflexivity].
    apply nonempty_frame_Some in E. destruct E as [-> Hlt].
    specialize (Hempty df eq_refl). lia.
Qed.

(** When every fetcher fails, the loop raises the [RuntimeError] whose
    message lists the errors in the order of the attempts. *)
Lemma fetch_with_fallback_all_fail fetchers w (errs : list string) (w1 : W) :
  failures fetchers w = Some (errs, w1) ->
  _fetch_with_fallback fetchers w
  = (inl (mk_exn "RuntimeError"
            ("All data sources failed:" ++ nl ++ String.concat nl errs)%string true),
     {| world := w1; invoked := map fst fetchers |}).
Proof.
  intros Hfail. unfold _fetch_with_fallback.
  rewrite <- (app_nil_r fetchers) at 1.
  rewrite (fetch_loop_failures fetchers [] [] errs _ w1) by exact Hfail.
  reflexivity.
Qed.

Lemma failures_length fetchers w w1 (errs : list string) :
  failures fetchers w = Some (errs, w1) -> List.length errs = List.length fetchers.
Proof.
  revert w errs. induction fetchers as [| [name f] rest IH]; intros w errs; simpl.
  - now intros [= <- _].
  - destruct (f w) as [r w']. destruct (attempt_error name r); [| discriminate].
    destruct (failures rest w') as [[errs' w2] |] eqn:E; [| discriminate].
    intros [= <- <-]. simpl. f_equal. exact (IH _ _ E).
Qed.

(** The first fetcher that does not fail, after those that do: it ends the
    loop. *)
Lemma failures_split fetchers w :
  match failures fetchers w with
  | Some _ => True
  | None =>
      exists before name f after errs w1 r w2,
        fetchers = before ++ (name, f) :: after
        /\ failures before w = Some (errs, w1)
        /\ f w1 = (r, w2)
        /\ attempt_error name r = None
  end.
Proof.
  revert w. induction fetchers as [| [name f] rest IH]; intros w; simpl; [exact I |].
  destruct (f w) as [r w'] eqn:Ef.
  destruct (attempt_error name r) as [err |] eqn:Ea.
  - specialize (IH w'). destruct (failures rest w') as [[errs w2] |]; [exact I |].
    destruct IH as [before [name0 [f0 [after [errs [w1 [r0 [w2 H]]]]]]]].
    destruct H as [Hfs [Hf [Hf0 Hr0]]].
    exists ((name, f) :: before), name0, f0, after, (err :: errs), w1, r0, w2.
    repeat split; try assumption.
    + now rewrite Hfs.
    + simpl. now rewrite Ef, Ea, Hf.
  - exists [], name, f, rest, [], w, r, w'. repeat split; assumption.
Qed.

Lemma attempt_error_None (name : string) (r : result pyobj) :
  attempt_error name r = None ->
  (exists df, r = inr (OFrame df) /\ (0 < df_len df)%nat)
  \/ (exists e, r = inl e /\ is_exception e = false).
Proof.
  destruct r as [e | o]; simpl.
  - destruct (is_exception e) eqn:E; [discriminate |]. right. eauto.
  - destruct (nonempty_frame o) as [df |] eqn:E; [| discriminate].
    apply nonempty_frame_Some in E. destruct E as [-> Hlt]. left. eauto.
Qed.

(** What the loop did, whatever it returned. *)
Lemma fetch_loop_outcome fetchers :
  forall (errors : list string) s,
    match fetch_loop fetchers errors s with
    | (inr (df, errs), s') =>
        exists before name f after w1 errs',
          fetchers = before ++ (name, f) :: after
          /\ failures before (world s) = Some (errs', w1)
          /\ f w1 = (inr (OFrame df), world s')
          /\ (0 < df_len df)%nat
          /\ errs = errors ++ errs'
          /\ invoked s' = invoked s ++ map fst before ++ [name]
    | (inl e, s') =>
        (exists errs',
            failures fetchers (world s) = Some (errs', world s')
            /\ e = all_failed (errors ++ errs')
            /\ invoked s' = invoked s ++ map fst fetchers)
        \/ (exists before name f after w1 errs',
               fetchers = before ++ (name, f) :: after
               /\ failures before (world s) = Some (errs', w1)
               /\ f w1 = (inl e, world s')
               /\ is_exception e = false
               /\ invoked s' = invoked s ++ map fst before ++ [name])
    end.
Proof.
  intros errors s.
  pose proof (failures_split fetchers (world s)) as Hsplit.
  destruct (failures fetchers (world s)) as [[errs w1] |] eqn:Hfail.
  - pose proof (fetch_loop_failures fetchers [] errors errs s w1 Hfail) as E.
    rewrite app_nil_r in E. rewrite E. simpl.
    left. exists errs. repeat split.
  - destruct Hsplit as [before [name [f [after [errs [w1 [r [w2 H]]]]]]]].
    destruct H as [-> [Hf [Hr Ha]]].
    rewrite (fetch_loop_failures before _ errors errs s w1 Hf). simpl. rewrite Hr.
    destruct (attempt_error_None name r Ha) as [[df [-> Hlt]] | [e [-> He]]].
    + assert (E : nonempty_frame (OFrame df) = Some df)
        by (apply nonempty_frame_Some; now split).
      rewrite E. exists before, name, f, after, w1, errs.
      simpl. rewrite <- app_assoc. repeat split; assumption.
    + rewrite He. right. exists before, name, f, after, w1, errs.
      simpl. rewrite <- app_assoc. repeat split; assumption.
Qed.

Lemma fetch_with_fallback_returned_parts fetchers w (df : DataFrame)
    (errs : list string) s :
  _fetch_with_fallback fetchers w = (inr (df, errs), s) ->
  exists before name f after w1,
    fetchers = before ++ (name, f) :: after
    /\ failures before w = Some (errs, w1)
    /\ f w1 = (inr (OFrame df), world s)
    /\ (0 < df_len df)%nat
    /\ invoked s = map fst before ++ [name].
Proof.
  intros Hrun. unfold _fetch_with_fallback in Hrun.
  pose proof (fetch_loop_outcome fetchers [] {| world := w; invoked := [] |}) as Hout.
  rewrite Hrun in Hout.
  destruct Hout as [before [name [f [after [w1 [errs' Hparts]]]]]].
  destruct Hparts as [Hfs [Hf [Hf0 [Hlen [He Hi]]]]]. simpl in *. subst errs.
  exists before, name, f, after, w1. repeat split; assumption.
Qed.

(** X4: a frame that [_fetch_with_fallback] returns has at least one row and
    is what the first fetcher that succeeded returned: every fetcher before
    it was called and failed, the errors returned are theirs, one for each,
    and no fetcher after it was called. *)
Theorem fetch_with_fallback_returned (fetchers : list (string * Callable W)) (w : W)
    (df : DataFrame) (errs : list string) (s : fstate W) :
  _fetch_with_fallback fetchers w = (inr (df, errs), s) ->
  (0 < df_len df)%nat
  /\ exists before name f after w1,
       fetchers = before ++ (name, f) :: after
       /\ failures before w = Some (errs, w1)
       /\ f w1 = (inr (OFrame df), world s)
       /\ invoked s = map fst before ++ [name]
       /\ List.length errs = List.length before.
Proof.
  intros Hrun.
  destruct (fetch_with_fallback_returned_parts _ _ _ _ _ Hrun)
    as [before [name [f [after [w1 [Hfs [Hf [Hf0 [Hlen Hi]]]]]]]]].
  split; [exact Hlen |].
  exists before, name, f, after, w1. repeat split; try assumption.
  exact (failures_length _ _ _ _ Hf).
Qed.

Lemma fetch_with_fallback_raised_parts fetchers w (e : exn) s :
  _fetch_with_fallback fetchers w = (inl e, s) ->
  (exists errs,
      failures fetchers w = Some (errs, world s)
      /\ e = all_failed errs
      /\ invoked s = map fst fetchers)
  \/ (exists before name f after w1 errs,
         fetchers = before ++ (name, f) :: after
         /\ failures before w = Some (errs, w1)
         /\ f w1 = (inl e, world s)
         /\ is_exception e = false
         /\ invoked s = map fst before ++ [name]).
Proof.
  intros Hrun. unfold _fetch_with_fallback in Hrun.
  pose proof (fetch_loop_outcome fetchers [] {| world := w; invoked := [] |}) as Hout.
  rewrite Hrun in Hout. simpl in Hout.
  destruct Hout as [[errs [Hf [He Hi]]] | Hesc].
  - left. exists errs. repeat split; assumption.
  - right. exact Hesc.
Qed.

(** X5: when [_fetch_with_fallback] raises, either every fetcher of the list
    was called and failed, and it raises its [RuntimeError], whose message
    holds one error line for each fetcher; or the exception is one that
    [except Exception] does not catch, raised by a fetcher after every
    fetcher before it failed, and no fetcher after it was called. *)
Theorem fetch_with_fallback_raised (fetchers : list (string * Callable W)) (w : W)
    (e : exn) (s : fstate W) :
  _fetch_with_fallback fetchers w = (inl e, s) ->
  (exists errs,
      failures fetchers w = Some (errs, world s)
      /\ e = mk_exn "RuntimeError"
               ("All data sources failed:" ++ nl ++ String.concat nl errs)%string true
      /\ invoked s = map fst fetchers
      /\ List.length errs = List.length fetchers)
  \/ (exists before name f after w1 errs,
         fetchers = before ++ (name, f) :: after
         /\ failures before w = Some (errs, w1)
         /\ f w1 = (inl e, world s)
         /\ is_exception e = false
         /\ invoked s = map fst before ++ [name]).
Proof.
  intros Hrun.
  destruct (fetch_with_fallback_raised_parts _ _ _ _ Hrun)
    as [[errs [Hf [He Hi]]] | Hesc].
  - left. exists errs. repeat split; try assumption.
    exact (failures_length _ _ _ _ Hf).
  - right. exact Hesc.
Qed.

(** The fetchers that a chain calls are the first ones of its list, as many
    as [sources_tried] counts. *)
Lemma fetch_loop_invoked fetchers :
  forall (errors : list string) s,
    invoked (snd (fetch_loop fetchers errors s))
    = invoked s ++ map fst (firstn (sources_tried fetchers (world s)) fetchers).
Proof.
  induction fetchers as [| [name f] rest IH]; intros errors s; simpl.
  - now rewrite app_nil_r.
  - destruct (f (world s)) as [r w1] eqn:Ef.
    destruct r as [e | o]; simpl.
    + destruct (is_exception e); [| reflexivity].
      rewrite IH. simpl. now rewrite <- app_assoc.
    + destruct (nonempty_frame o); [reflexivity |].
      rewrite IH. simpl. now rewrite <- app_assoc.
Qed.
End FallbackFacts.

Lemma fetch_with_fallback_first_success_witness :
  _fetch_with_fallback
    ([("a", failing_fetcher); ("b", empty_fetcher)]
       ++ ("c", spot_fetcher) :: [("d", failing_fetcher)]) O
  = (inr (spot_sample,
          ["[a] ConnectionError: Connection aborted."; "[b] Empty dataframe"]),
     {| world := 3%nat; invoked := ["a"; "b"] ++ ["c"] |}).
Proof.
  destruct (@fetch_with_fallback_first_success nat) as [Hfirst _].
  apply (Hfirst [("a", failing_fetcher); ("b", empty_fetcher)] [("d", failing_fetcher)]
           "c" spot_fetcher O 2%nat 3%nat).
  - reflexivity.
  - reflexivity.
  - unfold df_len. simpl. lia.
Defined.

Lemma fetch_with_fallback_returned_witness :
  (0 < df_len spot_sample)%nat
  /\ exists before name f after w1,
       [("a", failing_fetcher); ("b", spot_fetcher); ("c", failing_fetcher)]
       = before ++ (name, f) :: after
       /\ failures before O = Some (["[a] ConnectionError: Connection aborted."], w1)
       /\ f w1 = (inr (OFrame spot_sample), 2%nat)
       /\ ["a"; "b"] = map fst before ++ [name]
       /\ List.length ["[a] ConnectionError: Connection aborted."] = List.length before.
Proof.
  apply (@fetch_with_fallback_returned nat
           [("a", failing_fetcher); ("b", spot_fetcher); ("c", failing_fetcher)] O
           spot_sample ["[a] ConnectionError: Connection aborted."]
           {| world := 2%nat; invoked := ["a"; "b"] |}).
  reflexivity.
Defined.

Lemma fetch_with_fallback_raised_witness :
  (exists errs,
      failures [("a", failing_fetcher); ("b", interrupted_fetcher)] O
      = Some (errs, 2%nat)
      /\ interrupt
         = mk_exn "RuntimeError"
             ("All data sources failed:" ++ nl ++ String.concat nl errs)%string true
      /\ ["a"; "b"] = map fst [("a", failing_fetcher); ("b", interrupted_fetcher)]
      /\ List.length errs = 2%nat)
  \/ (exists before name f after w1 errs,
         [("a", failing_fetcher); ("b", interrupted_fetcher)]
         = before ++ (name, f) :: after
         /\ failures before O = Some (errs, w1)
         /\ f w1 = (inl interrupt, 2%nat)
         /\ is_exception interrupt = false
         /\ ["a"; "b"] = map fst before ++ [name]).
Proof.
  apply (@fetch_with_fallback_raised nat
           [("a", failing_fetcher); ("b", interrupted_fetcher)] O
           interrupt {| world := 2%nat; invoked := ["a"; "b"] |}).
  reflexivity.
Defined.

(** ** [str.strip] *)

Lemma space_front_le (l : list ascii) : (space_front l <= List.length l)%nat.
Proof.
  destruct l as [| a [| b [| c l]]]; simpl; try lia;
    repeat match goal with |- context [if ?t then _ else _] => destruct t end; lia.
Qed.

Lemma space_back_le (l : list ascii) : (space_back l <= List.length l)%nat.
Proof.
  destruct l as [| a [| b [| c l]]]; simpl; try lia;
    repeat match goal with |- context [if ?t then _ else _] => destruct t end; lia.
Qed.

Section DropChars.
Variable width : list ascii -> nat.
Hypothesis width_le : forall l, (width l <= List.length l)%nat.

(** With fuel enough, what is left starts with no such character. *)
Lemma drop_chars_clean (fuel : nat) (l : list ascii) :
  (List.length l <= fuel)%nat -> width (drop_chars width fuel l) = O.
Proof.
  revert l. induction fuel as [| fuel IH]; intros l Hl; cbn [drop_chars].
  - pose proof (width_le l). lia.
  - destruct (width l) as [| k] eqn:E; [exact E |].
    apply IH. rewrite length_skipn. pose proof (width_le l). lia.
Qed.

Lemma drop_chars_of_clean (fuel : nat) (l : list ascii) :
  width l = O -> drop_chars width fuel l = l.
Proof.
  intros E. destruct fuel; cbn [drop_chars]; [reflexivity | now rewrite E].
Qed.

Lemma drop_chars_suffix (fuel : nat) (l : list ascii) :
  exists front, l = front ++ drop_chars width fuel l.
Proof.
  revert l. induction fuel as [| fuel IH]; intros l; cbn [drop_chars].
  - now exists [].
  - destruct (width l) as [| k]; [now exists [] |].
    destruct (IH (skipn (S k) l)) as [front Hf].
    exists (firstn (S k) l ++ front).
    rewrite <- app_assoc, <- Hf. symmetry. apply firstn_skipn.
Qed.
End DropChars.

(** A list that starts with no white space has no prefix that does. *)
Lemma space_front_prefix (l1 l2 : list ascii) :
  space_front (l1 ++ l2) = O -> space_front l1 = O.
Proof.
  destruct l1 as [| a [| b [| c l1]]]; simpl; try reflexivity.
  - destruct l2 as [| b [| c l2]]; simpl; destruct (is_space a); try discriminate;
      reflexivity.
  - destruct l2 as [| c l2]; simpl; destruct (is_space a); try discriminate;
      destruct (is_space2 a b); try discriminate; reflexivity.
  - trivial.
Qed.

Lemma drop_space_clean (l : list ascii) : space_front (drop_space l) = O.
Proof.
  unfold drop_space. apply (drop_chars_clean space_front space_front_le).
  apply Nat.le_refl.
Qed.

Lemma drop_space_back_clean (l : list ascii) :
  space_back (rev (drop_space_back l)) = O.
Proof.
  unfold drop_space_back. rewrite rev_involutive.
  apply (drop_chars_clean space_back space_back_le).
  rewrite length_rev. apply Nat.le_refl.
Qed.

(** Cutting the white space at the end leaves the front as it is. *)
Lemma drop_space_back_front (l : list ascii) :
  space_front l = O -> space_front (drop_space_back l) = O.
Proof.
  intros Hl. unfold drop_space_back.
  destruct (drop_chars_suffix space_back (List.length l) (rev l)) as [front Hf].
  apply (space_front_prefix _ (rev front)).
  rewrite <- rev_app_distr, <- Hf, rev_involutive. exact Hl.
Qed.

Lemma strip_chars_idempotent (l : list ascii) :
  strip_chars (strip_chars l) = strip_chars l.
Proof.
  unfold strip_chars.
  set (r := drop_space_back (drop_space l)).
  assert (Hfront : space_front r = O)
    by (apply drop_space_back_front, drop_space_clean).
  assert (Hback : space_back (rev r) = O) by apply drop_space_back_clean.
  unfold drop_space at 1. rewrite (drop_chars_of_clean _ _ _ Hfront).
  unfold drop_space_back at 1. rewrite (drop_chars_of_clean _ _ _ Hback).
  apply rev_involutive.
Qed.

Lemma strip_idempotent (s : string) : strip (strip s) = strip s.
Proof.
  unfold strip. rewrite list_ascii_of_string_of_list_ascii.
  fold (strip_chars (list_ascii_of_string s)).
  fold (strip_chars (strip_chars (list_ascii_of_string s))).
  now rewrite strip_chars_idempotent.
Qed.

(** The white space of Unicode goes like that of ASCII. *)
Example strip_unicode :
  strip (ideographic_space ++ " 20200619" ++ ideographic_space ++ " ") = "20200619"
  /\ strip ideographic_space = EmptyString.
Proof. split; reflexivity. Qed.

(** ** Calls to the provider *)

Section ProviderFacts.
Context {X : Type}.
Variable ak : Provider X.

Lemma call_if_exists_calls (func_name : string) (kwargs : pydict) (w : Net X) :
  calls (snd (_call_if_exists ak func_name kwargs w))
  = calls w ++ calls_made ak 1 [(func_name, kwargs)].
Proof.
  unfold _call_if_exists, calls_made, provided. simpl.
  destruct (ak_attr ak func_name) as [func |]; simpl.
  - now destruct (func kwargs (ext w)).
  - now rewrite app_nil_r.
Qed.

(** What a call raises and [except Exception] lets through was raised by
    the function of the provider. *)
Lemma call_if_exists_escapes (func_name : string) (kwargs : pydict) (w w' : Net X)
    (e : exn) :
  _call_if_exists ak func_name kwargs w = (inl e, w') ->
  is_exception e = false ->
  exists func x', ak_attr ak func_name = Some func /\ func kwargs (ext w) = (inl e, x').
Proof.
  unfold _call_if_exists. destruct (ak_attr ak func_name) as [func |].
  - destruct (func kwargs (ext w)) as [r x'] eqn:Ef. intros [= -> _] _. eauto.
  - intros [= <- _]. discriminate.
Qed.

Lemma call_if_exists_exception (func_name : string) (kwargs : pydict) (w w' : Net X)
    (e : exn) :
  raises_exceptions_only ak ->
  _call_if_exists ak func_name kwargs w = (inl e, w') ->
  is_exception e = true.
Proof.
  intros Hak. unfold _call_if_exists. destruct (ak_attr ak func_name) as [func |] eqn:Ea.
  - destruct (func kwargs (ext w)) as [r x'] eqn:Ef. intros [= -> _].
    exact (Hak _ _ _ _ _ _ Ea Ef).
  - now intros [= <- _].
Qed.

(** A chain calls the functions of the sources it tries, as far as the
    provider has them. *)
Lemma fetch_loop_chain_calls (sources : list (string * string)) :
  forall (errors : list string) (s : fstate (Net X)),
    calls (world (snd (fetch_loop (chain_of ak sources) errors s)))
    = calls (world s)
        ++ calls_made ak (sources_tried (chain_of ak sources) (world s))
             (map (fun nf => (snd nf, @nil (string * pyval))) sources).
Proof.
  unfold calls_made.
  induction sources as [| [name fn] rest IH]; intros errors s.
  - simpl. now rewrite app_nil_r.
  - cbn [chain_of map fst snd fetch_loop sources_tried].
    destruct (_call_if_exists ak fn [] (world s)) as [r w1] eqn:Ecall.
    assert (Hw1 : calls w1
                  = calls (world s)
                      ++ filter (fun c => provided ak (fst c)) [(fn, [])]).
    { pose proof (call_if_exists_calls fn [] (world s)) as Hc.
      rewrite Ecall in Hc. exact Hc. }
    assert (Hgo : forall errors',
               calls (world (snd (fetch_loop (chain_of ak rest) errors'
                                    {| world := w1; invoked := invoked s ++ [name] |})))
               = calls (world s)
                   ++ filter (fun c => provided ak (fst c))
                        (firstn (S (sources_tried (chain_of ak rest) w1))
                           ((fn, []) :: map (fun nf => (snd nf, [])) rest))).
    { intros errors'. unfold chain_of in IH. rewrite IH. cbn [world firstn].
      rewrite Hw1, <- app_assoc. f_equal.
      cbn [filter fst]. destruct (provided ak fn); reflexivity. }
    unfold attempt_error. destruct r as [e | o].
    + destruct (is_exception e); [apply Hgo |]. cbn [snd world firstn]. exact Hw1.
    + destruct (nonempty_frame o); [| apply Hgo]. cbn [snd world firstn]. exact Hw1.
Qed.

Lemma chain_escapes (sources : list (string * string)) (name : string)
    (f : Callable (Net X)) (w w' : Net X) (e : exn) :
  In (name, f) (chain_of ak sources) ->
  f w = (inl e, w') ->
  is_exception e = false ->
  exists func_name func kwargs x x',
    ak_attr ak func_name = Some func /\ func kwargs x = (inl e, x').
Proof.
  intros Hin Hf He. unfold chain_of in Hin. apply in_map_iff in Hin.
  destruct Hin as [[n fn] [[= _ <-] _]].
  destruct (call_if_exists_escapes _ _ _ _ _ Hf He) as [func [x' [Ha Hfunc]]].
  exists fn, func, [], (ext w), x'. now split.
Qed.

Lemma chain_exception (sources : list (string * string)) (name : string)
    (f : Callable (Net X)) (w w' : Net X) (e : exn) :
  raises_exceptions_only ak ->
  In (name, f) (chain_of ak sources) ->
  f w = (inl e, w') ->
  is_exception e = true.
Proof.
  intros Hak Hin Hf. unfold chain_of in Hin. apply in_map_iff in Hin.
  destruct Hin as [[n fn] [[= _ <-] _]].
  exact (call_if_exists_exception _ _ _ _ _ Hak Hf).
Qed.
End ProviderFacts.

(** ** main API *)

Lemma scope_cases (scope : string) :
  scope = "hs_a" \/ scope = "industry_board" \/ scope = "sse_summary"
  \/ scope = "szse_summary" \/ ~ In scope supported_scopes.
Proof.
  destruct (String.eqb_spec scope "hs_a"); [tauto |].
  destruct (String.eqb_spec scope "industry_board"); [tauto |].
  destruct (String.eqb_spec scope "sse_summary"); [tauto |].
  destruct (String.eqb_spec scope "szse_summary"); [tauto |].
  do 4 right. simpl. intuition congruence.
Qed.

Lemma unknown_scope_tests (scope : string) :
  ~ In scope supported_scopes ->
  String.eqb scope "hs_a" = false /\ String.eqb scope "industry_board" = false
  /\ String.eqb scope "sse_summary" = false /\ String.eqb scope "szse_summary" = false.
Proof.
  intros Hnot. repeat split; apply String.eqb_neq; intros ->; apply Hnot; simpl; tauto.
Qed.

Lemma handle_returned (m : pydict) (e : exn) (report : pyval) :
  handle m e = inr report -> report = failure_report m e /\ is_exception e = true.
Proof.
  unfold handle. destruct (is_exception e); [| discriminate].
  intros [= <-]. now split.
Qed.

Lemma handle_raised (m : pydict) (e e' : exn) :
  handle m e = inl e' -> e' = e /\ is_exception e = false.
Proof.
  unfold handle. destruct (is_exception e); [discriminate |].
  intros [= <-]. now split.
Qed.

Lemma exchange_report_meta (m : pydict) (o : pyobj) (raw : bool) (raw_rows : Z) :
  exists d, exchange_report m o raw raw_rows = VDict d
            /\ dict_get d "meta" = Some (VDict m).
Proof.
  destruct o as [df | v]; simpl; eexists; split; reflexivity.
Qed.

Lemma calls_made_length {X : Type} (ak : Provider X) (k : nat)
    (planned : list (string * pydict)) :
  (List.length (calls_made ak k planned) <= List.length planned)%nat.
Proof.
  unfold calls_made.
  eapply Nat.le_trans; [apply filter_length_le |]. rewrite length_firstn. lia.
Qed.

Lemma sources_tried_one {W : Type} (name : string) (f : Callable W) (w : W) :
  sources_tried [(name, f)] w = 1%nat.
Proof.
  simpl. destruct (f w) as [r w1]. destruct (attempt_error name r); reflexivity.
Qed.

Lemma sources_tried_spec {W : Type} (fetchers : list (string * Callable W)) (w : W) :
  tried_up_to fetchers w (sources_tried fetchers w).
Proof.
  revert w. induction fetchers as [| [name f] rest IH]; intros w.
  - left. split; [reflexivity |]. now exists [], w.
  - simpl. destruct (f w) as [r w1] eqn:Ef.
    destruct (attempt_error name r) as [err |] eqn:Ea.
    + destruct (IH w1) as [[Hk [errs [w2 Hall]]] | Hpart].
      * left. split; [now rewrite Hk |].
        exists (err :: errs), w2. simpl. now rewrite Ef, Ea, Hall.
      * destruct Hpart as [before [name' [f' [after [errs [w2 [Hfs [Hk [Hb Hend]]]]]]]]].
        right. exists ((name, f) :: before), name', f', after, (err :: errs), w2.
        split; [now rewrite Hfs |]. split; [now rewrite Hk |].
        split; [| exact Hend]. simpl. now rewrite Ef, Ea, Hb.
    + right. exists [], name, f, rest, [], w.
      repeat split. now rewrite Ef.
Qed.

Lemma sources_tried_positive {W : Type} (fetchers : list (string * Callable W)) (w : W) :
  fetchers <> [] -> exists k, sources_tried fetchers w = S k.
Proof.
  destruct fetchers as [| [name f] rest]; [now intros Hne |]. intros _. simpl.
  destruct (f w) as [r w1]. destruct (attempt_error name r); eexists; reflexivity.
Qed.

Section MainFacts.
Context `{PyRuntime} {X : Type}.
Variable ak : Provider X.

Lemma record_source_meta (src : string) (errs : list string) (scope : string) (p : pydict)
    (w w1 : Net X) :
  record_source src errs {| net := w1; meta := initial_meta ak scope p w |}
  = (inr tt,
     {| net := w1;
        meta := initial_meta ak scope p w
                  ++ [("data_source", VStr src)]
                  ++ match errs with
                     | [] => []
                     | _ => [("fallback_errors", str_list_value errs)]
                     end |}).
Proof.
  unfold record_source, bind, set_meta. destruct errs; reflexivity.
Qed.

(** The [try] block and its handler, branch by branch. *)
Lemma dispatch_report (scope : string) (p : pydict) (top_n raw_rows : Z) (raw : bool)
    (w : Net X) :
  match dispatch ak scope p top_n raw raw_rows
          {| net := w; meta := initial_meta ak scope p w |} with
  | (inr out, s) => (inr out, net s)
  | (inl e, s) => (handle (meta s) e, net s)
  end
  = report_of ak scope p top_n raw raw_rows w.
Proof.
  unfold dispatch, report_of, chain_report, call_report, szse_date. cbv zeta.
  destruct (String.eqb scope "hs_a").
  { unfold bind at 1. unfold lift_net, fetch_hs_a. cbn [net meta].
    destruct (_fetch_with_fallback (hs_a_fetchers ak) w) as [[e | [df errs]] fs];
      [reflexivity |].
    unfold bind at 1. rewrite record_source_meta.
    unfold bind, get_meta, lift_result, ret. cbn [net meta].
    destruct (_summarize_spot df top_n); reflexivity. }
  destruct (String.eqb scope "industry_board").
  { unfold bind at 1. unfold lift_net, fetch_industry_board. cbn [net meta].
    destruct (_fetch_with_fallback (industry_board_fetchers ak) w)
      as [[e | [df errs]] fs];
      [reflexivity |].
    unfold bind at 1. rewrite record_source_meta.
    unfold bind, get_meta, lift_result, ret. cbn [net meta].
    destruct (_summarize_industry_board df top_n); reflexivity. }
  destruct (String.eqb scope "sse_summary").
  { unfold bind at 1. unfold lift_net. cbn [net meta].
    destruct (_call_if_exists ak "stock_sse_summary" [] w) as [[e | o] w1]; reflexivity. }
  destruct (String.eqb scope "szse_summary"); [| reflexivity].
  destruct (String.eqb _ EmptyString); [reflexivity |].
  unfold bind at 1. unfold lift_net. cbn [net meta].
  destruct (_call_if_exists ak "stock_szse_summary" _ w) as [[e | o] w1]; reflexivity.
Qed.

(** With the conversions done, [get_market_state] is its [try] block and
    its handler. *)
Lemma get_market_state_try (scope : string) (params : option pydict) (w : Net X)
    (top_n raw_rows : Z) :
  converts (params_or_empty params) top_n raw_rows ->
  get_market_state ak scope params w
  = let p := params_or_empty params in
    let raw := py_bool (dict_get_default p "raw" (VBool false)) in
    match dispatch ak scope p top_n raw raw_rows
            {| net := w; meta := initial_meta ak scope p w |} with
    | (inr out, s) => (inr out, net s)
    | (inl e, s) => (handle (meta s) e, net s)
    end.
Proof.
  intros [Ht Hr]. unfold get_market_state. rewrite Ht, Hr. cbv zeta.
  destruct (dispatch _ _ _ _ _ _ _) as [[e | out] s]; [| reflexivity].
  unfold handle. destruct (is_exception e); reflexivity.
Qed.

(** Past the conversions, [get_market_state] is the run of its branch. *)
Lemma get_market_state_direct (scope : string) (params : option pydict) (w : Net X)
    (top_n raw_rows : Z) :
  converts (params_or_empty params) top_n raw_rows ->
  get_market_state ak scope params w
  = report_of ak scope (params_or_empty params) top_n
      (py_bool (dict_get_default (params_or_empty params) "raw" (VBool false)))
      raw_rows w.
Proof.
  intros Hconv. rewrite (get_market_state_try _ _ _ _ _ Hconv). cbv zeta.
  apply dispatch_report.
Qed.

(** A conversion that raises ends the call before anything is fetched. *)
Lemma get_market_state_conversions (scope : string) (params : option pydict) (w : Net X) :
  (exists top_n raw_rows, converts (params_or_empty params) top_n raw_rows)
  \/ (exists e,
         get_market_state ak scope params w = (inl e, w)
         /\ (py_int (dict_get_default (params_or_empty params) "top_n" (VInt 20)) = inl e
             \/ (exists top_n,
                    py_int (dict_get_default (params_or_empty params) "top_n" (VInt 20))
                    = inr top_n
                    /\ py_int (dict_get_default (params_or_empty params) "raw_rows"
                                 (VInt 5))
                       = inl e))).
Proof.
  unfold get_market_state, converts.
  destruct (py_int (dict_get_default (params_or_empty params) "top_n" (VInt 20)))
    as [e1 | top_n].
  { right. exists e1. split; [reflexivity | now left]. }
  destruct (py_int (dict_get_default (params_or_empty params) "raw_rows" (VInt 5)))
    as [e2 | raw_rows].
  { right. exists e2. split; [reflexivity | right; eauto]. }
  left. eauto.
Qed.

(** A report that [get_market_state] returns is the report of its branch,
    for the [top_n] and the [raw_rows] that [int] read. *)
Lemma get_market_state_returned (scope : string) (params : option pydict) (w w' : Net X)
    (report : pyval) :
  get_market_state ak scope params w = (inr report, w') ->
  exists top_n raw_rows,
    converts (params_or_empty params) top_n raw_rows
    /\ report_of ak scope (params_or_empty params) top_n
         (py_bool (dict_get_default (params_or_empty params) "raw" (VBool false)))
         raw_rows w
       = (inr report, w').
Proof.
  intros Hrun.
  destruct (get_market_state_conversions scope params w)
    as [[top_n [raw_rows Hconv]] | [e [Hraise _]]].
  - exists top_n, raw_rows. split; [exact Hconv |].
    now rewrite <- (get_market_state_direct scope params w top_n raw_rows Hconv).
  - rewrite Hraise in Hrun. discriminate.
Qed.

(** The calls of a run past the conversions. *)
Lemma chain_report_world (fetchers : list (string * Callable (Net X))) (label : string)
    (summarize : DataFrame -> result pyval) (m : pydict) (raw : bool) (raw_rows : Z)
    (w : Net X) :
  snd (chain_report fetchers label summarize m raw raw_rows w)
  = world (snd (_fetch_with_fallback fetchers w)).
Proof.
  unfold chain_report.
  destruct (_fetch_with_fallback fetchers w) as [[e | [df errs]] s]; reflexivity.
Qed.

Lemma call_report_world (func_name : string) (kwargs m : pydict) (raw : bool)
    (raw_rows : Z) (w : Net X) :
  snd (call_report ak func_name kwargs m raw raw_rows w)
  = snd (_call_if_exists ak func_name kwargs w).
Proof.
  unfold call_report.
  destruct (_call_if_exists ak func_name kwargs w) as [[e | o] w1]; reflexivity.
Qed.

Lemma report_of_calls (scope : string) (p : pydict) (top_n raw_rows : Z) (raw : bool)
    (w : Net X) :
  calls (snd (report_of ak scope p top_n raw raw_rows w))
  = calls w
      ++ calls_made ak (sources_tried (scope_fetchers ak scope p) w) (scope_calls scope p).
Proof.
  unfold report_of, scope_calls, scope_fetchers. cbv zeta.
  destruct (String.eqb scope "hs_a").
  { rewrite chain_report_world.
    exact (fetch_loop_chain_calls ak hs_a_sources [] {| world := w; invoked := [] |}). }
  destruct (String.eqb scope "industry_board").
  { rewrite chain_report_world.
    exact (fetch_loop_chain_calls ak
             [("eastmoney_industry_board", "stock_board_industry_name_em")] []
             {| world := w; invoked := [] |}). }
  destruct (String.eqb scope "sse_summary").
  { rewrite call_report_world, sources_tried_one. apply call_if_exists_calls. }
  destruct (String.eqb scope "szse_summary");
    [| simpl; now rewrite app_nil_r].
  destruct (String.eqb (szse_date p) EmptyString).
  - simpl. now rewrite app_nil_r.
  - rewrite call_report_world, sources_tried_one. apply call_if_exists_calls.
Qed.

Lemma scope_calls_length (scope : string) (p : pydict) :
  (List.length (scope_calls scope p) <= call_bound scope)%nat
  /\ (~ In scope supported_scopes -> scope_calls scope p = []).
Proof.
  split.
  - unfold scope_calls, call_bound.
    destruct (String.eqb scope "hs_a"); [simpl; lia |].
    destruct (String.eqb scope "industry_board"); [simpl; lia |].
    destruct (String.eqb scope "sse_summary"); [simpl; lia |].
    destruct (String.eqb scope "szse_summary"); [| simpl; lia].
    destruct (String.eqb (szse_date p) EmptyString); simpl; lia.
  - intros Hnot. destruct (unknown_scope_tests scope Hnot) as [E1 [E2 [E3 E4]]].
    unfold scope_calls. now rewrite E1, E2, E3, E4.
Qed.

(** The [meta] of a report. *)
Lemma chain_report_meta (fetchers : list (string * Callable (Net X))) (label : string)
    (summarize : DataFrame -> result pyval) (m : pydict) (raw : bool) (raw_rows : Z)
    (w : Net X) (report : pyval) :
  fst (chain_report fetchers label summarize m raw raw_rows w) = inr report ->
  exists d,
    report = VDict d
    /\ dict_get d "meta"
       = Some (VDict
                 match fst (_fetch_with_fallback fetchers w) with
                 | inr (_, errs) =>
                     m ++ [("data_source", VStr label)]
                       ++ match errs with
                          | [] => []
                          | _ => [("fallback_errors", str_list_value errs)]
                          end
                 | inl _ => m
                 end).
Proof.
  unfold chain_report.
  destruct (_fetch_with_fallback fetchers w) as [[e | [df errs]] s]; cbn [fst].
  - intros Hh. apply handle_returned in Hh. destruct Hh as [-> _].
    eexists. split; reflexivity.
  - cbv zeta. destruct (summarize df) as [e | summary].
    + intros Hh. apply handle_returned in Hh. destruct Hh as [-> _].
      eexists. split; reflexivity.
    + intros [= <-]. eexists. split; reflexivity.
Qed.

Lemma call_report_meta (func_name : string) (kwargs m : pydict) (raw : bool)
    (raw_rows : Z) (w : Net X) (report : pyval) :
  fst (call_report ak func_name kwargs m raw raw_rows w) = inr report ->
  exists d, report = VDict d /\ dict_get d "meta" = Some (VDict m).
Proof.
  unfold call_report.
  destruct (_call_if_exists ak func_name kwargs w) as [[e | o] w1]; cbn [fst].
  - intros Hh. apply handle_returned in Hh. destruct Hh as [-> _].
    eexists. split; reflexivity.
  - intros [= <-]. apply exchange_report_meta.
Qed.

Lemma report_of_meta (scope : string) (p : pydict) (top_n raw_rows : Z) (raw : bool)
    (w : Net X) (report : pyval) :
  fst (report_of ak scope p top_n raw raw_rows w) = inr report ->
  exists d,
    report = VDict d /\ dict_get d "meta" = Some (VDict (expected_meta ak scope p w)).
Proof.
  unfold report_of, expected_meta, fallback_outcome, fetch_hs_a, fetch_industry_board.
  cbv zeta.
  destruct (String.eqb scope "hs_a").
  { intros Hrep. apply chain_report_meta in Hrep. destruct Hrep as [d [-> Hd]].
    exists d. split; [reflexivity |]. rewrite Hd.
    destruct (_fetch_with_fallback (hs_a_fetchers ak) w) as [[e | [df errs]] s];
      reflexivity. }
  destruct (String.eqb scope "industry_board").
  { intros Hrep. apply chain_report_meta in Hrep. destruct Hrep as [d [-> Hd]].
    exists d. split; [reflexivity |]. rewrite Hd.
    destruct (_fetch_with_fallback (industry_board_fetchers ak) w)
      as [[e | [df errs]] s]; reflexivity. }
  destruct (String.eqb scope "sse_summary"); [apply call_report_meta |].
  destruct (String.eqb scope "szse_summary").
  - destruct (String.eqb (szse_date p) EmptyString); [| apply call_report_meta].
    intros [= <-]. eexists. split; reflexivity.
  - intros [= <-]. eexists. split; reflexivity.
Qed.

(** What a run raises was raised by a function of the provider, and is not
    an [Exception]. *)
Lemma chain_report_raised (sources : list (string * string)) (label : string)
    (summarize : DataFrame -> result pyval) (m : pydict) (raw : bool) (raw_rows : Z)
    (w : Net X) (e : exn) :
  (forall df e', summarize df = inl e' -> is_exception e' = true) ->
  fst (chain_report (chain_of ak sources) label summarize m raw raw_rows w) = inl e ->
  is_exception e = false
  /\ exists func_name func kwargs x x',
       ak_attr ak func_name = Some func /\ func kwargs x = (inl e, x').
Proof.
  intros Hsum. unfold chain_report.
  destruct (_fetch_with_fallback (chain_of ak sources) w) as [[e0 | [df errs]] s] eqn:Hrun;
    cbn [fst].
  - intros Hh. apply handle_raised in Hh. destruct Hh as [-> He].
    split; [exact He |].
    destruct (fetch_with_fallback_raised_parts _ _ _ _ Hrun)
      as [[errs [_ [Hall _]]] | [before [name [f [after [w1 [errs Hesc]]]]]]].
    + rewrite Hall in He. discriminate.
    + destruct Hesc as [Hfs [_ [Hf _]]].
      apply (chain_escapes ak sources name f w1 (world s) e0); try assumption.
      rewrite Hfs. apply in_elt.
  - cbv zeta. destruct (summarize df) as [e0 |] eqn:Es; [| discriminate].
    intros Hh. apply handle_raised in Hh. destruct Hh as [-> He].
    rewrite (Hsum df e0 Es) in He. discriminate.
Qed.

Lemma call_report_raised (func_name : string) (kwargs m : pydict) (raw : bool)
    (raw_rows : Z) (w : Net X) (e : exn) :
  fst (call_report ak func_name kwargs m raw raw_rows w) = inl e ->
  is_exception e = false
  /\ exists func_name func kwargs x x',
       ak_attr ak func_name = Some func /\ func kwargs x = (inl e, x').
Proof.
  unfold call_report.
  destruct (_call_if_exists ak func_name kwargs w) as [[e0 | o] w1] eqn:Ecall; cbn [fst];
    [| discriminate].
  intros Hh. apply handle_raised in Hh. destruct Hh as [-> He].
  split; [exact He |].
  destruct (call_if_exists_escapes ak _ _ _ _ _ Ecall He) as [func [x' [Ha Hf]]].
  exists func_name, func, kwargs, (ext w), x'. now split.
Qed.

Lemma summarize_spot_exception (top_n : Z) (df : DataFrame) (e : exn) :
  _summarize_spot df top_n = inl e -> is_exception e = true.
Proof.
  intros E. apply summarize_spot_raises in E. now destruct E as [-> _].
Qed.

Lemma summarize_board_exception (top_n : Z) (df : DataFrame) (e : exn) :
  _summarize_industry_board df top_n = inl e -> is_exception e = true.
Proof.
  intros E. apply summarize_board_raises in E. now destruct E as [-> _].
Qed.

Lemma report_of_raised (scope : string) (p : pydict) (top_n raw_rows : Z) (raw : bool)
    (w : Net X) (e : exn) :
  fst (report_of ak scope p top_n raw raw_rows w) = inl e ->
  is_exception e = false
  /\ exists func_name func kwargs x x',
       ak_attr ak func_name = Some func /\ func kwargs x = (inl e, x').
Proof.
  unfold report_of. cbv zeta.
  destruct (String.eqb scope "hs_a").
  { apply (chain_report_raised hs_a_sources). apply summarize_spot_exception. }
  destruct (String.eqb scope "industry_board").
  { apply (chain_report_raised
             [("eastmoney_industry_board", "stock_board_industry_name_em")]).
    apply summarize_board_exception. }
  destruct (String.eqb scope "sse_summary"); [apply call_report_raised |].
  destruct (String.eqb scope "szse_summary"); [| discriminate].
  destruct (String.eqb (szse_date p) EmptyString); [discriminate |].
  apply call_report_raised.
Qed.

(** A provider that raises nothing but [Exception]s always gets a report. *)
Lemma scope_fetchers_nonempty (scope : string) (p : pydict) :
  scope_calls scope p <> [] -> scope_fetchers ak scope p <> [].
Proof.
  unfold scope_calls, scope_fetchers, hs_a_fetchers, industry_board_fetchers.
  destruct (String.eqb scope "hs_a"); [discriminate |].
  destruct (String.eqb scope "industry_board"); [discriminate |].
  destruct (String.eqb scope "sse_summary"); [discriminate |].
  destruct (String.eqb scope "szse_summary"); [| now intros Hne].
  destruct (String.eqb (szse_date p) EmptyString); [now intros Hne | discriminate].
Qed.

Lemma first_call_made (scope : string) (p : pydict) (w : Net X) (c : string * pydict)
    (rest : list (string * pydict)) :
  scope_calls scope p = c :: rest ->
  provided ak (fst c) = true ->
  exists more,
    calls_made ak (sources_tried (scope_fetchers ak scope p) w) (scope_calls scope p)
    = c :: more.
Proof.
  intros Hc Hp.
  destruct (sources_tried_positive (scope_fetchers ak scope p) w) as [k ->].
  { apply scope_fetchers_nonempty. rewrite Hc. discriminate. }
  rewrite Hc. unfold calls_made. simpl. rewrite Hp. eexists. reflexivity.
Qed.

Lemma report_of_returns (scope : string) (p : pydict) (top_n raw_rows : Z) (raw : bool)
    (w : Net X) :
  raises_exceptions_only ak ->
  exists d, fst (report_of ak scope p top_n raw raw_rows w) = inr (VDict d).
Proof.
  intros Hak.
  destruct (fst (report_of ak scope p top_n raw raw_rows w)) as [e | report] eqn:Hrep.
  - destruct (report_of_raised _ _ _ _ _ _ _ Hrep)
      as [He [func_name [func [kwargs [x [x' [Ha Hf]]]]]]].
    rewrite (Hak _ _ _ _ _ _ Ha Hf) in He. discriminate.
  - destruct (report_of_meta _ _ _ _ _ _ _ Hrep) as [d [-> _]]. now exists d.
Qed.

(** C8, as the code has it: for a scope that is none of the four supported
    ones, [get_market_state] makes no call to the provider, and, when [int]
    accepts the [top_n] and [raw_rows] of [params], returns the dict of the
    [meta] envelope, the error that names the scope and the list of the
    four supported scopes. *)
Theorem unknown_scope_report (scope : string) (params : option pydict) (w : Net X) :
  ~ In scope supported_scopes ->
  snd (get_market_state ak scope params w) = w
  /\ forall top_n raw_rows : Z,
      converts (params_or_empty params) top_n raw_rows ->
      fst (get_market_state ak scope params w)
      = inr (VDict [("meta", VDict (initial_meta ak scope (params_or_empty params) w));
                    ("error", VStr ("unknown scope: " ++ scope)%string);
                    ("supported_scopes",
                     VList [VStr "hs_a"; VStr "industry_board"; VStr "sse_summary";
                            VStr "szse_summary"])]).
Proof.
  intros Hnot.
  assert (Hrun : forall top_n raw_rows,
             converts (params_or_empty params) top_n raw_rows ->
             get_market_state ak scope params w
             = (inr (VDict [("meta",
                             VDict (initial_meta ak scope (params_or_empty params) w));
                            ("error", VStr ("unknown scope: " ++ scope)%string);
                            ("supported_scopes",
                             VList [VStr "hs_a"; VStr "industry_board";
                                    VStr "sse_summary"; VStr "szse_summary"])]),
                w)).
  { intros top_n raw_rows Hconv.
    rewrite (get_market_state_direct _ _ _ _ _ Hconv).
    destruct (unknown_scope_tests scope Hnot) as [E1 [E2 [E3 E4]]].
    unfold report_of. rewrite E1, E2, E3, E4. reflexivity. }
  destruct (get_market_state_conversions scope params w)
    as [[top_n [raw_rows Hconv]] | [e [Hraise Hwhy]]].
  - split; [now rewrite (Hrun top_n raw_rows Hconv) |].
    intros top_n' raw_rows' Hconv'. now rewrite (Hrun top_n' raw_rows' Hconv').
  - split; [now rewrite Hraise |].
    intros top_n raw_rows Hconv. now rewrite (Hrun top_n raw_rows Hconv).
Qed.

(** C10, as the code has it: for the scope ["szse_summary"], when [params]
    has no ["date"] or its value, as a stripped string, is empty,
    [get_market_state] makes no call to the provider, and, when [int]
    accepts the [top_n] and [raw_rows] of [params], returns the dict of the
    [meta] envelope and the error that asks for a date. *)
Theorem szse_summary_requires_date (params : option pydict) (w : Net X) :
  dict_get (params_or_empty params) "date" = None
  \/ (exists v, dict_get (params_or_empty params) "date" = Some v
                /\ strip (py_str v) = EmptyString) ->
  snd (get_market_state ak "szse_summary" params w) = w
  /\ forall top_n raw_rows : Z,
      converts (params_or_empty params) top_n raw_rows ->
      fst (get_market_state ak "szse_summary" params w)
      = inr (VDict [("meta",
                     VDict (initial_meta ak "szse_summary" (params_or_empty params) w));
                    ("error",
                     VStr "szse_summary requires params['date'], e.g. '20200619'")]).
Proof.
  intros Hdate.
  assert (E : szse_date (params_or_empty params) = EmptyString).
  { unfold szse_date, dict_get_default.
    destruct Hdate as [-> | [v [-> Hv]]]; [reflexivity | exact Hv]. }
  assert (Hrun : forall top_n raw_rows,
             converts (params_or_empty params) top_n raw_rows ->
             get_market_state ak "szse_summary" params w
             = (inr (VDict [("meta",
                             VDict (initial_meta ak "szse_summary"
                                      (params_or_empty params) w));
                            ("error",
                             VStr "szse_summary requires params['date'], e.g. '20200619'")]),
                w)).
  { intros top_n raw_rows Hconv.
    rewrite (get_market_state_direct _ _ _ _ _ Hconv).
    unfold report_of. cbn [String.eqb Ascii.eqb Bool.eqb].
    rewrite E. reflexivity. }
  destruct (get_market_state_conversions "szse_summary" params w)
    as [[top_n [raw_rows Hconv]] | [e [Hraise Hwhy]]].
  - split; [now rewrite (Hrun top_n raw_rows Hconv) |].
    intros top_n' raw_rows' Hconv'. now rewrite (Hrun top_n' raw_rows' Hconv').
  - split; [now rewrite Hraise |].
    intros top_n raw_rows Hconv. now rewrite (Hrun top_n raw_rows Hconv).
Qed.

(** A chain that fails altogether ends the [try] block of its scope with
    the [RuntimeError], [meta] untouched. *)
Lemma dispatch_chain_failed (scope : string) (p : pydict) (top_n raw_rows : Z) (raw : bool)
    (w w1 : Net X) (m : pydict) (errs : list string) :
  (scope = "hs_a" /\ failures (hs_a_fetchers ak) w = Some (errs, w1))
  \/ (scope = "industry_board"
      /\ failures (industry_board_fetchers ak) w = Some (errs, w1)) ->
  dispatch ak scope p top_n raw raw_rows {| net := w; meta := m |}
  = (inl (all_failed errs), {| net := w1; meta := m |}).
Proof.
  intros [[-> Hf] | [-> Hf]]; unfold dispatch; cbn [String.eqb Ascii.eqb Bool.eqb].
  - unfold bind at 1. unfold lift_net, fetch_hs_a. cbn [net meta].
    rewrite (fetch_with_fallback_all_fail _ _ _ _ Hf). reflexivity.
  - unfold bind at 1. unfold lift_net, fetch_industry_board. cbn [net meta].
    rewrite (fetch_with_fallback_all_fail _ _ _ _ Hf). reflexivity.
Qed.
End MainFacts.

(** C2, as the code has it: when every fetcher of the chain fails, by
    raising an [Exception] or by returning an empty frame or no frame,
    [_fetch_with_fallback] raises the [RuntimeError] whose message holds the
    error strings of all the sources in the order of the attempts;
    [get_market_state] catches it, as it catches every [Exception] of its
    [try] block, and returns the dict of the [meta] envelope and an
    ["error"] string.  What the [try] block raises and is no [Exception]
    goes to the caller. *)
Theorem all_sources_failed_report :
  (forall (W : Type) (fetchers : list (string * Callable W)) (w w1 : W)
          (errs : list string),
      failures fetchers w = Some (errs, w1) ->
      _fetch_with_fallback fetchers w
      = (inl (mk_exn "RuntimeError"
                ("All data sources failed:" ++ nl ++ String.concat nl errs)%string true),
         {| world := w1; invoked := map fst fetchers |}))
  /\ (forall (R : PyRuntime) (X : Type) (ak : Provider X) (scope : string)
             (params : option pydict) (w w1 : Net X) (top_n raw_rows : Z)
             (errs : list string),
        converts (params_or_empty params) top_n raw_rows ->
        (scope = "hs_a" /\ failures (hs_a_fetchers ak) w = Some (errs, w1))
        \/ (scope = "industry_board"
            /\ failures (industry_board_fetchers ak) w = Some (errs, w1)) ->
        get_market_state ak scope params w
        = (inr (VDict [("meta",
                        VDict (initial_meta ak scope (params_or_empty params) w));
                       ("error",
                        VStr ("fetch failed: RuntimeError: All data sources failed:"
                              ++ nl ++ String.concat nl errs)%string)]),
           w1))
  /\ (forall (R : PyRuntime) (X : Type) (ak : Provider X) (scope : string)
             (params : option pydict) (w : Net X) (top_n raw_rows : Z) (e : exn)
             (s : gstate X),
        converts (params_or_empty params) top_n raw_rows ->
        dispatch ak scope (params_or_empty params) top_n
          (py_bool (dict_get_default (params_or_empty params) "raw" (VBool false)))
          raw_rows
          {| net := w; meta := initial_meta ak scope (params_or_empty params) w |}
        = (inl e, s) ->
        get_market_state ak scope params w
        = (if is_exception e
           then inr (VDict [("meta", VDict (meta s));
                            ("error",
                             VStr ("fetch failed: " ++ ename e ++ ": " ++ emsg e)%string)])
           else inl e,
           net s)).
Proof.
  split; [| split].
  - intros W fetchers w w1 errs. apply fetch_with_fallback_all_fail.
  - intros R X ak scope params w w1 top_n raw_rows errs Hconv Hfail.
    rewrite (get_market_state_try _ _ _ _ _ _ Hconv). cbv zeta.
    rewrite (dispatch_chain_failed ak scope _ top_n raw_rows _ w w1 _ errs Hfail).
    reflexivity.
  - intros R X ak scope params w top_n raw_rows e s Hconv Hraise.
    rewrite (get_market_state_try _ _ _ _ _ _ Hconv). cbv zeta.
    rewrite Hraise. reflexivity.
Qed.

Lemma all_sources_failed_report_witness :
  @get_market_state plain_runtime nat down_provider "hs_a" None fresh_net
  = (inr (VDict
            [("meta",
              VDict [("scope", VStr "hs_a");
                     ("asof", VStr "2024-01-02 15:00:00");
                     ("source", VStr "akshare");
                     ("akshare_version", VStr "unknown");
                     ("params", VDict [])]);
             ("error",
              VStr ("fetch failed: RuntimeError: All data sources failed:"
                    ++ nl ++ "[eastmoney_spot_em] ConnectionError: Connection aborted."
                    ++ nl ++ "[sina_spot] ConnectionError: Connection aborted."
                    ++ nl ++ "[tencent_spot] ConnectionError: Connection aborted."
                    ++ nl ++ "[sina_spot_2] ConnectionError: Connection aborted.")%string)]),
     {| ext := 4%nat;
        calls := [("stock_zh_a_spot_em", []); ("stock_zh_a_spot", []);
                  ("stock_zh_a_spot_tx", []); ("stock_zh_a_spot_sina", [])] |}).
Proof.
  destruct all_sources_failed_report as [_ [Hreport _]].
  apply (Hreport plain_runtime nat down_provider "hs_a" None fresh_net _ 20 5
           ["[eastmoney_spot_em] ConnectionError: Connection aborted.";
            "[sina_spot] ConnectionError: Connection aborted.";
            "[tencent_spot] ConnectionError: Connection aborted.";
            "[sina_spot_2] ConnectionError: Connection aborted."]).
  - split; reflexivity.
  - left. split; reflexivity.
Defined.

(** C2 as stated fails for what is no [Exception]: when the first spot source
    is interrupted from the keyboard, [get_market_state] raises the
    [KeyboardInterrupt] to its caller, after that one call, and returns no
    report. *)
Lemma interrupt_propagates_counterexample :
  @get_market_state plain_runtime nat interrupted_provider "hs_a" None fresh_net
  = (inl interrupt, {| ext := 1%nat; calls := [("stock_zh_a_spot_em", [])] |})
  /\ ename interrupt = "KeyboardInterrupt"
  /\ is_exception interrupt = false.
Proof. repeat split. Qed.

Lemma unknown_scope_report_witness :
  @get_market_state plain_runtime nat sample_provider "weather" None fresh_net
  = (inr (VDict
            [("meta",
              VDict [("scope", VStr "weather");
                     ("asof", VStr "2024-01-02 15:00:00");
                     ("source", VStr "akshare");
                     ("akshare_version", VStr "1.12.0");
                     ("params", VDict [])]);
             ("error", VStr "unknown scope: weather");
             ("supported_scopes",
              VList [VStr "hs_a"; VStr "industry_board"; VStr "sse_summary";
                     VStr "szse_summary"])]),
     fresh_net).
Proof.
  assert (Hnot : ~ In "weather" supported_scopes) by (simpl; intuition discriminate).
  destruct (@unknown_scope_report plain_runtime nat sample_provider "weather" None
              fresh_net Hnot) as [Hworld Hreport].
  specialize (Hreport 20 5 (conj eq_refl eq_refl)).
  rewrite (surjective_pairing (get_market_state _ _ _ _)), Hworld, Hreport.
  reflexivity.
Defined.

(** C8 as stated fails when a conversion of [params] raises: with
    [{"top_n": None}] the call ends in the [TypeError] of [int(None)], whatever
    the runtime, and no dict comes back. *)
Lemma unknown_scope_raises_counterexample :
  exists e,
    @get_market_state plain_runtime nat sample_provider "weather"
      (Some [("top_n", VNone)]) fresh_net
    = (inl e, fresh_net)
    /\ ename e = "TypeError".
Proof. eexists. split; reflexivity. Qed.

(** A date of white space only, the ideographic space of a Chinese keyboard
    among it, is no date. *)
Lemma szse_summary_requires_date_witness :
  @get_market_state plain_runtime nat sample_provider "szse_summary"
    (Some [("date", VStr (" " ++ ideographic_space)%string)]) fresh_net
  = (inr (VDict
            [("meta",
              VDict [("scope", VStr "szse_summary");
                     ("asof", VStr "2024-01-02 15:00:00");
                     ("source", VStr "akshare");
                     ("akshare_version", VStr "1.12.0");
                     ("params",
                      VDict [("date", VStr (" " ++ ideographic_space)%string)])]);
             ("error", VStr "szse_summary requires params['date'], e.g. '20200619'")]),
     fresh_net).
Proof.
  assert (Hdate : dict_get
                    (params_or_empty
                       (Some [("date", VStr (" " ++ ideographic_space)%string)]))
                    "date" = None
                  \/ (exists v,
                         dict_get
                           (params_or_empty
                              (Some [("date", VStr (" " ++ ideographic_space)%string)]))
                           "date"
                         = Some v
                         /\ @strip (@py_str plain_runtime v) = EmptyString)).
  { right. exists (VStr (" " ++ ideographic_space)%string). split; reflexivity. }
  destruct (@szse_summary_requires_date plain_runtime nat sample_provider
              (Some [("date", VStr (" " ++ ideographic_space)%string)]) fresh_net Hdate)
    as [Hworld Hreport].
  specialize (Hreport 20 5 (conj eq_refl eq_refl)).
  rewrite (surjective_pairing (get_market_state _ _ _ _)), Hworld, Hreport.
  reflexivity.
Defined.

(** C10 as stated fails when a conversion of [params] raises: without a
    date and with [{"raw_rows": None}] the call ends in the [TypeError] of
    [int(None)], and no dict comes back. *)
Lemma szse_summary_raises_counterexample :
  dict_get [("raw_rows", VNone)] "date" = None
  /\ exists e,
       @get_market_state plain_runtime nat sample_provider "szse_summary"
         (Some [("raw_rows", VNone)]) fresh_net
       = (inl e, fresh_net)
       /\ ename e = "TypeError".
Proof. split; [reflexivity |]. eexists. split; reflexivity. Qed.

(** ** Calls and envelope *)

Section EnvelopeClaims.
Context `{PyRuntime} {X : Type}.
Variable ak : Provider X.

(** C3, as the code has it: past the conversions of [params], a call of
    [get_market_state] makes one call to the provider for each source it
    tries, in the order of the sources of its scope, up to the first source
    that does not fail: the calls made are those planned for the sources
    tried, less the sources whose function the provider lacks, and the first
    source is always tried.  That is at most four calls for ["hs_a"], whose
    chain has four sources, at most one for each other supported scope, and
    none for an unknown scope.  When the provider raises nothing but
    [Exception]s, one report, a dict, comes back. *)
Theorem one_report_bounded_calls (scope : string) (params : option pydict) (w : Net X)
    (top_n raw_rows : Z) :
  converts (params_or_empty params) top_n raw_rows ->
  exists new,
    calls (snd (get_market_state ak scope params w)) = calls w ++ new
    /\ new
       = filter (fun c => provided ak (fst c))
           (firstn (sources_tried (scope_fetchers ak scope (params_or_empty params)) w)
              (scope_calls scope (params_or_empty params)))
    /\ tried_up_to (scope_fetchers ak scope (params_or_empty params)) w
         (sources_tried (scope_fetchers ak scope (params_or_empty params)) w)
    /\ (forall c rest,
          scope_calls scope (params_or_empty params) = c :: rest ->
          provided ak (fst c) = true ->
          exists more, new = c :: more)
    /\ (List.length new <= (if String.eqb scope "hs_a" then 4 else 1))%nat
    /\ (~ In scope supported_scopes -> new = [])
    /\ (raises_exceptions_only ak ->
        exists d, fst (get_market_state ak scope params w) = inr (VDict d)).
Proof.
  intros Hconv. rewrite (get_market_state_direct ak _ _ _ _ _ Hconv).
  eexists. split; [apply report_of_calls |]. split; [reflexivity |].
  split; [apply sources_tried_spec |].
  split; [intros c rest; apply first_call_made |].
  destruct (scope_calls_length scope (params_or_empty params)) as [Hlen Hnone].
  split; [| split].
  - eapply Nat.le_trans; [apply calls_made_length | exact Hlen].
  - intros Hnot. unfold calls_made. rewrite (Hnone Hnot), firstn_nil. reflexivity.
  - apply report_of_returns.
Qed.

Lemma fallback_outcome_label (scope : string) (p : pydict) (w : Net X) (src : string)
    (errs : list string) :
  fallback_outcome ak scope p w = Some (src, errs) ->
  src = if String.eqb scope "hs_a" then "auto_fallback" else "eastmoney".
Proof.
  unfold fallback_outcome, fetch_hs_a, fetch_industry_board.
  destruct (String.eqb scope "hs_a").
  - destruct (_fetch_with_fallback (hs_a_fetchers ak) w) as [[e | [df errs']] fs];
      simpl; [discriminate | now intros [= <- _]].
  - destruct (String.eqb scope "industry_board"); [| discriminate].
    destruct (_fetch_with_fallback (industry_board_fetchers ak) w)
      as [[e | [df errs']] fs];
      simpl; [discriminate | now intros [= <- _]].
Qed.

(** C4, as the code has it: past the conversions of [params], the report of
    every scope holds under ["meta"] the requested scope, the time read
    before any fetch, the provider's name and version and the request
    parameters.  Only the report of a fallback chain that succeeded
    (["hs_a"], ["industry_board"]) holds more: under ["data_source"] the
    fixed label of the scope, ["auto_fallback"] or ["eastmoney"], and, when
    sources failed before the one that answered, their errors under
    ["fallback_errors"].  A report comes back whenever the provider raises
    nothing but [Exception]s. *)
Theorem meta_envelope (scope : string) (params : option pydict) (w : Net X)
    (top_n raw_rows : Z) :
  converts (params_or_empty params) top_n raw_rows ->
  (raises_exceptions_only ak ->
   exists d w', get_market_state ak scope params w = (inr (VDict d), w'))
  /\ forall report w',
      get_market_state ak scope params w = (inr report, w') ->
      exists d m,
        report = VDict d
        /\ dict_get d "meta" = Some (VDict m)
        /\ dict_get m "scope" = Some (VStr scope)
        /\ dict_get m "asof" = Some (VStr (_now_str ak w))
        /\ dict_get m "source" = Some (VStr "akshare")
        /\ dict_get m "akshare_version"
           = Some (VStr (match ak_version ak with Some v => v | None => "unknown" end))
        /\ dict_get m "params" = Some (VDict (params_or_empty params))
        /\ match fallback_outcome ak scope (params_or_empty params) w with
           | Some (src, errs) =>
               src = (if String.eqb scope "hs_a" then "auto_fallback" else "eastmoney")
               /\ dict_get m "data_source" = Some (VStr src)
               /\ dict_get m "fallback_errors"
                  = match errs with
                    | [] => None
                    | _ => Some (VList (map VStr errs))
                    end
           | None =>
               dict_get m "data_source" = None /\ dict_get m "fallback_errors" = None
           end.
Proof.
  intros Hconv. rewrite (get_market_state_direct ak _ _ _ _ _ Hconv). split.
  - intros Hak.
    destruct (report_of_returns ak scope (params_or_empty params) top_n raw_rows
                (py_bool (dict_get_default (params_or_empty params) "raw" (VBool false)))
                w Hak) as [d Hd].
    exists d. eexists. rewrite (surjective_pairing (report_of _ _ _ _ _ _ _)), Hd.
    reflexivity.
  - intros report w' Hrun.
    assert (Hfst : fst (report_of ak scope (params_or_empty params) top_n
                          (py_bool (dict_get_default (params_or_empty params) "raw"
                                      (VBool false)))
                          raw_rows w) = inr report) by now rewrite Hrun.
    destruct (report_of_meta ak _ _ _ _ _ _ _ Hfst) as [d [-> Hmeta]].
    exists d, (expected_meta ak scope (params_or_empty params) w).
    split; [reflexivity |]. split; [exact Hmeta |].
    unfold expected_meta.
    pose proof (fallback_outcome_label scope (params_or_empty params) w) as Hlabel.
    destruct (fallback_outcome ak scope (params_or_empty params) w) as [[src errs] |].
    + repeat split; try reflexivity.
      * now apply (Hlabel src errs).
      * destruct errs; reflexivity.
    + repeat split; reflexivity.
Qed.
End EnvelopeClaims.

Lemma sample_provider_exceptions : raises_exceptions_only sample_provider.
Proof.
  intros func_name func kwargs x e x'. unfold sample_provider. cbn [ak_attr].
  destruct (String.eqb func_name "stock_zh_a_spot_em").
  { intros [= <-] [= <- _]. reflexivity. }
  destruct (String.eqb func_name "stock_zh_a_spot").
  { intros [= <-] [=]. }
  destruct (String.eqb func_name "stock_sse_summary");
    [intros [= <-] [=] | discriminate].
Qed.

Lemma one_report_bounded_calls_witness :
  exists new,
    calls (snd (@get_market_state plain_runtime nat sample_provider "hs_a" None fresh_net))
    = calls fresh_net ++ new
    /\ new = [("stock_zh_a_spot_em", []); ("stock_zh_a_spot", [])]
    /\ (List.length new <= 4)%nat
    /\ exists d,
         fst (@get_market_state plain_runtime nat sample_provider "hs_a" None fresh_net)
         = inr (VDict d).
Proof.
  destruct (@one_report_bounded_calls plain_runtime nat sample_provider "hs_a" None
              fresh_net 20 5 (conj eq_refl eq_refl))
    as [new [Hcalls [Hnew [_ [_ [Hlen [_ Hreport]]]]]]].
  exists new. split; [exact Hcalls |]. split; [exact Hnew |]. split; [exact Hlen |].
  apply Hreport, sample_provider_exceptions.
Defined.

(** C3 as stated fails: with the first spot source down, one call of
    [get_market_state] for ["hs_a"] makes two calls to the provider. *)
Lemma two_calls_counterexample :
  calls (snd (@get_market_state plain_runtime nat sample_provider "hs_a" None fresh_net))
  = [("stock_zh_a_spot_em", []); ("stock_zh_a_spot", [])]
  /\ List.length
       (calls (snd (@get_market_state plain_runtime nat sample_provider "hs_a" None
                      fresh_net)))
     <> 1%nat.
Proof.
  split; [vm_compute; reflexivity | vm_compute; discriminate].
Qed.

Lemma meta_envelope_witness :
  (exists d w',
      @get_market_state plain_runtime nat sample_provider "hs_a" None fresh_net
      = (inr (VDict d), w'))
  /\ exists d m,
       sample_report = VDict d
       /\ dict_get d "meta" = Some (VDict m)
       /\ dict_get m "scope" = Some (VStr "hs_a")
       /\ dict_get m "asof" = Some (VStr "2024-01-02 15:00:00")
       /\ dict_get m "source" = Some (VStr "akshare")
       /\ dict_get m "akshare_version" = Some (VStr "1.12.0")
       /\ dict_get m "params" = Some (VDict [])
       /\ "auto_fallback" = "auto_fallback"
       /\ dict_get m "data_source" = Some (VStr "auto_fallback")
       /\ dict_get m "fallback_errors"
          = Some (VList [VStr "[eastmoney_spot_em] ConnectionError: Connection aborted."]).
Proof.
  destruct (@meta_envelope plain_runtime nat sample_provider "hs_a" None fresh_net 20 5
              (conj eq_refl eq_refl)) as [Hreturns Hmeta].
  split; [apply Hreturns, sample_provider_exceptions |].
  apply (Hmeta sample_report (snd sample_run)).
  vm_compute. reflexivity.
Defined.

(** C4 as stated fails: the report of an exchange summary names no data
    source and no fallback errors in its [meta]. *)
Lemma no_data_source_counterexample :
  exists d m,
    fst (@get_market_state plain_runtime nat sample_provider "sse_summary" None fresh_net)
    = inr (VDict d)
    /\ dict_get d "meta" = Some (VDict m)
    /\ dict_get m "data_source" = None
    /\ dict_get m "fallback_errors" = None.
Proof.
  do 2 eexists. split; [vm_compute; reflexivity |].
  repeat split; reflexivity.
Qed.

(** The frame of ["hs_a"] came from the second source, ["sina_spot"], and
    the report calls its source ["auto_fallback"]. *)
Example hs_a_source_label :
  invoked (snd (_fetch_with_fallback (hs_a_fetchers sample_provider) fresh_net))
  = ["eastmoney_spot_em"; "sina_spot"]
  /\ exists d m,
       fst (@get_market_state plain_runtime nat sample_provider "hs_a" None fresh_net)
       = inr (VDict d)
       /\ dict_get d "meta" = Some (VDict m)
       /\ dict_get m "data_source" = Some (VStr "auto_fallback").
Proof.
  split; [reflexivity |].
  do 2 eexists. split; [vm_compute; reflexivity |].
  split; reflexivity.
Qed.

(** * Further properties of [get_market_state] *)

Section Escaping.
Context `{PyRuntime} {X : Type}.
Variable ak : Provider X.

Lemma get_market_state_raised (scope : string) (params : option pydict) (w w' : Net X)
    (e : exn) :
  get_market_state ak scope params w = (inl e, w') ->
  (w' = w
   /\ (py_int (dict_get_default (params_or_empty params) "top_n" (VInt 20)) = inl e
       \/ (exists top_n,
              py_int (dict_get_default (params_or_empty params) "top_n" (VInt 20))
              = inr top_n
              /\ py_int (dict_get_default (params_or_empty params) "raw_rows" (VInt 5))
                 = inl e)))
  \/ (is_exception e = false
      /\ exists func_name func kwargs x x',
           ak_attr ak func_name = Some func /\ func kwargs x = (inl e, x')).
Proof.
  intros Hrun.
  destruct (get_market_state_conversions ak scope params w)
    as [[top_n [raw_rows Hconv]] | [e0 [Hraise Hwhy]]].
  - right. rewrite (get_market_state_direct ak _ _ _ _ _ Hconv) in Hrun.
    apply (report_of_raised ak scope (params_or_empty params) top_n raw_rows
             (py_bool (dict_get_default (params_or_empty params) "raw" (VBool false))) w).
    now rewrite Hrun.
  - left. rewrite Hraise in Hrun. injection Hrun as <- <-. now split.
Qed.

(** X14: whatever value [params] is, an exception that [get_market_state]
    lets through to its caller is one of three.  The [AttributeError] of
    [params.get], when [params] is a true value that is no dict; the
    exception of [int] on the [top_n] or the [raw_rows] of [params]: both
    stand before the [try], no call to the provider is made and the world is
    as it was.  Or an exception that is no [Exception], a
    [KeyboardInterrupt] say, raised by a function of the provider.  The
    errors of the fetch and of the summaries that are [Exception]s end in a
    report. *)
Theorem escaping_exceptions (scope : string) (params : pyval) (w w' : Net X) (e : exn) :
  get_market_state_any ak scope params w = (inl e, w') ->
  let p := if py_bool params then params else VDict [] in
  (w' = w
   /\ (((forall d, p <> VDict d) /\ e = no_get p)
       \/ exists d,
            p = VDict d
            /\ (py_int (dict_get_default d "top_n" (VInt 20)) = inl e
                \/ exists top_n,
                     py_int (dict_get_default d "top_n" (VInt 20)) = inr top_n
                     /\ py_int (dict_get_default d "raw_rows" (VInt 5)) = inl e)))
  \/ (is_exception e = false
      /\ exists func_name func kwargs x x',
           ak_attr ak func_name = Some func /\ func kwargs x = (inl e, x')).
Proof.
  intros Hrun. cbv zeta. unfold get_market_state_any in Hrun.
  destruct (if py_bool params then params else VDict []) as [| b | z | f | s | l | d];
    try (injection Hrun as <- <-; left; split; [reflexivity |]; left;
         split; [discriminate | reflexivity]).
  destruct (get_market_state_raised scope (Some d) w w' e Hrun)
    as [[Hw Hint] | Hprov]; [| now right].
  left. split; [exact Hw |]. right. exists d. split; [reflexivity | exact Hint].
Qed.

Lemma get_market_state_calls (scope : string) (params : option pydict) (w : Net X) :
  exists k,
    calls (snd (get_market_state ak scope params w))
    = calls w ++ calls_made ak k (scope_calls scope (params_or_empty params)).
Proof.
  destruct (get_market_state_conversions ak scope params w)
    as [[top_n [raw_rows Hconv]] | [e0 [Hraise _]]].
  - rewrite (get_market_state_direct ak _ _ _ _ _ Hconv).
    eexists. apply report_of_calls.
  - rewrite Hraise. exists O. simpl. now rewrite app_nil_r.
Qed.

(** X15: the calls that one run of [get_market_state] makes to the provider
    are, in order, the functions planned for its scope, up to the one that
    answers, less those the installed provider lacks: four spot functions
    for ["hs_a"], one function for each of the three other scopes, none for
    an unknown scope or for ["szse_summary"] without a date.  Only the call
    of ["szse_summary"] has an argument, the date.  The sources are tried
    when the conversions of [params] go through, and none is when one of
    them raises. *)
Theorem provider_calls_of_scope (scope : string) (params : option pydict) (w : Net X) :
  exists k,
    calls (snd (get_market_state ak scope params w))
    = calls w
        ++ filter (fun c => provided ak (fst c))
             (firstn k (scope_calls scope (params_or_empty params)))
    /\ (forall top_n raw_rows,
          converts (params_or_empty params) top_n raw_rows ->
          k = sources_tried (scope_fetchers ak scope (params_or_empty params)) w)
    /\ ((forall top_n raw_rows, ~ converts (params_or_empty params) top_n raw_rows) ->
        k = O).
Proof.
  destruct (get_market_state_conversions ak scope params w)
    as [[top_n [raw_rows Hconv]] | [e0 [Hraise Hwhy]]].
  - exists (sources_tried (scope_fetchers ak scope (params_or_empty params)) w).
    rewrite (get_market_state_direct ak _ _ _ _ _ Hconv).
    split; [apply report_of_calls |].
    split; [reflexivity |].
    intros Hnone. elim (Hnone top_n raw_rows Hconv).
  - exists O. rewrite Hraise. cbn [snd firstn filter].
    split; [now rewrite app_nil_r |].
    split; [| reflexivity].
    intros top_n raw_rows [Htop Hrows].
    destruct Hwhy as [Hwhy | [top_n' [_ Hwhy]]]; congruence.
Qed.

(** X16: whenever [get_market_state] calls the provider for
    ["szse_summary"], it calls it once, and the one argument of the call is
    the date of [params] as a string without white space around it, which
    is not empty. *)
Theorem szse_date_argument (params : option pydict) (w : Net X)
    (new : list (string * pydict)) :
  calls (snd (get_market_state ak "szse_summary" params w)) = calls w ++ new ->
  new <> [] ->
  exists date,
    new = [("stock_szse_summary", [("date", VStr date)])]
    /\ date = strip (py_str (dict_get_default (params_or_empty params) "date"
                               (VStr EmptyString)))
    /\ date <> EmptyString
    /\ strip date = date.
Proof.
  intros Hcalls Hnew.
  destruct (get_market_state_calls "szse_summary" params w) as [k Hk].
  rewrite Hk in Hcalls. apply app_inv_head in Hcalls. subst new.
  unfold scope_calls, calls_made in Hnew |- *.
  cbn [String.eqb Ascii.eqb Bool.eqb] in Hnew |- *.
  destruct (String.eqb (szse_date (params_or_empty params)) EmptyString) eqn:Ed.
  { rewrite firstn_nil in Hnew. now elim Hnew. }
  exists (szse_date (params_or_empty params)).
  split; [| split; [reflexivity | split; [now apply String.eqb_neq | apply strip_idempotent]]].
  destruct k as [| k]; [now elim Hnew |].
  simpl in Hnew |- *. rewrite firstn_nil in Hnew |- *.
  destruct (provided ak "stock_szse_summary"); [reflexivity | now elim Hnew].
Qed.
End Escaping.

Lemma escaping_exceptions_witness :
  (fresh_net = fresh_net
   /\ (((forall d, VList [VInt 1] <> VDict d)
        /\ mk_exn "AttributeError" "'list' object has no attribute 'get'" true
           = no_get (VList [VInt 1]))
       \/ exists d,
            VList [VInt 1] = VDict d
            /\ (@py_int plain_runtime (dict_get_default d "top_n" (VInt 20))
                = inl (mk_exn "AttributeError" "'list' object has no attribute 'get'" true)
                \/ exists top_n,
                     @py_int plain_runtime (dict_get_default d "top_n" (VInt 20))
                     = inr top_n
                     /\ @py_int plain_runtime (dict_get_default d "raw_rows" (VInt 5))
                        = inl (mk_exn "AttributeError"
                                 "'list' object has no attribute 'get'" true))))
  \/ (is_exception (mk_exn "AttributeError" "'list' object has no attribute 'get'" true)
      = false
      /\ exists func_name func kwargs x x',
           ak_attr sample_provider func_name = Some func
           /\ func kwargs x
              = (inl (mk_exn "AttributeError" "'list' object has no attribute 'get'" true),
                 x')).
Proof.
  apply (@escaping_exceptions plain_runtime nat sample_provider "hs_a" (VList [VInt 1])
           fresh_net fresh_net).
  reflexivity.
Defined.

Lemma szse_date_argument_witness :
  exists date,
    [("stock_szse_summary", [("date", VStr "20200619")])]
    = [("stock_szse_summary", [("date", VStr date)])]
    /\ date = @strip (@py_str plain_runtime
                        (dict_get_default
                           (params_or_empty
                              (Some [("date",
                                      VStr (ideographic_space ++ "20200619 ")%string)]))
                           "date" (VStr EmptyString)))
    /\ date <> EmptyString
    /\ strip date = date.
Proof.
  apply (@szse_date_argument plain_runtime nat down_provider
           (Some [("date", VStr (ideographic_space ++ "20200619 ")%string)]) fresh_net).
  - reflexivity.
  - discriminate.
Defined.

(** ** The fields of a report *)

Lemma frame_report_fields (m : pydict) (df : DataFrame) (key : string) (payload : pyval)
    (raw : bool) (raw_rows : Z) :
  key = "summary" \/ key = "data" ->
  field (frame_report m df key payload raw raw_rows) "meta" = Some (VDict m)
  /\ field (frame_report m df key payload raw raw_rows) "shape" = Some (shape_value df)
  /\ field (frame_report m df key payload raw raw_rows) "columns"
     = Some (str_list_value (columns df))
  /\ field (frame_report m df key payload raw raw_rows) key = Some payload
  /\ field (frame_report m df key payload raw raw_rows) "raw_head"
     = if raw then Some (records_value (to_records (head raw_rows df))) else None.
Proof.
  intros [-> | ->]; destruct raw; repeat split; reflexivity.
Qed.

Lemma to_records_head_count (raw_rows : Z) (df : DataFrame) :
  Z.of_nat (List.length (to_records (head raw_rows df))) = head_count raw_rows (df_len df).
Proof.
  unfold to_records, head. cbn [rows]. rewrite length_map. apply py_take_count.
Qed.

Lemma frame_report_raw_head (m : pydict) (df : DataFrame) (key : string) (payload : pyval)
    (raw : bool) (raw_rows : Z) :
  key = "summary" \/ key = "data" ->
  raw_head_of (frame_report m df key payload raw raw_rows) raw raw_rows
  /\ (raw = false -> field (frame_report m df key payload raw raw_rows) "raw_head" = None).
Proof.
  intros Hkey. unfold raw_head_of.
  destruct (frame_report_fields m df key payload raw raw_rows Hkey)
    as [_ [Hs [Hc [_ Hr]]]].
  rewrite Hr, Hs, Hc. destruct raw.
  - split; [| discriminate]. split; [reflexivity |]. exists df. repeat split.
  - split; [exact I | reflexivity].
Qed.

Lemma failure_report_raw_head (m : pydict) (e : exn) (raw : bool) (raw_rows : Z) :
  raw_head_of (failure_report m e) raw raw_rows
  /\ (raw = false -> field (failure_report m e) "raw_head" = None).
Proof. split; [exact I | reflexivity]. Qed.

Section ReportFields.
Context `{PyRuntime} {X : Type}.
Variable ak : Provider X.

Lemma chain_report_raw_head (fetchers : list (string * Callable (Net X))) (label : string)
    (summarize : DataFrame -> result pyval) (m : pydict) (raw : bool) (raw_rows : Z)
    (w : Net X) (report : pyval) :
  fst (chain_report fetchers label summarize m raw raw_rows w) = inr report ->
  raw_head_of report raw raw_rows /\ (raw = false -> field report "raw_head" = None).
Proof.
  unfold chain_report.
  destruct (_fetch_with_fallback fetchers w) as [[e | [df errs]] s]; cbn [fst].
  - intros Hh. apply handle_returned in Hh. destruct Hh as [-> _].
    apply failure_report_raw_head.
  - cbv zeta. destruct (summarize df) as [e | summary].
    + intros Hh. apply handle_returned in Hh. destruct Hh as [-> _].
      apply failure_report_raw_head.
    + intros [= <-]. apply frame_report_raw_head. now left.
Qed.

Lemma call_report_raw_head (func_name : string) (kwargs m : pydict) (raw : bool)
    (raw_rows : Z) (w : Net X) (report : pyval) :
  fst (call_report ak func_name kwargs m raw raw_rows w) = inr report ->
  raw_head_of report raw raw_rows /\ (raw = false -> field report "raw_head" = None).
Proof.
  unfold call_report.
  destruct (_call_if_exists ak func_name kwargs w) as [[e | [df | v]] w1]; cbn [fst].
  - intros Hh. apply handle_returned in Hh. destruct Hh as [-> _].
    apply failure_report_raw_head.
  - intros [= <-]. apply frame_report_raw_head. now right.
  - intros [= <-]. split; [exact I | reflexivity].
Qed.

Lemma report_of_raw_head (scope : string) (p : pydict) (top_n raw_rows : Z) (raw : bool)
    (w : Net X) (report : pyval) :
  fst (report_of ak scope p top_n raw raw_rows w) = inr report ->
  raw_head_of report raw raw_rows /\ (raw = false -> field report "raw_head" = None).
Proof.
  unfold report_of. cbv zeta.
  destruct (String.eqb scope "hs_a"); [apply chain_report_raw_head |].
  destruct (String.eqb scope "industry_board"); [apply chain_report_raw_head |].
  destruct (String.eqb scope "sse_summary"); [apply call_report_raw_head |].
  destruct (String.eqb scope "szse_summary").
  - destruct (String.eqb (szse_date p) EmptyString); [| apply call_report_raw_head].
    intros [= <-]. split; [exact I | reflexivity].
  - intros [= <-]. split; [exact I | reflexivity].
Qed.

(** X17: a report has a ["raw_head"] only if [params] asks for it with a
    true ["raw"] and a frame was fetched; the ["raw_head"] then holds the
    first rows of that very frame, the one whose shape and columns the
    report gives, as many as [head(raw_rows)] leaves. *)
Theorem raw_head_only_on_request (scope : string) (params : option pydict) (w w' : Net X)
    (report : pyval) :
  get_market_state ak scope params w = (inr report, w') ->
  (py_bool (dict_get_default (params_or_empty params) "raw" (VBool false)) = false ->
   field report "raw_head" = None)
  /\ forall v,
      field report "raw_head" = Some v ->
      py_bool (dict_get_default (params_or_empty params) "raw" (VBool false)) = true
      /\ exists df raw_rows,
           py_int (dict_get_default (params_or_empty params) "raw_rows" (VInt 5))
           = inr raw_rows
           /\ field report "shape" = Some (shape_value df)
           /\ field report "columns" = Some (str_list_value (columns df))
           /\ v = records_value (to_records (head raw_rows df))
           /\ Z.of_nat (List.length (to_records (head raw_rows df)))
              = head_count raw_rows (df_len df).
Proof.
  intros Hrun. apply get_market_state_returned in Hrun.
  destruct Hrun as [top_n [raw_rows [[_ Hrows] Hrep]]].
  destruct (report_of_raw_head scope (params_or_empty params) top_n raw_rows
              (py_bool (dict_get_default (params_or_empty params) "raw" (VBool false))) w
              report) as [Hhead Hnone]; [now rewrite Hrep |].
  split; [exact Hnone |].
  intros v Hv. unfold raw_head_of in Hhead. rewrite Hv in Hhead.
  destruct Hhead as [Hraw [df [Hs [Hc Hr]]]].
  split; [exact Hraw |]. exists df, raw_rows. repeat split; try assumption.
  apply to_records_head_count.
Qed.
End ReportFields.

Lemma raw_head_only_on_request_witness :
  @py_bool (dict_get_default
              (params_or_empty (Some [("raw", VBool true); ("raw_rows", VInt 1)]))
              "raw" (VBool false)) = true
  /\ exists df raw_rows,
       @py_int plain_runtime
         (dict_get_default
            (params_or_empty (Some [("raw", VBool true); ("raw_rows", VInt 1)]))
            "raw_rows" (VInt 5))
       = inr raw_rows
       /\ Some (shape_value exchange_sample) = Some (shape_value df)
       /\ Some (str_list_value (columns exchange_sample))
          = Some (str_list_value (columns df))
       /\ records_value (to_records (head 1 exchange_sample))
          = records_value (to_records (head raw_rows df))
       /\ Z.of_nat (List.length (to_records (head raw_rows df)))
          = head_count raw_rows (df_len df).
Proof.
  destruct (@raw_head_only_on_request plain_runtime nat sample_provider "sse_summary"
              (Some [("raw", VBool true); ("raw_rows", VInt 1)]) fresh_net _ _ eq_refl)
    as [_ Hhead].
  apply (Hhead (records_value (to_records (head 1 exchange_sample)))). reflexivity.
Defined.

(** ** Breadth and shape *)

Lemma summarize_spot_breadth_total `{PyRuntime} (df : DataFrame) (top_n : Z)
    (summary b : pyval) :
  _summarize_spot df top_n = inr summary ->
  field summary "breadth" = Some b ->
  field b "total" = Some (VInt (Z.of_nat (df_len df))).
Proof.
  destruct (_pick_col df spot_code_candidates) as [c1 |] eqn:E1;
    [destruct (_pick_col df spot_name_candidates) as [c2 |] eqn:E2;
     [destruct (_pick_col df spot_pct_candidates) as [c3 |] eqn:E3 |] |].
  - intros Hrun.
    destruct (summarize_spot_returned df top_n c1 c2 c3 summary E1 E2 E3 Hrun) as [_ ->].
    cbv zeta. unfold field at 1. cbn [dict_get String.eqb Ascii.eqb Bool.eqb].
    intros [= <-]. unfold breadth_of, field.
    cbn [dict_get String.eqb Ascii.eqb Bool.eqb].
    now rewrite series_length, coerced_col_len.
  - rewrite (summarize_spot_error df top_n) by tauto. intros [= <-]. discriminate.
  - rewrite (summarize_spot_error df top_n) by tauto. intros [= <-]. discriminate.
  - rewrite (summarize_spot_error df top_n) by tauto. intros [= <-]. discriminate.
Qed.

Section HsAReport.
Context `{PyRuntime} {X : Type}.
Variable ak : Provider X.

(** X18: in a report of ["hs_a"], the breadth counts the frame the report
    describes: the [total] of the breadth is the number of rows that the
    report gives as its shape. *)
Theorem breadth_total_is_shape_rows (params : option pydict) (w w' : Net X)
    (report summary breadth : pyval) :
  get_market_state ak "hs_a" params w = (inr report, w') ->
  field report "summary" = Some summary ->
  field summary "breadth" = Some breadth ->
  exists shape rows_count,
    field report "shape" = Some shape
    /\ field shape "rows" = Some (VInt rows_count)
    /\ field breadth "total" = Some (VInt rows_count).
Proof.
  intros Hrun Hsum Hb. apply get_market_state_returned in Hrun.
  destruct Hrun as [top_n [raw_rows [_ Hrep]]].
  revert Hrep. unfold report_of. cbv zeta. cbn [String.eqb Ascii.eqb Bool.eqb].
  unfold chain_report.
  destruct (_fetch_with_fallback (hs_a_fetchers ak) w) as [[e | [df errs]] s].
  - intros [= Hh _]. apply handle_returned in Hh. destruct Hh as [-> _]. discriminate.
  - cbv zeta. destruct (_summarize_spot df top_n) as [e | summary0] eqn:Es.
    + intros [= Hh _]. apply handle_returned in Hh. destruct Hh as [-> _]. discriminate.
    + intros [= <- _].
      destruct (frame_report_fields
                  (initial_meta ak "hs_a" (params_or_empty params) w
                     ++ [("data_source", VStr "auto_fallback")]
                     ++ match errs with
                        | [] => []
                        | _ => [("fallback_errors", str_list_value errs)]
                        end)
                  df "summary" summary0
                  (py_bool (dict_get_default (params_or_empty params) "raw" (VBool false)))
                  raw_rows (or_introl eq_refl)) as [_ [Hs [_ [Hp _]]]].
      assert (E : Some summary0 = Some summary)
        by (rewrite <- Hsum; symmetry; exact Hp).
      injection E as ->.
      do 2 eexists. split; [exact Hs |]. split; [reflexivity |].
      exact (summarize_spot_breadth_total df top_n summary breadth Es Hb).
Qed.
End HsAReport.

Lemma breadth_total_is_shape_rows_witness :
  exists shape rows_count,
    field sample_report "shape" = Some shape
    /\ field shape "rows" = Some (VInt rows_count)
    /\ field (VDict [("advance", VInt 1); ("decline", VInt 1); ("flat", VInt 1);
                     ("total", VInt 5)]) "total" = Some (VInt rows_count).
Proof.
  apply (@breadth_total_is_shape_rows plain_runtime nat sample_provider None fresh_net
           (snd sample_run) sample_report (spot_summary_sample 20)).
  - vm_compute. reflexivity.
  - vm_compute. reflexivity.
  - vm_compute. reflexivity.
Defined.

(** ** Fallback errors in [meta] *)

Lemma fetch_returned_errs_bound {W : Type} (fetchers : list (string * Callable W)) (w : W)
    (df : DataFrame) (errs : list string) (s : fstate W) :
  _fetch_with_fallback fetchers w = (inr (df, errs), s) ->
  (List.length errs < List.length fetchers)%nat.
Proof.
  intros Hrun. destruct (fetch_with_fallback_returned_parts _ _ _ _ _ Hrun)
    as [before [name [f [after [w1 [Hfs [Hf _]]]]]]].
  rewrite (failures_length _ _ _ _ Hf), Hfs, length_app. simpl. lia.
Qed.

Lemma dict_get_app_fresh (m : pydict) (k : string) (v : pyval) :
  dict_get m k = None -> dict_get (m ++ [(k, v)]) k = Some v.
Proof.
  induction m as [| [k' v'] rest IH]; simpl.
  - intros _. now rewrite String.eqb_refl.
  - destruct (String.eqb k' k); [discriminate | exact IH].
Qed.

Section FallbackErrors.
Context `{PyRuntime} {X : Type}.
Variable ak : Provider X.

Lemma expected_meta_fallback_errors (scope : string) (p : pydict) (w : Net X)
    (l : list pyval) :
  dict_get (expected_meta ak scope p w) "fallback_errors" = Some (VList l) ->
  scope = "hs_a" /\ (1 <= List.length l <= 3)%nat.
Proof.
  unfold expected_meta, fallback_outcome, fetch_hs_a, fetch_industry_board.
  destruct (String.eqb_spec scope "hs_a") as [-> | _].
  { destruct (_fetch_with_fallback (hs_a_fetchers ak) w) as [[e | [df errs]] s] eqn:Hrun;
      cbn [fst]; [discriminate |].
    pose proof (fetch_returned_errs_bound _ _ _ _ _ Hrun) as Hbound.
    destruct errs as [| err errs]; [discriminate |].
    rewrite app_assoc, dict_get_app_fresh by reflexivity.
    unfold str_list_value. intros [= <-]. split; [reflexivity |].
    simpl in Hbound |- *. rewrite ?length_map. lia. }
  destruct (String.eqb scope "industry_board"); [| discriminate].
  destruct (_fetch_with_fallback (industry_board_fetchers ak) w)
    as [[e | [df errs]] s] eqn:Hrun; cbn [fst]; [discriminate |].
  pose proof (fetch_returned_errs_bound _ _ _ _ _ Hrun) as Hbound.
  destruct errs as [| err errs]; [discriminate |].
  simpl in Hbound. lia.
Qed.

(** X19: only a report of ["hs_a"] can carry ["fallback_errors"] in its
    [meta], and it then lists one, two or three errors, those of the sources
    tried before the one that answered: the chain of ["industry_board"] has a
    single source, so that a report of it has no error to list, and the other
    scopes record none. *)
Theorem fallback_errors_only_hs_a (scope : string) (params : option pydict)
    (w w' : Net X) (report : pyval) (m : pydict) (l : list pyval) :
  get_market_state ak scope params w = (inr report, w') ->
  field report "meta" = Some (VDict m) ->
  dict_get m "fallback_errors" = Some (VList l) ->
  scope = "hs_a" /\ (1 <= List.length l <= 3)%nat.
Proof.
  intros Hrun Hmeta Hl. apply get_market_state_returned in Hrun.
  destruct Hrun as [top_n [raw_rows [_ Hrep]]].
  destruct (report_of_meta ak scope (params_or_empty params) top_n raw_rows
              (py_bool (dict_get_default (params_or_empty params) "raw" (VBool false))) w
              report) as [d [-> Hd]]; [now rewrite Hrep |].
  simpl in Hmeta. rewrite Hd in Hmeta. injection Hmeta as <-.
  exact (expected_meta_fallback_errors scope _ w l Hl).
Qed.

Lemma report_of_world (scope : string) (p p' : pydict) (top_n top_n' raw_rows raw_rows' : Z)
    (raw raw' : bool) (w : Net X) :
  dict_get p "date" = dict_get p' "date" ->
  snd (report_of ak scope p top_n raw raw_rows w)
  = snd (report_of ak scope p' top_n' raw' raw_rows' w).
Proof.
  intros Hdate.
  assert (Ed : szse_date p = szse_date p').
  { unfold szse_date, dict_get_default. now rewrite Hdate. }
  unfold report_of. cbv zeta. rewrite Ed.
  destruct (String.eqb scope "hs_a"); [now rewrite !chain_report_world |].
  destruct (String.eqb scope "industry_board"); [now rewrite !chain_report_world |].
  destruct (String.eqb scope "sse_summary"); [now rewrite !call_report_world |].
  destruct (String.eqb scope "szse_summary"); [| reflexivity].
  destruct (String.eqb (szse_date p') EmptyString); [reflexivity |].
  now rewrite !call_report_world.
Qed.

(** X20: what a run of [get_market_state] does to the world, the calls it
    makes and what the provider does on them, depends on the scope and on
    the date of [params] only: [top_n], [raw] and [raw_rows] change the
    report and not the fetch. *)
Theorem fetch_independent_of_display (scope : string) (params params' : option pydict)
    (w : Net X) (top_n raw_rows top_n' raw_rows' : Z) :
  converts (params_or_empty params) top_n raw_rows ->
  converts (params_or_empty params') top_n' raw_rows' ->
  dict_get (params_or_empty params) "date" = dict_get (params_or_empty params') "date" ->
  snd (get_market_state ak scope params w) = snd (get_market_state ak scope params' w).
Proof.
  intros Hconv Hconv' Hdate.
  rewrite (get_market_state_direct ak _ _ _ _ _ Hconv),
    (get_market_state_direct ak _ _ _ _ _ Hconv').
  now apply report_of_world.
Qed.
End FallbackErrors.

Lemma fallback_errors_only_hs_a_witness :
  "hs_a" = "hs_a"
  /\ (1 <= List.length [VStr "[eastmoney_spot_em] ConnectionError: Connection aborted."]
      <= 3)%nat.
Proof.
  apply (@fallback_errors_only_hs_a plain_runtime nat sample_provider "hs_a" None fresh_net
           (snd sample_run) sample_report
           [("scope", VStr "hs_a"); ("asof", VStr "2024-01-02 15:00:00");
            ("source", VStr "akshare"); ("akshare_version", VStr "1.12.0");
            ("params", VDict []); ("data_source", VStr "auto_fallback");
            ("fallback_errors",
             VList [VStr "[eastmoney_spot_em] ConnectionError: Connection aborted."])]).
  - vm_compute. reflexivity.
  - vm_compute. reflexivity.
  - reflexivity.
Defined.

Lemma fetch_independent_of_display_witness :
  snd (@get_market_state plain_runtime nat sample_provider "hs_a" None fresh_net)
  = snd (@get_market_state plain_runtime nat sample_provider "hs_a"
           (Some [("top_n", VInt 3); ("raw", VBool true); ("raw_rows", VInt 2)])
           fresh_net).
Proof.
  apply (@fetch_independent_of_display plain_runtime nat sample_provider "hs_a" None
           (Some [("top_n", VInt 3); ("raw", VBool true); ("raw_rows", VInt 2)])
           fresh_net 20 5 3 2).
  - split; reflexivity.
  - split; reflexivity.
  - reflexivity.
Defined.
